(** * Gantt layout and interaction engine: a shallow embedding of [src/index.ts]

    The file follows the class [Gantt] of [src/index.ts]: the task resolver
    ([setup_tasks], [setupDependencies]), the view scale
    ([update_view_scale], [view_is]), the snap function
    ([get_snap_position]), the dependent-closure traversal
    ([get_all_dependent_tasks]) and the pointer handlers installed by
    [bind_bar_events] and [bind_bar_progress].

    Conventions.
    - A JavaScript number is a rational ([Q]); the model is exact wherever
      the double arithmetic of the source is (pixel offsets and the scales
      set by [update_view_scale] are integers, and every division the
      source performs on them is exact). [NaN] is [None] where a number
      can be one.
    - A JavaScript string is the [string] of the bytes of its UTF-8
      encoding; [undefined] / [null] is [None].
    - A [Date] is [Some ms] (milliseconds since the epoch) or [None] for an
      Invalid Date.
    - An object used as a dictionary is the [gmap] of its own properties.
      A key that names a member of [Object.prototype] and has no own entry
      reads the inherited member: [setupDependencies] throws on it
      ([push_dependent]); the traversal reads the map under task ids only,
      which are assumed not to be named like such a member.
    - Objects shared between [this.bars] and the closures of the handlers
      live in one store, the list [bars] of the engine; a reference to a
      bar is its position in that list. *)

From Stdlib Require Import ZArith QArith Qabs Lqa String Ascii.
From stdpp Require Import gmap strings list.

Local Open Scope string_scope.
Local Open Scope list_scope.
Local Open Scope Z_scope.

(** ** JavaScript values used by the engine *)

Module JS.

(** [Boolean(s)] for a string: only the empty string is falsy. *)
Definition truthy_string (s : string) : bool :=
  match s with
  | EmptyString => false
  | String _ _ => true
  end.

(** [Boolean(v)] for a value that is a string or [undefined]. *)
Definition truthy (v : option string) : bool :=
  match v with
  | Some s => truthy_string s
  | None => false
  end.

(** Every object is truthy, the empty array included. *)
Definition truthy_array {A} (_ : list A) : bool := true.

(** The property key a value is converted to: [obj[undefined]] reads the
    property named ["undefined"]. *)
Definition to_property_key (v : option string) : string :=
  match v with
  | Some s => s
  | None => "undefined"
  end.

(** [Array.prototype.includes] on strings-or-undefined (SameValueZero). *)
Definition includes (l : list (option string)) (v : option string) : bool :=
  bool_decide (v ∈ l).

(** The string of the bytes [l]. *)
Definition bytes (l : list N) : string :=
  string_of_list_ascii (map ascii_of_N l).

(** The code points [String.prototype.trim] removes, in UTF-8: the white
    space TAB, VT, FF, SPACE, U+00A0, U+1680, U+2000 to U+200A, U+202F,
    U+205F, U+3000 and U+FEFF, and the line terminators LF, CR, U+2028 and
    U+2029. *)
Definition white_space : list string :=
  bytes <$>
    ([[9]; [10]; [11]; [12]; [13]; [32]; [194; 160]; [225; 154; 128];
      [226; 128; 128]; [226; 128; 129]; [226; 128; 130]; [226; 128; 131];
      [226; 128; 132]; [226; 128; 133]; [226; 128; 134]; [226; 128; 135];
      [226; 128; 136]; [226; 128; 137]; [226; 128; 138]; [226; 128; 168];
      [226; 128; 169]; [226; 128; 175]; [226; 129; 159]; [227; 128; 128];
      [239; 187; 191]] : list (list N))%N.

(** [s] without the prefix [p], when it has it. *)
Fixpoint strip_prefix (p s : string) : option string :=
  match p, s with
  | EmptyString, _ => Some s
  | String a p', String b s' => if Ascii.eqb a b then strip_prefix p' s' else None
  | String _ _, EmptyString => None
  end.

(** [s] without the first of the [prefixes] it starts with. *)
Fixpoint strip_one (prefixes : list string) (s : string) : option string :=
  match prefixes with
  | [] => None
  | p :: prefixes' =>
      match strip_prefix p s with
      | Some rest => Some rest
      | None => strip_one prefixes' s
      end
  end.

(** The [prefixes] are removed from the start of [s] for as long as there
    is one; each removal shortens [s], so [fuel] need not exceed its
    length. *)
Fixpoint strip_all (prefixes : list string) (fuel : nat) (s : string) : string :=
  match fuel with
  | O => s
  | S fuel' =>
      match strip_one prefixes s with
      | Some rest => strip_all prefixes fuel' rest
      | None => s
      end
  end.

Definition reverse (s : string) : string :=
  string_of_list_ascii (rev (list_ascii_of_string s)).

Definition trimStart (s : string) : string :=
  strip_all white_space (String.length s) s.

Definition trimEnd (s : string) : string :=
  reverse (strip_all (reverse <$> white_space) (String.length s) (reverse s)).

Definition trim (s : string) : string := trimEnd (trimStart s).

(** [s.split(sep)] for a separator of one character: never empty,
    [split sep ""] is [[""]]. *)
Fixpoint split (sep : ascii) (s : string) : list string :=
  match s with
  | EmptyString => [EmptyString]
  | String c s' =>
      if Ascii.eqb c sep then EmptyString :: split sep s'
      else match split sep s' with
           | [] => [String c EmptyString]
           | w :: ws => String c w :: ws
           end
  end.

End JS.

(** [dependencyMap : Record<string, unknown[]>]: task id -> ids of the tasks
    that depend on it. The arrays hold whatever [t.id] was pushed: a string,
    or [undefined]. *)
Abbreviation DependencyMap := (gmap string (list (option string))).

(** ** Dates and the date utilities *)

(** A [Date] object: [Some ms] for a concrete point in time, [None] for an
    Invalid Date. *)
Definition Date : Type := option Z.

(** The [start] / [end] field of a raw task: [string | Date], or missing
    ([undefined], and [null] once [setup_tasks] discards an end). *)
Inductive RawDate : Type :=
  | RawAbsent
  | RawString (s : string)
  | RawDateObj (d : Date).

(** Truthiness of such a field, as [!resolvedTask.start] tests it: a missing
    field and the empty string are falsy, a [Date] object never is. *)
Definition truthy_date (r : RawDate) : bool :=
  match r with
  | RawAbsent => false
  | RawString s => JS.truthy_string s
  | RawDateObj _ => true
  end.

Inductive Scale : Type :=
  | Millisecond | Second | Minute | Hour | Day | Month | Year.

(** The module [./dateUtils] is imported by [src/index.ts] and is not under [src/]: the engine is parameterised by it. The members are
    those [setup_tasks] calls, with the signatures of section 6 of the
    specification: [parse(value)] gives a concrete date or fails,
    [diff(a, b, unit)] is numeric ([None] for [NaN]), [add(date, amount,
    unit)], [today()] and [get_date_values(date)], the component breakdown
    [[year; month; date; hours; minutes; seconds; milliseconds]]. *)
Class DateUtils : Type := {
  parse : RawDate -> Date;
  diff : Date -> Date -> Scale -> option Q;
  add : Date -> Z -> Scale -> Date;
  today : Z;
  get_date_values : Date -> list (option Z);
}.

Definition ms_per_hour : Z := 3600000.
Definition ms_per_day : Z := 24 * ms_per_hour.

(** What the engine relies on: a missing or empty value does not parse to a
    date, arithmetic on an Invalid Date gives an Invalid Date or [NaN], and
    adding hours or days moves a date by that many hours or days of 24
    hours (no daylight-saving shift in between). *)
Class DateUtilsLaws (U : DateUtils) : Prop := {
  parse_falsy : forall r, truthy_date r = false -> parse r = None;
  add_invalid : forall n u, add None n u = None;
  add_hour : forall ms n, add (Some ms) n Hour = Some (ms + n * ms_per_hour);
  add_day : forall ms n, add (Some ms) n Day = Some (ms + n * ms_per_day);
  diff_invalid : forall a b u, a = None \/ b = None -> diff a b u = None;
}.

(** The year of [diff]: twelve months of thirty days. *)
Definition ms_per_year : Z := 12 * (30 * ms_per_day).

(** How [diff] counts the years between two dates, which
    [DateUtilsLaws] leaves open: in whole years of 360 days, rounded
    down, as the instance [UTC.dateUtils] below does. *)
Class DiffInYears (U : DateUtils) : Prop := {
  diff_year :
    forall a b, diff (Some a) (Some b) Year = Some (inject_Z ((a - b) / ms_per_year));
}.

(** [a > b] on dates: the time values are compared, and a comparison with an
    Invalid Date ([NaN]) is false. *)
Definition date_gt (a b : Date) : bool :=
  match a, b with
  | Some x, Some y => y <? x
  | _, _ => false
  end.

(** [n > 10] on a number that may be [NaN]. *)
Definition gt_10 (n : option Q) : bool :=
  match n with
  | Some q => if Qlt_le_dec 10 q then true else false
  | None => false
  end.

(** ** Tasks *)

(** The [dependencies] field of a raw task: [string | string[]], optional. *)
Inductive RawDependencies : Type :=
  | DepsAbsent
  | DepsString (s : string)
  | DepsList (l : list string).

Module Task.
Record t : Type := mk {
  id : option string;
  name : string;
  start : RawDate;
  end_ : RawDate;
  progress : Q;
  dependencies : RawDependencies;
  custom_class : option string;
}.
End Task.

Module ResolvedTask.
(** [dependencies] is [None] when the property holds [undefined];
    [invalid = false] stands for the property not being set. *)
Record t : Type := mk {
  id : option string;
  name : string;
  start : RawDate;
  end_ : RawDate;
  progress : Q;
  custom_class : option string;
  invalid : bool;
  indexResolved : nat;
  endResolved : Date;
  dependencies : option (list string);
  startResolved : Date;
}.

Definition set_id (v : option string) (r : t) : t :=
  mk v (name r) (start r) (end_ r) (progress r) (custom_class r) (invalid r)
     (indexResolved r) (endResolved r) (dependencies r) (startResolved r).
Definition set_end (v : RawDate) (r : t) : t :=
  mk (id r) (name r) (start r) v (progress r) (custom_class r) (invalid r)
     (indexResolved r) (endResolved r) (dependencies r) (startResolved r).
Definition set_invalid (v : bool) (r : t) : t :=
  mk (id r) (name r) (start r) (end_ r) (progress r) (custom_class r) v
     (indexResolved r) (endResolved r) (dependencies r) (startResolved r).
Definition set_endResolved (v : Date) (r : t) : t :=
  mk (id r) (name r) (start r) (end_ r) (progress r) (custom_class r) (invalid r)
     (indexResolved r) v (dependencies r) (startResolved r).
Definition set_startResolved (v : Date) (r : t) : t :=
  mk (id r) (name r) (start r) (end_ r) (progress r) (custom_class r) (invalid r)
     (indexResolved r) (endResolved r) (dependencies r) v.
End ResolvedTask.

(** [generateId]: the name, an underscore and ten characters drawn from
    [Math.random()], here the argument [rnd]. *)
Definition generateId (task : ResolvedTask.t) (rnd : string) : string :=
  ResolvedTask.name task +:+ "_" +:+ rnd.

(** [x = v] under [if (c)]: a conditional assignment. *)
Definition when {A} (c : bool) (f : A -> A) (a : A) : A := if c then f a else a.

Section Resolver.
Context {U : DateUtils}.

(** The dependencies of the resolved task, the first statements of the
    callback of [tasks.map] in [setup_tasks]. The second test reads the
    local array [dependencies] (initialised to [[]]), not the field of the
    task. *)
Definition resolve_dependencies (task : Task.t) : option (list string) :=
  let dependencies : list string := [] in
  match Task.dependencies task with
  | DepsString s =>
      Some (List.filter JS.truthy_string (map JS.trim (JS.split "," s)))
  | DepsList l =>
      if JS.truthy_array dependencies then Some l else Some dependencies
  | DepsAbsent =>
      (* [dependencies = task.dependencies], which is [undefined] *)
      if JS.truthy_array dependencies then None else Some dependencies
  end.

(** [taskEndValues.slice(3).every((d) => d === 0)] *)
Definition time_is_zero (taskEndValues : list (option Z)) : bool :=
  forallb (fun d => bool_decide (d = Some 0)) (drop 3 taskEndValues).

(** The callback of [tasks.map] in [setup_tasks]: the statements in source
    order, each on the task record built so far. *)
Definition resolve_task (rnd : string) (task : Task.t) (i : nat) : ResolvedTask.t :=
  let dependencies := resolve_dependencies task in
  let resolvedTask :=
    ResolvedTask.mk (Task.id task) (Task.name task) (Task.start task)
      (Task.end_ task) (Task.progress task) (Task.custom_class task) false
      i (parse (Task.end_ task)) dependencies (parse (Task.start task)) in
  (* make task invalid if duration too large *)
  let resolvedTask :=
    when (gt_10 (diff (ResolvedTask.endResolved resolvedTask)
                      (ResolvedTask.startResolved resolvedTask) Year))
         (ResolvedTask.set_end RawAbsent) resolvedTask in
  (* invalid dates *)
  let resolvedTask :=
    when (negb (truthy_date (ResolvedTask.start resolvedTask))
          && negb (truthy_date (ResolvedTask.end_ resolvedTask)))
         (fun r => ResolvedTask.set_endResolved (add (Some today) 2 Day)
                     (ResolvedTask.set_startResolved (Some today) r))
         resolvedTask in
  let resolvedTask :=
    when (negb (truthy_date (ResolvedTask.start resolvedTask))
          && truthy_date (ResolvedTask.end_ resolvedTask))
         (fun r => ResolvedTask.set_startResolved
                     (add (ResolvedTask.endResolved r) (-2) Day) r)
         resolvedTask in
  let resolvedTask :=
    when (truthy_date (ResolvedTask.start resolvedTask)
          && negb (truthy_date (ResolvedTask.end_ resolvedTask)))
         (fun r => ResolvedTask.set_endResolved
                     (add (ResolvedTask.startResolved r) 2 Day) r)
         resolvedTask in
  (* if hours is not set, assume the last day is full day *)
  let taskEndValues := get_date_values (ResolvedTask.endResolved resolvedTask) in
  let resolvedTask :=
    when (time_is_zero taskEndValues)
         (fun r => ResolvedTask.set_endResolved
                     (add (ResolvedTask.endResolved r) 24 Hour) r)
         resolvedTask in
  (* invalid flag *)
  let resolvedTask :=
    when (negb (truthy_date (ResolvedTask.start resolvedTask))
          || negb (truthy_date (ResolvedTask.end_ resolvedTask)))
         (ResolvedTask.set_invalid true) resolvedTask in
  (* uids *)
  let resolvedTask :=
    when (negb (JS.truthy (ResolvedTask.id resolvedTask)))
         (fun r => ResolvedTask.set_id (Some (generateId r rnd)) r)
         resolvedTask in
  resolvedTask.

(** [tasks.map((task, i) => ...)]; [rnd k] is the draw of [Math.random]
    available to the task at position [k]. *)
Fixpoint map_resolve (rnd : nat -> string) (i : nat) (tasks : list Task.t)
    : list ResolvedTask.t :=
  match tasks with
  | [] => []
  | task :: tasks' => resolve_task (rnd i) task i :: map_resolve rnd (S i) tasks'
  end.

End Resolver.

(** How a method ends: it returns, or a [TypeError] is thrown when a property
    of [undefined] is read or a value that is no function is called. State
    written before the throw stays written. *)
Inductive completion : Type :=
  | Normal
  | TypeError.

(** The names of the members every object inherits from
    [Object.prototype]. *)
Definition Object_prototype_members : list string :=
  ["constructor"; "__defineGetter__"; "__defineSetter__"; "hasOwnProperty";
   "__lookupGetter__"; "__lookupSetter__"; "isPrototypeOf";
   "propertyIsEnumerable"; "toString"; "valueOf"; "__proto__";
   "toLocaleString"].

Definition inherited (k : string) : bool :=
  bool_decide (k ∈ Object_prototype_members).

(** [this.dependencyMap[d] = this.dependencyMap[d] || [];
     this.dependencyMap[d].push(t.id)]. For a [d] without an own entry that
    names an inherited member, the read gives that member, which is truthy
    and has no [push]: the call throws. The own property the assignment has
    made by then holds the member, as the read did before: it is no list
    of ids and the map is left without it. *)
Definition push_dependent (t_id : option string) (dependencyMap : DependencyMap)
    (d : string) : DependencyMap * completion :=
  match dependencyMap !! d with
  | Some ds => (<[d := ds ++ [t_id]]> dependencyMap, Normal)
  | None =>
      if inherited d then (dependencyMap, TypeError)
      else (<[d := [t_id]]> dependencyMap, Normal)
  end.

(** [t.dependencies.forEach((d) => ...)] for one task: a throw ends it. *)
Fixpoint forEach_dependency (t_id : option string) (dependencyMap : DependencyMap)
    (ds : list string) : DependencyMap * completion :=
  match ds with
  | [] => (dependencyMap, Normal)
  | d :: ds' =>
      match push_dependent t_id dependencyMap d with
      | (dependencyMap', Normal) => forEach_dependency t_id dependencyMap' ds'
      | thrown => thrown
      end
  end.

(** [this.tasks.forEach((t) => t.dependencies.forEach(...))], from the map
    built so far: [t.dependencies.forEach] throws when [t.dependencies] is
    [undefined]. *)
Fixpoint forEach_task_dependencies (dependencyMap : DependencyMap)
    (tasks : list ResolvedTask.t) : DependencyMap * completion :=
  match tasks with
  | [] => (dependencyMap, Normal)
  | t :: tasks' =>
      match ResolvedTask.dependencies t with
      | None => (dependencyMap, TypeError)
      | Some ds =>
          match forEach_dependency (ResolvedTask.id t) dependencyMap ds with
          | (dependencyMap', Normal) =>
              forEach_task_dependencies dependencyMap' tasks'
          | thrown => thrown
          end
      end
  end.

(** ** The dependency map and its traversal *)

(** [acc.concat(this.dependencyMap[curr])]: an array argument is spliced in,
    [undefined] (no entry for [curr]) is appended as one element. [curr] is
    the id of a task, or [undefined]: neither names a member of
    [Object.prototype] (the convention on ids). *)
Definition concat_dependents (dependencyMap : DependencyMap)
    (acc : list (option string)) (curr : option string) : list (option string) :=
  match dependencyMap !! JS.to_property_key curr with
  | Some ds => acc ++ ds
  | None => acc ++ [None]
  end.

(** One iteration of the [while] loop of [get_all_dependent_tasks], on the
    pair [(out, to_process)]. *)
Definition dependents_step (dependencyMap : DependencyMap)
    (st : list (option string) * list (option string))
    : list (option string) * list (option string) :=
  let '(out, to_process) := st in
  let deps := foldl (concat_dependents dependencyMap) [] to_process in
  (out ++ deps, List.filter (fun d => negb (JS.includes to_process d)) deps).

(** The [while (to_process.length)] loop, with a bound on the number of
    iterations: [None] when the bound is reached with work left. *)
Fixpoint dependents_loop (fuel : nat) (dependencyMap : DependencyMap)
    (out to_process : list (option string)) : option (list (option string)) :=
  match to_process with
  | [] => Some out
  | _ :: _ =>
      match fuel with
      | O => None
      | S fuel' =>
          let '(out', to_process') := dependents_step dependencyMap (out, to_process) in
          dependents_loop fuel' dependencyMap out' to_process'
      end
  end.

(** [out.filter(Boolean)]: the truthy entries, which are strings. *)
Definition filter_Boolean (out : list (option string)) : list string :=
  omap (fun v => if JS.truthy v then v else None) out.

Definition get_all_dependent_tasks (fuel : nat) (dependencyMap : DependencyMap)
    (task_id : string) : option (list string) :=
  filter_Boolean <$> dependents_loop fuel dependencyMap [] [Some task_id].

(** ** Options and the view scale *)

Module VIEW_MODE.
Definition QUARTER_DAY : string := "Quarter Day".
Definition HALF_DAY : string := "Half Day".
Definition DAY : string := "Day".
Definition WEEK : string := "Week".
Definition MONTH : string := "Month".
Definition YEAR : string := "Year".
Definition values : list string :=
  [QUARTER_DAY; HALF_DAY; DAY; WEEK; MONTH; YEAR].
End VIEW_MODE.

Module Options.
(** [view_mode] is a string: the type [ViewMode] is erased at run time
    and a caller can pass any. *)
Record t : Type := mk {
  header_height : Q;
  column_width : Q;
  step : Q;
  view_modes : list string;
  bar_height : Q;
  bar_corner_radius : Q;
  arrow_curve : Q;
  padding : Q;
  view_mode : string;
  date_format : string;
  custom_popup_html : option string;
  popup_trigger : string;
  language : string;
}.

Definition set_view_mode (v : string) (o : t) : t :=
  mk (header_height o) (column_width o) (step o) (view_modes o) (bar_height o)
     (bar_corner_radius o) (arrow_curve o) (padding o) v (date_format o)
     (custom_popup_html o) (popup_trigger o) (language o).
Definition set_step (v : Q) (o : t) : t :=
  mk (header_height o) (column_width o) v (view_modes o) (bar_height o)
     (bar_corner_radius o) (arrow_curve o) (padding o) (view_mode o) (date_format o)
     (custom_popup_html o) (popup_trigger o) (language o).
Definition set_column_width (v : Q) (o : t) : t :=
  mk (header_height o) v (step o) (view_modes o) (bar_height o)
     (bar_corner_radius o) (arrow_curve o) (padding o) (view_mode o) (date_format o)
     (custom_popup_html o) (popup_trigger o) (language o).
End Options.

(** [defaultOptions] of [setup_options]. *)
Definition defaultOptions : Options.t :=
  Options.mk 50 30 24 VIEW_MODE.values 20 3 5 18 "Day" "YYYY-MM-DD" None "click" "en".

(** [update_view_scale], on the options and the console: the mode is stored
    first, then the [switch] sets the scale of a known mode and logs an
    error for any other. *)
Definition update_view_scale (view_mode : string) (st : Options.t * list string)
    : Options.t * list string :=
  let '(options, console) := st in
  let options := Options.set_view_mode view_mode options in
  if String.eqb view_mode "Quarter Day" then
    (Options.set_column_width 38 (Options.set_step (24 / 4) options), console)
  else if String.eqb view_mode "Half Day" then
    (Options.set_column_width 38 (Options.set_step (24 / 2) options), console)
  else if String.eqb view_mode "Day" then
    (Options.set_column_width 38 (Options.set_step 24 options), console)
  else if String.eqb view_mode "Week" then
    (Options.set_column_width 140 (Options.set_step (24 * 7) options), console)
  else if String.eqb view_mode "Month" then
    (Options.set_column_width 120 (Options.set_step (24 * 30) options), console)
  else if String.eqb view_mode "Year" then
    (Options.set_column_width 120 (Options.set_step (24 * 365) options), console)
  else
    (options, console ++ ["Unknown view mode used: " +:+ view_mode]).

(** [view_is(modes)] for a string argument. *)
Definition view_is (options : Options.t) (modes : string) : bool :=
  String.eqb (Options.view_mode options) modes.

(** ** Snapping *)

(** The remainder operator [a % b] of JavaScript, for [b] other than zero:
    the quotient is truncated toward zero, so the result has the sign of
    [a]. The remainder is that of the rationals: it is the one of the
    doubles of the source where their arithmetic is exact, as it is at the
    column widths [update_view_scale] sets (38, 140 and 120, whose seventh,
    fourteenth, thirtieth and sixtieth are 20, 10, 4 and 2) for a delta
    within the range of the exact integers. *)
Definition js_rem (a b : Q) : Q :=
  let q := (a / b)%Q in
  (a - b * inject_Z (Z.quot (Qnum q) (Zpos (Qden q))))%Q.

(** [a < b] on numbers. *)
Definition js_lt (a b : Q) : bool := if Qlt_le_dec a b then true else false.

Definition get_snap_position (options : Options.t) (dx : Q) : Q :=
  let odx := dx in
  let column_width := Options.column_width options in
  if view_is options VIEW_MODE.WEEK then
    let rem := js_rem dx (column_width / 7) in
    (odx - rem + (if js_lt rem (column_width / 14) then 0 else column_width / 7))%Q
  else if view_is options VIEW_MODE.MONTH then
    let rem := js_rem dx (column_width / 30) in
    (odx - rem + (if js_lt rem (column_width / 60) then 0 else column_width / 30))%Q
  else
    let rem := js_rem dx column_width in
    (odx - rem + (if js_lt rem (column_width / 2) then 0 else column_width))%Q.

(** ** Bars and the engine state *)

Module Rect.
(** An SVG rectangle ([$bar], [$bar_progress]): the attributes [x], [y]
    and [width], and the properties the handlers attach to the element.
    The attached properties are read only after a pointer-down has written
    them. *)
Record t : Type := mk {
  x : Q;
  y : Q;
  width : Q;
  ox : Q;
  oy : Q;
  owidth : Q;
  finaldx : Q;
  min_dx : Q;
  max_dx : Q;
}.

Definition set_x (v : Q) (r : t) : t :=
  mk v (y r) (width r) (ox r) (oy r) (owidth r) (finaldx r) (min_dx r) (max_dx r).
Definition set_width (v : Q) (r : t) : t :=
  mk (x r) (y r) v (ox r) (oy r) (owidth r) (finaldx r) (min_dx r) (max_dx r).
Definition set_ox (v : Q) (r : t) : t :=
  mk (x r) (y r) (width r) v (oy r) (owidth r) (finaldx r) (min_dx r) (max_dx r).
Definition set_oy (v : Q) (r : t) : t :=
  mk (x r) (y r) (width r) (ox r) v (owidth r) (finaldx r) (min_dx r) (max_dx r).
Definition set_owidth (v : Q) (r : t) : t :=
  mk (x r) (y r) (width r) (ox r) (oy r) v (finaldx r) (min_dx r) (max_dx r).
Definition set_finaldx (v : Q) (r : t) : t :=
  mk (x r) (y r) (width r) (ox r) (oy r) (owidth r) v (min_dx r) (max_dx r).
Definition set_min_dx (v : Q) (r : t) : t :=
  mk (x r) (y r) (width r) (ox r) (oy r) (owidth r) (finaldx r) v (max_dx r).
Definition set_max_dx (v : Q) (r : t) : t :=
  mk (x r) (y r) (width r) (ox r) (oy r) (owidth r) (finaldx r) (min_dx r) v.

(** Modelled from the spec: the accessors [getX()], [getY()] and
    [getWidth()] of an element and the setter [$.attr] of [./svgUtils],
    which is not under [src/]. Section 6 of the
    specification names them attribute setters and queries of the drawing
    primitives: they read and write the attribute of their name. *)
Definition getX (r : t) : Q := x r.
Definition getY (r : t) : Q := y r.
Definition getWidth (r : t) : Q := width r.
Definition attr_width (v : Q) (r : t) : t := set_width v r.
End Rect.

Module Bar.
(** What [src/index.ts] reads and writes of a [Bar] of [./bar]:
    [bar.task.id], [bar.$bar] and [bar.$bar_progress]. *)
Record t : Type := mk {
  task_id : option string;
  bar : Rect.t;
  bar_progress : Rect.t;
}.

Definition set_bar (v : Rect.t) (b : t) : t := mk (task_id b) v (bar_progress b).
Definition set_bar_progress (v : Rect.t) (b : t) : t := mk (task_id b) (bar b) v.

(** Modelled from the spec: [Bar.update_bar_position] of [./bar], which is not under [src/]. Section 3 of the specification has a
    bar own its current x and width, and section 4.4 has the handlers
    shift the x and change the width of a bar by the snapped delta: the
    members of the argument that are given become the x and the width of
    [$bar]. By section 7 a resize past the opposite edge is clamped and
    never produces a negative width: a width below zero becomes zero, and
    an x that comes with it stops at the edge it would pass, [x + width]. *)
Definition update_bar_position (x width : option Q) (b : t) : t :=
  let past_the_edge :=
    match width with
    | Some w => js_lt w 0
    | None => false
    end in
  let x := if past_the_edge then (fun v => v + default 0 width)%Q <$> x else x in
  let width := if past_the_edge then Some 0%Q else width in
  let b := match x with
           | Some v => set_bar (Rect.set_x v (bar b)) b
           | None => b
           end in
  match width with
  | Some v => set_bar (Rect.set_width v (bar b)) b
  | None => b
  end.
End Bar.

Module Gantt.
(** The fields of the engine the modelled methods use; [console] collects
    the messages of [console.error]. [bars] is the store of the bar
    objects: a reference to a bar is its position in the list. *)
Record t : Type := mk {
  options : Options.t;
  tasks : list ResolvedTask.t;
  dependencyMap : DependencyMap;
  bars : list Bar.t;
  bar_being_dragged : option string;
  console : list string;
}.

Definition set_options (v : Options.t) (g : t) : t :=
  mk v (tasks g) (dependencyMap g) (bars g) (bar_being_dragged g) (console g).
Definition set_tasks (v : list ResolvedTask.t) (g : t) : t :=
  mk (options g) v (dependencyMap g) (bars g) (bar_being_dragged g) (console g).
Definition set_dependencyMap (v : DependencyMap) (g : t) : t :=
  mk (options g) (tasks g) v (bars g) (bar_being_dragged g) (console g).
Definition set_bars (v : list Bar.t) (g : t) : t :=
  mk (options g) (tasks g) (dependencyMap g) v (bar_being_dragged g) (console g).
Definition set_bar_being_dragged (v : option string) (g : t) : t :=
  mk (options g) (tasks g) (dependencyMap g) (bars g) v (console g).
Definition set_console (v : list string) (g : t) : t :=
  mk (options g) (tasks g) (dependencyMap g) (bars g) (bar_being_dragged g) v.
End Gantt.

(** [setupDependencies]: the map is emptied, then filled task by task. *)
Definition setupDependencies (g : Gantt.t) : Gantt.t * completion :=
  let g := Gantt.set_dependencyMap ∅ g in
  let '(dependencyMap, c) :=
    forEach_task_dependencies (Gantt.dependencyMap g) (Gantt.tasks g) in
  (Gantt.set_dependencyMap dependencyMap g, c).

(** [setup_tasks]: [this.tasks] is assigned the resolved tasks, then
    [setupDependencies] runs. *)
Definition setup_tasks {U : DateUtils} (rnd : nat -> string)
    (tasks : list Task.t) (g : Gantt.t) : Gantt.t * completion :=
  let g := Gantt.set_tasks (map_resolve rnd 0 tasks) g in
  setupDependencies g.

(** ** Changing the view mode *)

Section ChangeViewMode.

(** The methods [setup_dates] and [render] do their work on the time scale
    and on the document through [./dateUtils], [./svgUtils], [./bar] and
    [./arrow], which are not under [src/], and [trigger_event] calls the
    callback [on_view_change] of the options, if there is one: the three
    are parameters, each taking the engine to the engine it leaves and to
    the way it ends. *)
Variable setup_dates : Gantt.t -> Gantt.t * completion.
Variable render : Gantt.t -> Gantt.t * completion.
Variable trigger_event : string -> list string -> Gantt.t -> Gantt.t * completion.

(** What follows [update_view_scale] in [change_view_mode]. *)
Definition after_view_scale (mode : string) (g : Gantt.t) : Gantt.t * completion :=
  match setup_dates g with
  | (g, Normal) =>
      match render g with
      | (g, Normal) =>
          (* fire viewmode_change event *)
          trigger_event "view_change" [mode] g
      | thrown => thrown
      end
  | thrown => thrown
  end.

(** [change_view_mode(mode)]. *)
Definition change_view_mode (mode : string) (g : Gantt.t) : Gantt.t * completion :=
  let '(options, console) :=
    update_view_scale mode (Gantt.options g, Gantt.console g) in
  let g := Gantt.set_console console (Gantt.set_options options g) in
  after_view_scale mode g.

End ChangeViewMode.

(** [get_bar(id)]: a reference to the first bar of that task id, [None] for
    [undefined]. *)
Definition get_bar (g : Gantt.t) (id : string) : option nat :=
  fst <$> list_find (fun b => Bar.task_id b = Some id) (Gantt.bars g).

(** [refs.forEach((bar) => { const { $bar } = bar; ... })] on the store:
    [f] is applied in place to each referenced bar in turn; destructuring
    [undefined] throws. *)
Fixpoint forEach_bar (f : Bar.t -> Bar.t) (refs : list (option nat))
    (store : list Bar.t) : list Bar.t * completion :=
  match refs with
  | [] => (store, Normal)
  | None :: _ => (store, TypeError)
  | Some i :: refs' => forEach_bar f refs' (alter f i store)
  end.

(** ** Pointer handlers of [bind_bar_events] *)

(** A pointer event as the handlers read it, and the element a delegated
    handler receives: its class list and the [data-id] of the closest
    [.bar-wrapper]. *)
Record MouseEvent : Type := {
  offsetX : Q;
  offsetY : Q;
}.

Record Element : Type := {
  classList : list string;
  data_id : string;
}.

Definition contains (element : Element) (c : string) : bool :=
  bool_decide (c ∈ classList element).

Module BarEvents.
(** The variables [bind_bar_events] closes over. [bars] holds references
    into the store, [None] where [get_bar] found no bar. *)
Record t : Type := mk {
  is_dragging : bool;
  x_on_start : Q;
  y_on_start : Q;
  is_resizing_left : bool;
  is_resizing_right : bool;
  parent_bar_id : option string;
  bars : list (option nat);
}.

Definition initial : t := mk false 0 0 false false None [].

Definition set_is_dragging (v : bool) (c : t) : t :=
  mk v (x_on_start c) (y_on_start c) (is_resizing_left c) (is_resizing_right c)
     (parent_bar_id c) (bars c).
Definition set_is_resizing_left (v : bool) (c : t) : t :=
  mk (is_dragging c) (x_on_start c) (y_on_start c) v (is_resizing_right c)
     (parent_bar_id c) (bars c).
Definition set_is_resizing_right (v : bool) (c : t) : t :=
  mk (is_dragging c) (x_on_start c) (y_on_start c) (is_resizing_left c) v
     (parent_bar_id c) (bars c).

Definition action_in_progress (c : t) : bool :=
  is_dragging c || is_resizing_left c || is_resizing_right c.
End BarEvents.

(** The snapshot taken of each affected bar on pointer-down. *)
Definition snapshot_bar (b : Bar.t) : Bar.t :=
  let r := Bar.bar b in
  let r := Rect.set_ox (Rect.getX r) r in
  let r := Rect.set_oy (Rect.getY r) r in
  let r := Rect.set_owidth (Rect.getWidth r) r in
  let r := Rect.set_finaldx 0 r in
  Bar.set_bar r b.

(** The [mousedown] handler on [.bar-wrapper, .handle]. The result is [None]
    when [get_all_dependent_tasks] does not return within [fuel]
    iterations. The class [active] put on the wrapper is not modelled. *)
Definition bar_mousedown (fuel : nat) (e : MouseEvent) (element : Element)
    (g : Gantt.t) (c : BarEvents.t) : option (Gantt.t * BarEvents.t * completion) :=
  let c :=
    if contains element "left" then BarEvents.set_is_resizing_left true c
    else if contains element "right" then BarEvents.set_is_resizing_right true c
    else if contains element "bar-wrapper" then BarEvents.set_is_dragging true c
    else c in
  let x_on_start := offsetX e in
  let y_on_start := offsetY e in
  let parent_bar_id := data_id element in
  dependents ← get_all_dependent_tasks fuel (Gantt.dependencyMap g) parent_bar_id;
  let ids := parent_bar_id :: dependents in
  let bars := map (get_bar g) ids in
  let g := Gantt.set_bar_being_dragged (Some parent_bar_id) g in
  let '(store, r) := forEach_bar snapshot_bar bars (Gantt.bars g) in
  Some (Gantt.set_bars store g,
        BarEvents.mk (BarEvents.is_dragging c) x_on_start y_on_start
          (BarEvents.is_resizing_left c) (BarEvents.is_resizing_right c)
          (Some parent_bar_id) bars,
        r).

(** The body of [bars.forEach] in the [mousemove] handler, for one bar. *)
Definition move_bar (options : Options.t) (c : BarEvents.t) (dx : Q)
    (bar : Bar.t) : Bar.t :=
  let bar :=
    Bar.set_bar (Rect.set_finaldx (get_snap_position options dx) (Bar.bar bar)) bar in
  let sbar := Bar.bar bar in
  if BarEvents.is_resizing_left c then
    if bool_decide (BarEvents.parent_bar_id c = Bar.task_id bar) then
      Bar.update_bar_position (Some (Rect.ox sbar + Rect.finaldx sbar)%Q)
        (Some (Rect.owidth sbar - Rect.finaldx sbar)%Q) bar
    else
      Bar.update_bar_position (Some (Rect.ox sbar + Rect.finaldx sbar)%Q) None bar
  else if BarEvents.is_resizing_right c then
    if bool_decide (BarEvents.parent_bar_id c = Bar.task_id bar) then
      Bar.update_bar_position None (Some (Rect.owidth sbar + Rect.finaldx sbar)%Q) bar
    else bar
  else if BarEvents.is_dragging c then
    Bar.update_bar_position (Some (Rect.ox sbar + Rect.finaldx sbar)%Q) None bar
  else bar.

(** The [mousemove] handler of [bind_bar_events]. *)
Definition bar_mousemove (e : MouseEvent) (c : BarEvents.t) (g : Gantt.t)
    : Gantt.t * completion :=
  if negb (BarEvents.action_in_progress c) then (g, Normal)
  else
    let dx := (offsetX e - BarEvents.x_on_start c)%Q in
    let '(store, r) :=
      forEach_bar (move_bar (Gantt.options g) c dx) (BarEvents.bars c) (Gantt.bars g) in
    (Gantt.set_bars store g, r).

(** A run of [mousemove] events, in arrival order; a throwing handler ends
    its own event only. *)
Definition bar_mousemoves (es : list MouseEvent) (c : BarEvents.t) (g : Gantt.t)
    : Gantt.t :=
  foldl (fun g e => fst (bar_mousemove e c g)) g es.

(** [bars.forEach((bar) => bar.group.classList.remove('active'))]: reading
    [group] of [undefined] throws; the class [active] taken off the group of
    a bar is not modelled. *)
Fixpoint forEach_group (refs : list (option nat)) : completion :=
  match refs with
  | [] => Normal
  | None :: _ => TypeError
  | Some _ :: refs' => forEach_group refs'
  end.

(** The [mouseup] handler on [document]: the flags are reset after the
    loop over the bars, which runs when a gesture is in progress; when the
    loop throws they stay as they are. *)
Definition document_mouseup (c : BarEvents.t) : BarEvents.t * completion :=
  match
    if BarEvents.action_in_progress c then forEach_group (BarEvents.bars c)
    else Normal
  with
  | Normal =>
      (BarEvents.mk false (BarEvents.x_on_start c) (BarEvents.y_on_start c)
         false false (BarEvents.parent_bar_id c) (BarEvents.bars c), Normal)
  | TypeError => (c, TypeError)
  end.

(** ** Pointer handlers of [bind_bar_progress] *)

Module BarProgress.
(** The variables [bind_bar_progress] closes over: [bar], [$bar_progress]
    and [$bar] are references to a bar of the store ([None]: [null] or
    [undefined]); [$bar_progress] and [$bar] name the two rectangles of
    the referenced bar. *)
Record t : Type := mk {
  x_on_start : Q;
  y_on_start : Q;
  is_resizing : bool;
  bar : option nat;
  bar_progress_of : option nat;
  bar_of : option nat;
}.

Definition initial : t := mk 0 0 false None None None.
End BarProgress.

(** The [mousedown] handler on [.handle.progress]. *)
Definition progress_mousedown (e : MouseEvent) (element : Element)
    (g : Gantt.t) (c : BarProgress.t) : Gantt.t * BarProgress.t * completion :=
  let is_resizing := true in
  let x_on_start := offsetX e in
  let y_on_start := offsetY e in
  let id := data_id element in
  let bar := get_bar g id in
  match bar with
  | None =>
      (* [bar.$bar_progress] of [undefined] *)
      (g, BarProgress.mk x_on_start y_on_start is_resizing bar
            (BarProgress.bar_progress_of c) (BarProgress.bar_of c), TypeError)
  | Some i =>
      let init (b : Bar.t) : Bar.t :=
        let p := Bar.bar_progress b in
        let p := Rect.set_finaldx 0 p in
        let p := Rect.set_owidth (Rect.getWidth p) p in
        let p := Rect.set_min_dx (- Rect.getWidth p)%Q p in
        let p := Rect.set_max_dx (Rect.getWidth (Bar.bar b) - Rect.getWidth p)%Q p in
        Bar.set_bar_progress p b in
      (Gantt.set_bars (alter init i (Gantt.bars g)) g,
       BarProgress.mk x_on_start y_on_start is_resizing bar bar bar, Normal)
  end.

(** The clamp of the [mousemove] handler: the two [if] statements in source
    order. *)
Definition clamp_dx (dx min_dx max_dx : Q) : Q :=
  let dx := if js_lt max_dx dx then max_dx else dx in
  let dx := if js_lt dx min_dx then min_dx else dx in
  dx.

(** The [mousemove] handler of [bind_bar_progress]. The polygon of the
    handle is redrawn from the new width by [./bar] and is not modelled. *)
Definition progress_mousemove (e : MouseEvent) (c : BarProgress.t) (g : Gantt.t)
    : Gantt.t * completion :=
  if negb (BarProgress.is_resizing c) then (g, Normal)
  else
    let dx := (offsetX e - BarProgress.x_on_start c)%Q in
    match BarProgress.bar_progress_of c, BarProgress.bar c with
    | Some i, Some _ =>
        let resize (b : Bar.t) : Bar.t :=
          let p := Bar.bar_progress b in
          let dx := clamp_dx dx (Rect.min_dx p) (Rect.max_dx p) in
          let p := Rect.attr_width (Rect.owidth p + dx)%Q p in
          let p := Rect.set_finaldx dx p in
          Bar.set_bar_progress p b in
        (Gantt.set_bars (alter resize i (Gantt.bars g)) g, Normal)
    | _, _ => (g, TypeError)
    end.

Definition progress_mousemoves (es : list MouseEvent) (c : BarProgress.t)
    (g : Gantt.t) : Gantt.t :=
  foldl (fun g e => fst (progress_mousemove e c g)) g es.

(** ** An implementation of the date utilities *)

Module UTC.

(** One implementation of the interface [DateUtils], on the proleptic
    Gregorian calendar in a zone without daylight-saving shifts. It runs the
    examples; the theorems are stated for every implementation that obeys
    [DateUtilsLaws]. *)

(** Days since 1970-01-01 of a civil date; months outside 1..12 and days
    outside the month overflow into the neighbouring ones, as in the
    [Date] constructor. *)
Definition days_from_civil (y m d : Z) : Z :=
  let y := y + (m - 1) / 12 in
  let m := (m - 1) mod 12 + 1 in
  let y := if m <=? 2 then y - 1 else y in
  let era := y / 400 in
  let yoe := y - era * 400 in
  let doy := (153 * (if 2 <? m then m - 3 else m + 9) + 2) / 5 + d - 1 in
  let doe := yoe * 365 + yoe / 4 - yoe / 100 + doy in
  era * 146097 + doe - 719468.

Definition civil_from_days (z : Z) : Z * Z * Z :=
  let z := z + 719468 in
  let era := z / 146097 in
  let doe := z - era * 146097 in
  let yoe := (doe - doe / 1460 + doe / 36524 - doe / 146096) / 365 in
  let y := yoe + era * 400 in
  let doy := doe - (365 * yoe + yoe / 4 - yoe / 100) in
  let mp := (5 * doy + 2) / 153 in
  let d := doy - (153 * mp + 2) / 5 + 1 in
  let m := if mp <? 10 then mp + 3 else mp - 9 in
  (if m <=? 2 then y + 1 else y, m, d).

Definition digit (c : ascii) : option Z :=
  let n := Z.of_N (N_of_ascii c) in
  if (48 <=? n) && (n <=? 57) then Some (n - 48) else None.

Fixpoint digits (acc : Z) (s : string) : option Z :=
  match s with
  | EmptyString => Some acc
  | String c s' =>
      match digit c with
      | Some v => digits (10 * acc + v) s'
      | None => None
      end
  end.

Definition number (s : string) : option Z :=
  match s with
  | EmptyString => None
  | _ => digits 0 s
  end.

Definition parse_time (s : string) : option Z :=
  match JS.split ":" s with
  | [h; mi] =>
      h ← number h; mi ← number mi; Some (h * ms_per_hour + mi * 60000)
  | [h; mi; sec] =>
      h ← number h; mi ← number mi; sec ← number sec;
      Some (h * ms_per_hour + mi * 60000 + sec * 1000)
  | _ => None
  end.

Definition parse_day (s : string) : option Z :=
  match JS.split "-" s with
  | [y; m; d] =>
      y ← number y; m ← number m; d ← number d;
      Some (days_from_civil y m d * ms_per_day)
  | _ => None
  end.

Definition parse_string (s : string) : Date :=
  match JS.split " " s with
  | [day] => parse_day day
  | [day; time] => d ← parse_day day; t ← parse_time time; Some (d + t)
  | _ => None
  end.

Definition parse (r : RawDate) : Date :=
  match r with
  | RawAbsent => None
  | RawString s => parse_string s
  | RawDateObj d => d
  end.

Definition ms_per (u : Scale) : Z :=
  match u with
  | Millisecond => 1
  | Second => 1000
  | Minute => 60000
  | Hour => ms_per_hour
  | Day => ms_per_day
  | Month => 30 * ms_per_day
  | Year => 12 * (30 * ms_per_day)
  end.

Definition diff (a b : Date) (u : Scale) : option Q :=
  match a, b with
  | Some x, Some y => Some (inject_Z ((x - y) / ms_per u))
  | _, _ => None
  end.

Definition add (d : Date) (qty : Z) (u : Scale) : Date :=
  match d with
  | None => None
  | Some ms =>
      match u with
      | Month | Year =>
          let '(y, m, dd) := civil_from_days (ms / ms_per_day) in
          let '(y, m) := match u with Year => (y + qty, m) | _ => (y, m + qty) end in
          Some (days_from_civil y m dd * ms_per_day + ms mod ms_per_day)
      | _ => Some (ms + qty * ms_per u)
      end
  end.

Definition today : Z := days_from_civil 2026 11 2 * ms_per_day.

Definition get_date_values (d : Date) : list (option Z) :=
  match d with
  | None => [None; None; None; None; None; None; None]
  | Some ms =>
      let '(y, m, dd) := civil_from_days (ms / ms_per_day) in
      let t := ms mod ms_per_day in
      [Some y; Some (m - 1); Some dd; Some (t / ms_per_hour);
       Some (t / 60000 mod 60); Some (t / 1000 mod 60); Some (t mod 1000)]
  end.

(** Modelled from the spec: the module [./dateUtils], which is not under [src/], with the members of section 6 of the
    specification. Dates are written [YYYY-MM-DD], optionally followed by a
    space and [HH:mm] or [HH:mm:ss]; [diff] counts 30 days to the month and
    12 such months to the year, rounded down; [today] is a fixed day. *)
#[export] Instance dateUtils : DateUtils := {
  parse := parse;
  diff := diff;
  add := add;
  today := today;
  get_date_values := get_date_values;
}.

End UTC.

(** ** Inputs used by the examples *)

Module Examples.

(** An engine before the first call of [setup_tasks]. *)
Definition gantt0 : Gantt.t := Gantt.mk defaultOptions [] ∅ [] None [].

Definition no_random : nat -> string := fun _ => "0123456789".

Definition task (id : string) (start end_ : RawDate)
    (dependencies : RawDependencies) : Task.t :=
  Task.mk (Some id) id start end_ 0 dependencies None.

(** A depends on B and B depends on A. *)
Definition cyclic_tasks : list Task.t :=
  [ task "A" (RawString "2024-01-01") (RawString "2024-01-03") (DepsString "B");
    task "B" (RawString "2024-01-05") (RawString "2024-01-06") (DepsString "A") ].

Definition cyclic_dependencyMap : DependencyMap :=
  <["A" := [Some "B"]]> (<["B" := [Some "A"]]> ∅).

(** D depends on B and on C, which both depend on A: D is reachable from A
    by two paths. *)
Definition diamond_tasks : list Task.t :=
  [ task "A" (RawString "2024-01-01") (RawString "2024-01-03") (DepsList []);
    task "B" (RawString "2024-01-03") (RawString "2024-01-05") (DepsString "A");
    task "C" (RawString "2024-01-03") (RawString "2024-01-06") (DepsString "A");
    task "D" (RawString "2024-01-06") (RawString "2024-01-08") (DepsString "B, C") ].

Definition diamond_dependencyMap : DependencyMap :=
  <["A" := [Some "B"; Some "C"]]> (<["B" := [Some "D"]]> (<["C" := [Some "D"]]> ∅)).

(** The two tasks of the scenario of section 8 of the specification. *)
Definition T1 : Task.t :=
  task "T1" (RawString "2024-01-01") (RawString "2024-01-03") DepsAbsent.
Definition T2 : Task.t :=
  task "T2" (RawString "2024-01-05") (RawString "2024-01-06") (DepsString "T1").

(** A task whose end lies before its start. *)
Definition inverted : Task.t :=
  task "T" (RawString "2024-01-05") (RawString "2024-01-01") (DepsList []).

(** Tasks with one bound only. *)
Definition start_only : Task.t :=
  task "T" (RawString "2024-01-01") RawAbsent (DepsList []).
Definition start_only_at_10 : Task.t :=
  task "T" (RawString "2024-01-01 10:00") RawAbsent (DepsList []).
Definition end_only : Task.t :=
  task "T" RawAbsent (RawString "2024-01-03") (DepsList []).

(** A task of one day: it starts and ends on the same day, at midnight. *)
Definition one_day : Task.t :=
  task "T" (RawString "2024-01-01") (RawString "2024-01-01") (DepsList []).

(** A task of ten years and a half. *)
Definition over_ten_years : Task.t :=
  task "T" (RawString "2024-01-05") (RawString "2034-07-05") (DepsList []).

(** A task of twenty years. *)
Definition too_long : Task.t :=
  task "T" (RawString "2024-01-05") (RawString "2044-01-05 10:00") (DepsList []).

Definition day_options : Options.t :=
  fst (update_view_scale "Day" (defaultOptions, [])).

Definition rect (x width : Q) : Rect.t := Rect.mk x 0 width 0 0 0 0 0 0.

(** Three bars in Day view; T2 and T3 depend on T1. *)
Definition three_bars : Gantt.t :=
  Gantt.mk day_options []
    (<["T1" := [Some "T2"; Some "T3"]]> ∅)
    [ Bar.mk (Some "T1") (rect 38 76) (rect 38 19);
      Bar.mk (Some "T2") (rect 114 38) (rect 114 0);
      Bar.mk (Some "T3") (rect 152 76) (rect 152 76) ]
    None [].

Definition at_x (x : Q) : MouseEvent := {| offsetX := x; offsetY := 0 |}.

Definition wrapper_of (id : string) : Element :=
  {| classList := ["bar-wrapper"]; data_id := id |}.
Definition right_handle_of (id : string) : Element :=
  {| classList := ["handle"; "right"]; data_id := id |}.
Definition progress_handle_of (id : string) : Element :=
  {| classList := ["handle"; "progress"]; data_id := id |}.

Definition T2_bar : Bar.t := Bar.mk (Some "T2") (rect 114 38) (rect 114 0).
Definition T1_bar : Bar.t := Bar.mk (Some "T1") (rect 38 76) (rect 38 19).

(** The state after a pointer-down at x = 50 on the wrapper, on the right
    handle and on the progress handle of T1. *)
Definition down_on (element : Element) : Gantt.t * BarEvents.t :=
  match bar_mousedown 10 (at_x 50) element three_bars BarEvents.initial with
  | Some (g, c, _) => (g, c)
  | None => (three_bars, BarEvents.initial)
  end.

Definition progress_down : Gantt.t * BarProgress.t :=
  (progress_mousedown (at_x 50) (progress_handle_of "T1") three_bars
     BarProgress.initial).1.

Definition left_handle_of (id : string) : Element :=
  {| classList := ["handle"; "left"]; data_id := id |}.

Definition T3_bar : Bar.t := Bar.mk (Some "T3") (rect 152 76) (rect 152 76).

(** The three bars in a chain: T2 depends on T1 and T3 on T2. *)
Definition chain : Gantt.t :=
  Gantt.mk day_options []
    (<["T1" := [Some "T2"]]> (<["T2" := [Some "T3"]]> ∅))
    [T1_bar; T2_bar; T3_bar]
    None [].

(** T2 and a task T9 that has no bar depend on T1. *)
Definition dangling : Gantt.t :=
  Gantt.mk day_options []
    (<["T1" := [Some "T2"; Some "T9"]]> ∅)
    [T1_bar; T2_bar]
    None [].

(** The state after a pointer-down at x = 50 on an element of the chain. *)
Definition chain_down_on (element : Element) : Gantt.t * BarEvents.t :=
  match bar_mousedown 10 (at_x 50) element chain BarEvents.initial with
  | Some (g, c, _) => (g, c)
  | None => (chain, BarEvents.initial)
  end.

End Examples.

(** ** The repair rules in closed form *)

Section Bounds.
Context {U : DateUtils}.

(** What the claims about the resolver speak of: the raw end after the
    sanity check, the resolved start, the resolved end and the invalid
    flag of a resolved task. *)
Definition bounds (r : ResolvedTask.t) : RawDate * Date * Date * bool :=
  (ResolvedTask.end_ r, ResolvedTask.startResolved r,
   ResolvedTask.endResolved r, ResolvedTask.invalid r).

(** The end-of-day step on a concrete end: 24 hours when its time
    components are all zero, nothing otherwise. *)
Definition bump (ms : Z) : Z :=
  if time_is_zero (get_date_values (Some ms)) then 24 * ms_per_hour else 0.

(** The rules of section 3 of the specification, read off [setup_tasks]:
    the end is discarded when the duration exceeds ten years; a missing
    bound is two days from the other one, both missing bounds are today
    and two days later; an end at midnight is moved to the next midnight;
    the task is invalid when a bound is missing or discarded. *)
Definition repaired_bounds (task : Task.t) : RawDate * Date * Date * bool :=
  let has_start := truthy_date (Task.start task) in
  let too_long :=
    gt_10 (diff (parse (Task.end_ task)) (parse (Task.start task)) Year) in
  let has_end := truthy_date (Task.end_ task) && negb too_long in
  let startResolved :=
    if has_start then parse (Task.start task)
    else if has_end then add (parse (Task.end_ task)) (-2) Day
    else Some today in
  let endResolved :=
    if has_end then parse (Task.end_ task)
    else if has_start then add (parse (Task.start task)) 2 Day
    else add (Some today) 2 Day in
  (if too_long then RawAbsent else Task.end_ task,
   startResolved,
   if time_is_zero (get_date_values endResolved) then add endResolved 24 Hour
   else endResolved,
   negb has_start || negb has_end).

End Bounds.

(** ** The snap function in closed form *)

(** The granularity of the active view mode, as [get_snap_position] uses
    it. *)
Definition snap_granularity (options : Options.t) : Q :=
  if view_is options VIEW_MODE.WEEK then (Options.column_width options / 7)%Q
  else if view_is options VIEW_MODE.MONTH then (Options.column_width options / 30)%Q
  else Options.column_width options.

(** The quotient of the remainder operator: [q] truncated toward zero. *)
Definition trunc (q : Q) : Z := Z.quot (Qnum q) (Zpos (Qden q)).

(** ** Proof automation for the resolver *)

(** Case analysis on every condition of the callback of [setup_tasks]. *)
Ltac unfold_resolve :=
  unfold resolve_task, when;
  repeat match goal with
         | |- context [if ?c then _ else _] => destruct c
         end.

(** Projections and assignments on a task record that is given field by
    field. *)
Ltac resolve_simpl :=
  cbn [ResolvedTask.id ResolvedTask.name ResolvedTask.start ResolvedTask.end_
       ResolvedTask.progress ResolvedTask.custom_class ResolvedTask.invalid
       ResolvedTask.indexResolved ResolvedTask.endResolved
       ResolvedTask.dependencies ResolvedTask.startResolved
       ResolvedTask.set_id ResolvedTask.set_end ResolvedTask.set_invalid
       ResolvedTask.set_endResolved ResolvedTask.set_startResolved
       truthy_date negb andb orb].

Ltac unfold_when :=
  repeat match goal with
         | |- context [when true ?f ?a] => change (when true f a) with (f a)
         | |- context [when false ?f ?a] => change (when false f a) with a
         end.

(** One conditional assignment after the other, once its condition is
    known. *)
Ltac resolve_steps :=
  repeat (progress (resolve_simpl;
                    unfold_when;
                    repeat match goal with
                           | H : _ = true |- _ => rewrite H
                           | H : _ = false |- _ => rewrite H
                           end)).

(** * Notions used by the further properties *)


(** ** Dependents *)

(** [v] is listed among the dependents of the task of id [k], or of a task
    that is itself reached from [k]: the "depends on me" edges of the
    dependency map, followed one or more times. An entry is followed under
    the property key it converts to. *)
Inductive reachable (dependencyMap : DependencyMap) : string -> option string -> Prop :=
  | reachable_edge k ds v :
      dependencyMap !! k = Some ds -> v ∈ ds -> reachable dependencyMap k v
  | reachable_step k ds u v :
      dependencyMap !! k = Some ds -> u ∈ ds ->
      reachable dependencyMap (JS.to_property_key u) v ->
      reachable dependencyMap k v.


(** ** The dependency map as an inverse index *)

(** The ids of the tasks that declare [d] as a dependency, in task order,
    each as often as it declares [d]. *)
Definition declared_dependents (tasks : list ResolvedTask.t) (d : string)
    : list (option string) :=
  flat_map
    (fun t =>
       (fun _ => ResolvedTask.id t)
         <$> List.filter (String.eqb d) (default [] (ResolvedTask.dependencies t)))
    tasks.

(** An entry of the map after [l] was pushed onto it: untouched when [l] is
    empty, created when it was missing. *)
Definition pushed (entry : option (list (option string))) (l : list (option string))
    : option (list (option string)) :=
  match l with
  | [] => entry
  | _ :: _ => Some (default [] entry ++ l)
  end.


(** ** Strings without a separator *)

(** Whether the character [c] occurs in [s]. *)
Fixpoint has_char (c : ascii) (s : string) : bool :=
  match s with
  | EmptyString => false
  | String c' s' => Ascii.eqb c' c || has_char c s'
  end.


(** ** The end of a gesture *)

(** [!n] for a number: zero is falsy. *)
Definition falsy_number (n : Q) : bool := Qeq_bool n 0.

(** Modelled from the spec: [Bar.date_changed] and [Bar.set_action_completed] of [./bar], which is not under [src/]. By section 4.4 of the
    specification a commit recomputes the dates of the task of the bar from
    its geometry and emits the change: a call is recorded by the reference
    of its bar, and leaves the [finaldx] of every bar as it is.

    The function is [bars.forEach] of the [mouseup] handler that
    [bind_bar_events] puts on the svg: the references of the bars on which
    the two are called, in the order of the calls. A bar whose [finaldx] is
    falsy is passed over; destructuring [undefined] throws. *)
Fixpoint forEach_commit (refs : list (option nat)) (store : list Bar.t)
    : list nat * completion :=
  match refs with
  | [] => ([], Normal)
  | None :: _ => ([], TypeError)
  | Some i :: refs' =>
      let '(calls, r) := forEach_commit refs' store in
      match store !! i with
      | Some bar =>
          if falsy_number (Rect.finaldx (Bar.bar bar)) then (calls, r)
          else (i :: calls, r)
      | None => (calls, r)
      end
  end.

(** The [mouseup] handler on the svg of [bind_bar_events]. *)
Definition bar_mouseup (c : BarEvents.t) (g : Gantt.t)
    : Gantt.t * list nat * completion :=
  let g := Gantt.set_bar_being_dragged None g in
  let '(calls, r) := forEach_commit (BarEvents.bars c) (Gantt.bars g) in
  (g, calls, r).

(** What a pointer-down must leave alone in a bar: its task, the three
    attributes of [$bar] and the progress rectangle. *)
Definition geometry (b : Bar.t) : option string * Q * Q * Q * Rect.t :=
  (Bar.task_id b, Rect.x (Bar.bar b), Rect.y (Bar.bar b),
   Rect.width (Bar.bar b), Bar.bar_progress b).

(** Modelled from the spec: [Bar.progress_changed] and [Bar.set_action_completed] of [./bar], which is not under [src/]. By section 4.4 of the
    specification a commit recomputes the progress of the task of the bar
    from its geometry and emits the change: a call is recorded by the
    reference of its bar.

    The function is the [mouseup] handler on the svg of
    [bind_bar_progress]: the closure after it and the references of the
    bars on which the two are called. A dangling reference does not occur:
    a reference is only ever taken from [get_bar]. *)
Definition progress_mouseup (c : BarProgress.t) (g : Gantt.t)
    : BarProgress.t * list nat * completion :=
  let c :=
    BarProgress.mk (BarProgress.x_on_start c) (BarProgress.y_on_start c) false
      (BarProgress.bar c) (BarProgress.bar_progress_of c) (BarProgress.bar_of c) in
  match BarProgress.bar_progress_of c with
  | None => (c, [], Normal)
  | Some i =>
      match Gantt.bars g !! i with
      | None => (c, [], Normal)
      | Some b =>
          if falsy_number (Rect.finaldx (Bar.bar_progress b)) then (c, [], Normal)
          else
            match BarProgress.bar c with
            | None => (c, [], TypeError)
            | Some j => (c, [j], Normal)
            end
      end
  end.

(** ** The range of the chart *)

(** [a < b] on dates: false when either is an Invalid Date. *)
Definition date_lt (a b : Date) : bool := date_gt b a.

(** [view_is(modes)] for an array argument. *)
Definition view_is_array (options : Options.t) (modes : list string) : bool :=
  existsb (fun mode => String.eqb (Options.view_mode options) mode) modes.

(** The callback of [this.tasks.forEach] in [setup_gantt_dates], on the
    fields [ganttStart] and [ganttEnd]: [None] is [null], and a [Date],
    valid or not, is truthy. *)
Definition extend_gantt_dates (st : option Date * option Date)
    (task : ResolvedTask.t) : option Date * option Date :=
  let '(ganttStart, ganttEnd) := st in
  let ganttStart :=
    match ganttStart with
    | None => Some (ResolvedTask.startResolved task)
    | Some s =>
        if date_lt (ResolvedTask.startResolved task) s
        then Some (ResolvedTask.startResolved task) else ganttStart
    end in
  let ganttEnd :=
    match ganttEnd with
    | None => Some (ResolvedTask.endResolved task)
    | Some e =>
        if date_gt (ResolvedTask.endResolved task) e
        then Some (ResolvedTask.endResolved task) else ganttEnd
    end in
  (ganttStart, ganttEnd).

(** The first statements of [setup_gantt_dates]: the two fields after the
    loop over the tasks. *)
Definition task_range (tasks : list ResolvedTask.t) : option Date * option Date :=
  foldl extend_gantt_dates (None, None) tasks.

Section GanttDates.
Context {U : DateUtils}.

(** [dateUtils.start_of(date, scale)], which [setup_gantt_dates] also calls
    on [null] when there is no task. The module [./dateUtils] is not under
    [src/]: the function is a parameter. *)
Variable start_of : option Date -> Scale -> Date.

(** [setup_gantt_dates]: the fields [ganttStart] and [ganttEnd] it leaves. *)
Definition setup_gantt_dates (g : Gantt.t) : Date * Date :=
  let '(ganttStart, ganttEnd) := task_range (Gantt.tasks g) in
  let ganttStart := start_of ganttStart Day in
  let ganttEnd := start_of ganttEnd Day in
  (* add date padding on both sides *)
  if view_is_array (Gantt.options g) [VIEW_MODE.QUARTER_DAY; VIEW_MODE.HALF_DAY] then
    (add ganttStart (-7) Day, add ganttEnd 7 Day)
  else if view_is (Gantt.options g) VIEW_MODE.MONTH then
    (start_of (Some ganttStart) Year, add ganttEnd 1 Year)
  else if view_is (Gantt.options g) VIEW_MODE.YEAR then
    (add ganttStart (-2) Year, add ganttEnd 2 Year)
  else
    (add ganttStart (-1) Month, add ganttEnd 1 Month).

End GanttDates.

(** ** The grid *)

Module Svg.
(** The elements of the grid, by the attributes [createSVG] is given for
    them; the layer an element is appended to is not modelled. *)
Record rect : Type := mk_rect {
  x : Q;
  y : Q;
  width : Q;
  height : Q;
  class_ : string;
}.

Record line : Type := mk_line {
  x1 : Q;
  y1 : Q;
  x2 : Q;
  y2 : Q;
  line_class : string;
}.

(** A tick is the path [M tick_x tick_y v tick_height]; its class, which
    depends on the calendar day of the date, is not modelled. *)
Record tick : Type := mk_tick {
  tick_x : Q;
  tick_y : Q;
  tick_height : Q;
}.

(** The highlight of today: [x] is [None] for [NaN]. *)
Record highlight : Type := mk_highlight {
  hx : option Q;
  hy : Q;
  hwidth : Q;
  hheight : Q;
}.
End Svg.

(** [array.length] as a number. *)
Definition length_of {A : Type} (l : list A) : Q := inject_Z (Z.of_nat (length l)).

(** [make_grid_background]: the rectangle of the background and the height
    given to the svg. *)
Definition make_grid_background (options : Options.t) (dates : list Date)
    (tasks : list ResolvedTask.t) : Svg.rect * Q :=
  let grid_width := (length_of dates * Options.column_width options)%Q in
  let grid_height :=
    (Options.header_height options + Options.padding options
     + (Options.bar_height options + Options.padding options) * length_of tasks)%Q in
  (Svg.mk_rect 0 0 grid_width grid_height "grid-background",
   (grid_height + Options.padding options + 100)%Q).

(** The [for] loop of [make_grid_rows]: a rectangle and a line for each
    task, [row_y] being carried along. *)
Fixpoint grid_rows_loop (options : Options.t) (row_width row_height row_y : Q)
    (tasks : list ResolvedTask.t) : list (Svg.rect * Svg.line) :=
  match tasks with
  | [] => []
  | _ :: tasks' =>
      (Svg.mk_rect 0 row_y row_width row_height "grid-row",
       Svg.mk_line 0 (row_y + row_height) row_width (row_y + row_height) "row-line")
      :: grid_rows_loop options row_width row_height
           (row_y + (Options.bar_height options + Options.padding options))%Q tasks'
  end.

Definition make_grid_rows (options : Options.t) (dates : list Date)
    (tasks : list ResolvedTask.t) : list (Svg.rect * Svg.line) :=
  let row_width := (length_of dates * Options.column_width options)%Q in
  let row_height := (Options.bar_height options + Options.padding options)%Q in
  let row_y := (Options.header_height options + Options.padding options / 2)%Q in
  grid_rows_loop options row_width row_height row_y tasks.

Definition make_grid_header (options : Options.t) (dates : list Date) : Svg.rect :=
  let header_width := (length_of dates * Options.column_width options)%Q in
  let header_height := (Options.header_height options + 10)%Q in
  Svg.mk_rect 0 0 header_width header_height "grid-header".

Section GridTicks.

(** [dateUtils.get_days_in_month(date)]: the module [./dateUtils] is not
    under [src/], the function is a parameter. *)
Variable get_days_in_month : Date -> Q.

(** The [for] loop of [make_grid_ticks], [tick_x] being carried along. *)
Fixpoint grid_ticks_loop (options : Options.t) (tick_y tick_height tick_x : Q)
    (dates : list Date) : list Svg.tick :=
  match dates with
  | [] => []
  | date :: dates' =>
      Svg.mk_tick tick_x tick_y tick_height
      :: grid_ticks_loop options tick_y tick_height
           (if view_is options VIEW_MODE.MONTH
            then tick_x + get_days_in_month date * Options.column_width options / 30
            else tick_x + Options.column_width options)%Q
           dates'
  end.

Definition make_grid_ticks (options : Options.t) (dates : list Date)
    (tasks : list ResolvedTask.t) : list Svg.tick :=
  let tick_x := 0%Q in
  let tick_y := (Options.header_height options + Options.padding options / 2)%Q in
  let tick_height :=
    ((Options.bar_height options + Options.padding options) * length_of tasks)%Q in
  grid_ticks_loop options tick_y tick_height tick_x dates.

End GridTicks.

(** [make_grid_highlights]: the highlight of today, in Day view only. *)
Definition make_grid_highlights {U : DateUtils} (options : Options.t)
    (ganttStart : Date) (tasks : list ResolvedTask.t) : option Svg.highlight :=
  if view_is options VIEW_MODE.DAY then
    let x :=
      (fun hours => hours / Options.step options * Options.column_width options)%Q
        <$> diff (Some today) ganttStart Hour in
    let y := 0%Q in
    let width := Options.column_width options in
    let height :=
      ((Options.bar_height options + Options.padding options) * length_of tasks
       + Options.header_height options + Options.padding options / 2)%Q in
    Some (Svg.mk_highlight x y width height)
  else None.

(** * Properties *)

(** ** The date utilities of [UTC] obey the laws *)

Lemma UTC_laws : DateUtilsLaws UTC.dateUtils.
Proof.
  split.
  - intros [| [|c s] | d]; cbn; intros H; try discriminate; reflexivity.
  - intros n u. reflexivity.
  - intros ms n. reflexivity.
  - intros ms n. reflexivity.
  - intros a b u [-> | ->]; [reflexivity | destruct a; reflexivity].
Qed.

(** ** The resolver: what the repair steps leave alone *)

Section ResolverFacts.
Context {U : DateUtils}.

Lemma resolve_task_dependencies rnd task i :
  ResolvedTask.dependencies (resolve_task rnd task i) = resolve_dependencies task.
Proof. unfold_resolve; reflexivity. Qed.

Lemma resolve_task_id_truthy rnd task i :
  JS.truthy (Task.id task) = true ->
  ResolvedTask.id (resolve_task rnd task i) = Task.id task.
Proof.
  intros H. unfold resolve_task, when.
  repeat match goal with
         | |- context [if ?c then _ else _] =>
             lazymatch c with
             | negb (JS.truthy _) => fail
             | _ => destruct c
             end
         end; cbn; rewrite H; reflexivity.
Qed.

Lemma map_resolve_lookup rnd tasks : forall k i,
  map_resolve rnd k tasks !! i =
    (fun task => resolve_task (rnd (k + i)%nat) task (k + i)) <$> tasks !! i.
Proof.
  induction tasks as [|task tasks IH]; intros k i; [reflexivity|].
  destruct i as [|i]; cbn.
  - by rewrite Nat.add_0_r.
  - rewrite IH. by replace (S k + i)%nat with (k + S i)%nat by lia.
Qed.

(** [this.tasks] after [setup_tasks]: the raw tasks resolved one by one,
    whether or not [setupDependencies] throws afterwards. *)
Lemma setup_tasks_lookup rnd tasks g i :
  Gantt.tasks (setup_tasks rnd tasks g).1 !! i =
    (fun task => resolve_task (rnd i) task i) <$> tasks !! i.
Proof.
  unfold setup_tasks, setupDependencies. cbn.
  destruct (forEach_task_dependencies _ _) as [m c]. cbn.
  apply (map_resolve_lookup rnd tasks 0 i).
Qed.

End ResolverFacts.

(** ** C1: the dependent-closure traversal *)

(** The dependency map [setup_tasks] builds from the two tasks that depend
    on each other. *)
Lemma setup_tasks_cyclic {U : DateUtils} g :
  let '(g', c) := setup_tasks Examples.no_random Examples.cyclic_tasks g in
  Gantt.dependencyMap g' = Examples.cyclic_dependencyMap /\ c = Normal.
Proof.
  unfold setup_tasks, setupDependencies. cbn [Gantt.set_dependencyMap Gantt.set_tasks
    Gantt.tasks Gantt.dependencyMap Examples.cyclic_tasks map_resolve
    forEach_task_dependencies].
  rewrite !resolve_task_dependencies, !resolve_task_id_truthy by reflexivity.
  split; reflexivity.
Qed.

(** The dependency map [setup_tasks] builds from the four tasks of the
    diamond. *)
Lemma setup_tasks_diamond {U : DateUtils} g :
  let '(g', c) := setup_tasks Examples.no_random Examples.diamond_tasks g in
  Gantt.dependencyMap g' = Examples.diamond_dependencyMap /\ c = Normal.
Proof.
  unfold setup_tasks, setupDependencies. cbn [Gantt.set_dependencyMap Gantt.set_tasks
    Gantt.tasks Gantt.dependencyMap Examples.diamond_tasks map_resolve
    forEach_task_dependencies].
  rewrite !resolve_task_dependencies, !resolve_task_id_truthy by reflexivity.
  split; [|reflexivity]. apply map_eq. intros k. vm_compute. reflexivity.
Qed.

Lemma dependents_step_cyclic_A out :
  dependents_step Examples.cyclic_dependencyMap (out, [Some "A"])
  = (out ++ [Some "B"], [Some "B"]).
Proof. reflexivity. Qed.

Lemma dependents_step_cyclic_B out :
  dependents_step Examples.cyclic_dependencyMap (out, [Some "B"])
  = (out ++ [Some "A"], [Some "A"]).
Proof. reflexivity. Qed.

(** On the two-task cycle the work list alternates between [["A"]] and
    [["B"]] and is never empty. *)
Lemma dependents_loop_cyclic fuel : forall out,
  dependents_loop fuel Examples.cyclic_dependencyMap out [Some "A"] = None /\
  dependents_loop fuel Examples.cyclic_dependencyMap out [Some "B"] = None.
Proof.
  induction fuel as [|fuel IH]; intros out; [split; reflexivity|].
  split; cbn [dependents_loop].
  - rewrite dependents_step_cyclic_A. apply IH.
  - rewrite dependents_step_cyclic_B. apply IH.
Qed.

Lemma cyclic_traversal_runs_on fuel :
  get_all_dependent_tasks fuel Examples.cyclic_dependencyMap "A" = None.
Proof.
  unfold get_all_dependent_tasks.
  destruct (dependents_loop_cyclic fuel []) as [-> _]. reflexivity.
Qed.

(** C1 (fails on the code): with task A depending on B and B on A, the loop
    of [get_all_dependent_tasks] is still running after any number of
    iterations; the call for "A" never returns. *)
Theorem get_all_dependent_tasks_cycle_never_returns :
  forall fuel,
    get_all_dependent_tasks fuel Examples.cyclic_dependencyMap "A" = None.
Proof.
  intros fuel. unfold get_all_dependent_tasks.
  destruct (dependents_loop_cyclic fuel []) as [H _]. rewrite H. reflexivity.
Qed.

(** A task reachable by two paths is listed twice. *)
Lemma get_all_dependent_tasks_diamond :
  forall fuel, (3 < fuel)%nat ->
    get_all_dependent_tasks fuel Examples.diamond_dependencyMap "A"
    = Some ["B"; "C"; "D"; "D"].
Proof.
  intros fuel H.
  do 4 (destruct fuel as [|fuel]; [lia|]). destruct fuel; reflexivity.
Qed.

(** A task that depends on itself alone is not a problem: the id is in the
    work list when it is found again. *)
Lemma get_all_dependent_tasks_self_loop :
  forall fuel, (0 < fuel)%nat ->
    get_all_dependent_tasks fuel (<["A" := [Some "A"]]> ∅) "A" = Some ["A"].
Proof.
  intros fuel H. destruct fuel as [|fuel]; [lia|]. destruct fuel; reflexivity.
Qed.

(** A pointer-down on the bar of A, with the dependency map of the cycle,
    never returns either: the handler calls the traversal first. *)
Lemma bar_mousedown_cycle_never_returns fuel e g c :
  Gantt.dependencyMap g = Examples.cyclic_dependencyMap ->
  bar_mousedown fuel e (Examples.wrapper_of "A") g c = None.
Proof.
  intros Hg. unfold bar_mousedown. cbn [data_id Examples.wrapper_of].
  rewrite Hg, cyclic_traversal_runs_on. reflexivity.
Qed.

(** ** The dependent-closure traversal when it returns *)

Lemma elem_of_concat_dependents (dependencyMap : DependencyMap) acc curr v :
  v ∈ concat_dependents dependencyMap acc curr <->
  v ∈ acc \/
  match dependencyMap !! JS.to_property_key curr with
  | Some ds => v ∈ ds
  | None => v = None
  end.
Proof.
  unfold concat_dependents.
  destruct (dependencyMap !! JS.to_property_key curr);
    rewrite elem_of_app; [reflexivity|].
  by rewrite list_elem_of_singleton.
Qed.

Lemma elem_of_foldl_concat_dependents (dependencyMap : DependencyMap) to_process :
  forall acc v,
    v ∈ foldl (concat_dependents dependencyMap) acc to_process <->
    v ∈ acc \/
    exists curr, curr ∈ to_process /\
      match dependencyMap !! JS.to_property_key curr with
      | Some ds => v ∈ ds
      | None => v = None
      end.
Proof.
  induction to_process as [|c to_process IH]; intros acc v; cbn.
  - split; [auto|]. intros [H|(curr & H & _)]; [exact H|]. by apply elem_of_nil in H.
  - rewrite IH, elem_of_concat_dependents. split.
    + intros [[H|H]|(curr & H1 & H2)]; [auto | right; exists c | right; exists curr];
        split; auto; [left | by right].
    + intros [H|(curr & H1 & H2)]; [auto|].
      apply elem_of_cons in H1 as [->|H1]; [auto|]. right. eauto.
Qed.

Lemma includes_true l v : JS.includes l v = true <-> v ∈ l.
Proof. unfold JS.includes. apply bool_decide_eq_true. Qed.

(** What the loop returns holds what it had collected and every dependent
    reached from an entry of the work list. *)
Lemma dependents_loop_complete (dependencyMap : DependencyMap) fuel :
  forall out to_process result,
    dependents_loop fuel dependencyMap out to_process = Some result ->
    (forall v, v ∈ out -> v ∈ result) /\
    (forall curr v, curr ∈ to_process ->
       reachable dependencyMap (JS.to_property_key curr) v -> v ∈ result).
Proof.
  induction fuel as [|fuel IH]; intros out to_process result H.
  - destruct to_process; [|discriminate]. injection H as <-.
    split; [auto|]. intros curr v Hc. by apply elem_of_nil in Hc.
  - destruct to_process as [|c0 tp0]; cbn [dependents_loop] in H.
    { injection H as <-. split; [auto|]. intros curr v Hc. by apply elem_of_nil in Hc. }
    set (to_process := c0 :: tp0) in *.
    cbn [dependents_step] in H.
    set (deps := foldl (concat_dependents dependencyMap) [] to_process) in *.
    destruct (IH _ _ _ H) as [Hout Hnext].
    assert (Hdeps : forall v, v ∈ deps -> v ∈ result)
      by (intros v Hv; apply Hout, elem_of_app; auto).
    split; [intros v Hv; apply Hout, elem_of_app; auto|].
    assert (Hreach : forall k v, reachable dependencyMap k v ->
              forall curr, curr ∈ to_process -> JS.to_property_key curr = k ->
                           v ∈ result).
    { induction 1 as [k ds v Hm Hv | k ds u v Hm Hu Hr IHr]; intros curr Hc Hk.
      - apply Hdeps, elem_of_foldl_concat_dependents. right. exists curr.
        split; [exact Hc|]. by rewrite Hk, Hm.
      - assert (Hud : u ∈ deps).
        { apply elem_of_foldl_concat_dependents. right. exists curr.
          split; [exact Hc|]. by rewrite Hk, Hm. }
        destruct (decide (u ∈ to_process)) as [Hin|Hnin].
        + by apply (IHr u).
        + apply (Hnext u v); [|exact Hr].
          apply list_elem_of_In, filter_In. split; [by apply list_elem_of_In|].
          apply negb_true_iff, not_true_iff_false. by rewrite includes_true. }
    intros curr v Hc Hr. by apply (Hreach _ _ Hr curr).
Qed.

Lemma elem_of_filter_Boolean out s :
  s ∈ filter_Boolean out <-> Some s ∈ out /\ s <> "".
Proof.
  unfold filter_Boolean. rewrite list_elem_of_omap. split.
  - intros (v & Hv & H). destruct v as [[|c t]|]; cbn in H; try discriminate.
    injection H as <-. by split.
  - intros [H Hs]. exists (Some s). split; [exact H|].
    destruct s; [done|reflexivity].
Qed.

(** When [get_all_dependent_tasks] returns, every id reached from [task_id]
    by one or more "depends on me" edges is in the list, unless it is the
    empty string, which [filter(Boolean)] drops. *)
Theorem get_all_dependent_tasks_complete :
  forall fuel (dependencyMap : DependencyMap) task_id dependents s,
    get_all_dependent_tasks fuel dependencyMap task_id = Some dependents ->
    reachable dependencyMap task_id (Some s) ->
    s <> "" ->
    s ∈ dependents.
Proof.
  intros fuel dependencyMap task_id dependents s H Hr Hs.
  unfold get_all_dependent_tasks in H.
  destruct (dependents_loop _ _ _ _) as [out|] eqn:E; [|discriminate].
  injection H as <-. apply elem_of_filter_Boolean. split; [|exact Hs].
  destruct (dependents_loop_complete _ _ _ _ _ E) as [_ H].
  apply (H (Some task_id)); [by left|exact Hr].
Qed.

(** What the loop returns beyond what it had collected satisfies every
    property [P] that holds of [undefined] and passes from a task to its
    dependents, provided no task is a dependent of the name "undefined". *)
Lemma dependents_loop_sound (dependencyMap : DependencyMap)
    (P : option string -> Prop) fuel :
  dependencyMap !! "undefined" = None ->
  (forall curr ds v, P curr -> dependencyMap !! JS.to_property_key curr = Some ds ->
                     v ∈ ds -> P v) ->
  P None ->
  forall out to_process result,
    dependents_loop fuel dependencyMap out to_process = Some result ->
    (forall curr ds v, curr ∈ to_process ->
       dependencyMap !! JS.to_property_key curr = Some ds -> v ∈ ds -> P v) ->
    forall v, v ∈ result -> v ∈ out \/ P v.
Proof.
  intros Hundef Hedge Hnone.
  induction fuel as [|fuel IH]; intros out to_process result H Htp v Hv.
  - destruct to_process; [|discriminate]. injection H as <-. by left.
  - destruct to_process as [|c0 tp0]; cbn [dependents_loop] in H.
    { injection H as <-. by left. }
    set (to_process := c0 :: tp0) in *.
    cbn [dependents_step] in H.
    set (deps := foldl (concat_dependents dependencyMap) [] to_process) in *.
    assert (Hdeps : forall w, w ∈ deps -> P w).
    { intros w Hw. apply elem_of_foldl_concat_dependents in Hw as [Hw|(curr & Hc & Hw)].
      - by apply elem_of_nil in Hw.
      - destruct (dependencyMap !! JS.to_property_key curr) as [ds|] eqn:Hm.
        + by apply (Htp curr ds).
        + by subst. }
    destruct (IH _ _ _ H) with (v := v) as [Hin|HP]; [| exact Hv | |].
    + intros curr ds w Hc Hm Hw. apply (Hedge curr ds); [|exact Hm|exact Hw].
      apply Hdeps. apply list_elem_of_In, filter_In in Hc as [Hc _].
      by apply list_elem_of_In.
    + apply elem_of_app in Hin as [Hin|Hin]; [by left|]. right. by apply Hdeps.
    + by right.
Qed.



(** The ids a gesture on the task [k] takes along: [k] itself and every
    id reached from it that is not the empty string. *)
Lemma reachable_affected fuel (dependencyMap : DependencyMap) k dependents id :
  get_all_dependent_tasks fuel dependencyMap k = Some dependents ->
  id = k \/ (id <> "" /\ reachable dependencyMap k (Some id)) ->
  id ∈ k :: dependents.
Proof.
  intros H [->|[Hne Hr]]; [by left|]. right.
  unfold get_all_dependent_tasks in H.
  destruct (dependents_loop _ _ _ _) as [out|] eqn:E; [|discriminate].
  injection H as <-. apply elem_of_filter_Boolean. split; [|exact Hne].
  destruct (dependents_loop_complete _ _ _ _ _ E) as [_ H].
  apply (H (Some k)); [by left|exact Hr].
Qed.

(** ** C4: the dependencies of a resolved task *)

Lemma split_cons sep s : exists w ws, JS.split sep s = w :: ws.
Proof.
  induction s as [|c s [w [ws IH]]]; cbn; [eauto|].
  destruct (Ascii.eqb c sep); [eauto|]. rewrite IH. eauto.
Qed.

(** A string field is split at the commas, the entries are trimmed and the
    empty ones dropped; a list is taken as it is. *)
Lemma resolve_dependencies_given {U : DateUtils} rnd task i :
  match Task.dependencies task with
  | DepsString s =>
      exists ds, ResolvedTask.dependencies (resolve_task rnd task i) = Some ds /\
        ds = List.filter JS.truthy_string (map JS.trim (JS.split "," s)) /\
        Forall (fun d => d <> "" /\ exists e, d = JS.trim e) ds
  | DepsList l => ResolvedTask.dependencies (resolve_task rnd task i) = Some l
  | DepsAbsent => True
  end.
Proof.
  rewrite resolve_task_dependencies. unfold resolve_dependencies.
  destruct (Task.dependencies task) as [|s|l]; [exact I| |reflexivity].
  eexists; split; [reflexivity|]. split; [reflexivity|].
  apply Forall_forall. intros d Hd.
  apply list_elem_of_In, filter_In in Hd. destruct Hd as [Hd Ht].
  apply in_map_iff in Hd. destruct Hd as [e [<- _]].
  split; [|eauto]. intros Heq. rewrite Heq in Ht. discriminate.
Qed.

(** C4 (fails on the code): for a raw task without a [dependencies] field the
    resolved task's [dependencies] is [undefined], not the empty list, and
    [setup_tasks] ends with the [TypeError] thrown by [setupDependencies]
    when it reaches that task. *)
Theorem setup_tasks_absent_dependencies {U : DateUtils} :
  forall rnd id name start end_ progress custom_class i tasks g,
    let task := Task.mk id name start end_ progress DepsAbsent custom_class in
    ResolvedTask.dependencies (resolve_task (rnd i) task i) = None /\
    (setup_tasks rnd (task :: tasks) g).2 = TypeError.
Proof.
  intros rnd id name start end_ progress custom_class i tasks g task.
  split.
  - rewrite resolve_task_dependencies. reflexivity.
  - unfold setup_tasks, setupDependencies.
    cbn [Gantt.set_dependencyMap Gantt.set_tasks Gantt.tasks Gantt.dependencyMap
         map_resolve forEach_task_dependencies].
    rewrite resolve_task_dependencies. reflexivity.
Qed.

(** The throw does not depend on where the task stands in the list. *)
Lemma forEach_task_dependencies_absent {U : DateUtils} rnd tasks :
  Exists (fun task => Task.dependencies task = DepsAbsent) tasks ->
  forall dependencyMap k,
    (forEach_task_dependencies dependencyMap (map_resolve rnd k tasks)).2 = TypeError.
Proof.
  induction tasks as [|task tasks IH]; intros H dependencyMap k.
  - inversion H.
  - cbn [map_resolve forEach_task_dependencies].
    rewrite resolve_task_dependencies. unfold resolve_dependencies.
    destruct (Task.dependencies task) eqn:E; cbn [JS.truthy_array];
      [reflexivity| |];
      (destruct (forEach_dependency _ _ _) as [m []]; [|reflexivity]);
      apply IH; inversion H; subst; congruence.
Qed.

Lemma setup_tasks_throws_on_absent_dependencies {U : DateUtils} rnd tasks g :
  Exists (fun task => Task.dependencies task = DepsAbsent) tasks ->
  (setup_tasks rnd tasks g).2 = TypeError.
Proof.
  intros H. unfold setup_tasks, setupDependencies.
  cbn [Gantt.set_dependencyMap Gantt.set_tasks Gantt.tasks Gantt.dependencyMap].
  pose proof (forEach_task_dependencies_absent rnd tasks H ∅ 0%nat) as E.
  destruct (forEach_task_dependencies _ _) as [m c]. exact E.
Qed.

(** The scenario of section 8 of the specification: T1 has no dependencies
    field, so [setup_tasks] throws on the two tasks. *)
Example setup_tasks_scenario_throws {U : DateUtils} :
  (setup_tasks Examples.no_random [Examples.T1; Examples.T2] Examples.gantt0).2
  = TypeError.
Proof. apply setup_tasks_throws_on_absent_dependencies. by left. Qed.

(** ** C5: an unknown view mode *)

Lemma known_view_mode mode :
  mode ∈ VIEW_MODE.values <->
  mode = "Quarter Day" \/ mode = "Half Day" \/ mode = "Day" \/
  mode = "Week" \/ mode = "Month" \/ mode = "Year".
Proof.
  unfold VIEW_MODE.values, VIEW_MODE.QUARTER_DAY, VIEW_MODE.HALF_DAY,
    VIEW_MODE.DAY, VIEW_MODE.WEEK, VIEW_MODE.MONTH, VIEW_MODE.YEAR.
  rewrite !elem_of_cons, elem_of_nil. tauto.
Qed.


(** For a mode outside the enumeration, [update_view_scale] logs one error
    and returns; step, column width and every other option keep their
    values, and [view_mode] becomes the unknown string. *)
Lemma update_view_scale_unknown :
  forall mode options console,
    mode ∉ VIEW_MODE.values ->
    update_view_scale mode (options, console)
    = (Options.set_view_mode mode options,
       console ++ ["Unknown view mode used: " +:+ mode]).
Proof.
  intros mode options console Hmode.
  rewrite known_view_mode in Hmode.
  unfold update_view_scale.
  repeat match goal with
         | |- context [String.eqb mode ?m] =>
             destruct (String.eqb_spec mode m); [exfalso; tauto|]
         end.
  reflexivity.
Qed.

Section ChangeViewModeFacts.
Variable setup_dates : Gantt.t -> Gantt.t * completion.
Variable render : Gantt.t -> Gantt.t * completion.
Variable trigger_event : string -> list string -> Gantt.t -> Gantt.t * completion.


End ChangeViewModeFacts.


(** ** The resolver: the repair rules *)

Section ResolverLaws.
Context {U : DateUtils}.

(** The callback of [setup_tasks] computes the repaired bounds. *)
Lemma resolve_task_bounds rnd task i :
  bounds (resolve_task rnd task i) = repaired_bounds task.
Proof.
  unfold bounds, repaired_bounds, resolve_task.
  destruct (truthy_date (Task.start task)) eqn:Ts,
           (truthy_date (Task.end_ task)) eqn:Te,
           (gt_10 (diff (parse (Task.end_ task)) (parse (Task.start task)) Year))
             eqn:Hl;
    cbv zeta; resolve_steps;
    destruct (time_is_zero _); resolve_steps;
    destruct (negb (JS.truthy (Task.id task))); resolve_steps; reflexivity.
Qed.

Context {L : DateUtilsLaws U}.

Lemma parse_Some_truthy r d : parse r = Some d -> truthy_date r = true.
Proof.
  intros H. destruct (truthy_date r) eqn:E; [reflexivity|].
  rewrite (parse_falsy r E) in H. discriminate.
Qed.

Lemma bump_nonneg ms : 0 <= bump ms.
Proof. unfold bump, ms_per_hour. destruct (time_is_zero _); lia. Qed.

(** The end-of-day step on a concrete date, in milliseconds. *)
Lemma end_of_day ms :
  (if time_is_zero (get_date_values (Some ms)) then add (Some ms) 24 Hour
   else Some ms) = Some (ms + bump ms).
Proof.
  unfold bump. destruct (time_is_zero _).
  - apply add_hour.
  - by rewrite Z.add_0_r.
Qed.

Lemma repaired_too_long task s e :
  parse (Task.start task) = Some s ->
  parse (Task.end_ task) = Some e ->
  gt_10 (diff (Some e) (Some s) Year) = true ->
  repaired_bounds task
  = (RawAbsent, Some s, Some (s + 2 * ms_per_day + bump (s + 2 * ms_per_day)), true).
Proof.
  intros Hs He Hgt. unfold repaired_bounds.
  rewrite Hs, He, Hgt, (parse_Some_truthy _ _ Hs), andb_false_r. cbn [negb orb].
  by rewrite add_day, end_of_day.
Qed.

Lemma repaired_start_only task s :
  parse (Task.start task) = Some s ->
  truthy_date (Task.end_ task) = false ->
  repaired_bounds task
  = (if gt_10 (diff (parse (Task.end_ task)) (Some s) Year) then RawAbsent
     else Task.end_ task,
     Some s, Some (s + 2 * ms_per_day + bump (s + 2 * ms_per_day)), true).
Proof.
  intros Hs Te. unfold repaired_bounds.
  rewrite Hs, Te, (parse_Some_truthy _ _ Hs). cbn [negb andb orb].
  by rewrite add_day, end_of_day.
Qed.

Lemma repaired_end_only task e :
  truthy_date (Task.start task) = false ->
  parse (Task.end_ task) = Some e ->
  repaired_bounds task
  = (Task.end_ task, Some (e - 2 * ms_per_day), Some (e + bump e), true).
Proof.
  intros Ts He. unfold repaired_bounds.
  rewrite He, Ts, (parse_Some_truthy _ _ He), (parse_falsy _ Ts).
  rewrite (diff_invalid (Some e) None Year) by auto. cbn [gt_10 negb andb orb].
  rewrite add_day, end_of_day. repeat f_equal; lia.
Qed.

Lemma repaired_both_missing task :
  truthy_date (Task.start task) = false ->
  truthy_date (Task.end_ task) = false ->
  exists end_,
    repaired_bounds task
    = (end_, Some today,
       Some (today + 2 * ms_per_day + bump (today + 2 * ms_per_day)), true).
Proof.
  intros Ts Te. unfold repaired_bounds. rewrite Ts, Te. cbn [negb andb orb].
  rewrite add_day, end_of_day. eauto.
Qed.

Lemma repaired_both_given task s e :
  parse (Task.start task) = Some s ->
  parse (Task.end_ task) = Some e ->
  gt_10 (diff (Some e) (Some s) Year) = false ->
  repaired_bounds task = (Task.end_ task, Some s, Some (e + bump e), false).
Proof.
  intros Hs He Hgt. unfold repaired_bounds.
  rewrite Hs, He, Hgt, (parse_Some_truthy _ _ Hs), (parse_Some_truthy _ _ He).
  cbn [negb andb orb]. by rewrite end_of_day.
Qed.

End ResolverLaws.

(** ** C2, C3 and C10: the resolved bounds *)

Section ResolvedBounds.
Context {U : DateUtils} {L : DateUtilsLaws U}.

(** The resolved task at position [i], with its bounds in closed form. *)
Lemma setup_tasks_bounds rnd tasks g i task :
  tasks !! i = Some task ->
  exists r, Gantt.tasks (setup_tasks rnd tasks g).1 !! i = Some r /\
            bounds r = repaired_bounds task.
Proof.
  intros Hi. rewrite setup_tasks_lookup, Hi. cbn.
  eexists; split; [reflexivity|]. apply resolve_task_bounds.
Qed.

Lemma date_gt_Some x y : y < x -> date_gt (Some x) (Some y) = true.
Proof. intros H. cbn. by apply Z.ltb_lt. Qed.

(** C2 (amended): when every bound that is given parses to a concrete date
    and, both being given, the start lies before the end as the end-of-day
    step leaves it (the end plus 24 hours when its time components are all
    zero, the end itself otherwise), the task produced by [setup_tasks] ends
    strictly after it starts. Equal bounds at midnight, a task of one day,
    are among these. *)
Theorem setup_tasks_end_after_start rnd tasks g i task :
  tasks !! i = Some task ->
  (truthy_date (Task.start task) = true -> is_Some (parse (Task.start task))) ->
  (truthy_date (Task.end_ task) = true -> is_Some (parse (Task.end_ task))) ->
  (forall s e, parse (Task.start task) = Some s ->
               parse (Task.end_ task) = Some e -> s < e + bump e) ->
  exists r, Gantt.tasks (setup_tasks rnd tasks g).1 !! i = Some r /\
    date_gt (ResolvedTask.endResolved r) (ResolvedTask.startResolved r) = true.
Proof.
  intros Hi Hs He Hlt.
  destruct (setup_tasks_bounds rnd tasks g i task Hi) as [r [Hr Hb]].
  exists r. split; [exact Hr|].
  assert (Hd : 0 < ms_per_day) by (unfold ms_per_day, ms_per_hour; lia).
  unfold bounds in Hb.
  destruct (truthy_date (Task.start task)) eqn:Ts,
           (truthy_date (Task.end_ task)) eqn:Te.
  - destruct (Hs eq_refl) as [s Ps], (He eq_refl) as [e Pe].
    specialize (Hlt s e Ps Pe).
    destruct (gt_10 (diff (Some e) (Some s) Year)) eqn:Hl.
    + rewrite (repaired_too_long task s e Ps Pe Hl) in Hb.
      injection Hb as _ -> -> _. apply date_gt_Some.
      pose proof (bump_nonneg (s + 2 * ms_per_day)). lia.
    + rewrite (repaired_both_given task s e Ps Pe Hl) in Hb.
      injection Hb as _ -> -> _. apply date_gt_Some. exact Hlt.
  - destruct (Hs eq_refl) as [s Ps].
    rewrite (repaired_start_only task s Ps Te) in Hb.
    injection Hb as _ -> -> _. apply date_gt_Some.
    pose proof (bump_nonneg (s + 2 * ms_per_day)). lia.
  - destruct (He eq_refl) as [e Pe].
    rewrite (repaired_end_only task e Ts Pe) in Hb.
    injection Hb as _ -> -> _. apply date_gt_Some.
    pose proof (bump_nonneg e). lia.
  - destruct (repaired_both_missing task Ts Te) as [end_ Hm].
    rewrite Hm in Hb.
    injection Hb as _ -> -> _. apply date_gt_Some.
    pose proof (bump_nonneg (today + 2 * ms_per_day)). lia.
Qed.

(** C3 (amended): for a raw task with one bound [d] only, the resolved
    start is [d] (start only) or two days before [d] (end only), and the
    resolved end is two days after the resolved start, plus 24 hours when
    that point has zero time components. *)
Theorem setup_tasks_one_bound rnd tasks g i task d :
  tasks !! i = Some task ->
  (parse (Task.start task) = Some d /\ truthy_date (Task.end_ task) = false) \/
  (truthy_date (Task.start task) = false /\ parse (Task.end_ task) = Some d) ->
  exists r a b,
    Gantt.tasks (setup_tasks rnd tasks g).1 !! i = Some r /\
    ResolvedTask.startResolved r = Some a /\
    ResolvedTask.endResolved r = Some b /\
    a = (if truthy_date (Task.start task) then d else d - 2 * ms_per_day) /\
    b - a = 2 * ms_per_day + bump (a + 2 * ms_per_day).
Proof.
  intros Hi H.
  destruct (setup_tasks_bounds rnd tasks g i task Hi) as [r [Hr Hb]].
  unfold bounds in Hb. exists r.
  destruct H as [[Ps Te] | [Ts Pe]].
  - rewrite (repaired_start_only task d Ps Te) in Hb.
    injection Hb as _ Hs He _.
    exists d, (d + 2 * ms_per_day + bump (d + 2 * ms_per_day)).
    rewrite (parse_Some_truthy _ _ Ps). repeat split; auto; lia.
  - rewrite (repaired_end_only task d Ts Pe) in Hb.
    injection Hb as _ Hs He _.
    exists (d - 2 * ms_per_day), (d + bump d).
    rewrite Ts. repeat split; auto.
    replace (d - 2 * ms_per_day + 2 * ms_per_day) with d by lia. lia.
Qed.

(** A raw task whose two bounds parse and for which [diff] reports more
    than ten years loses its raw end, ends two days after its start (plus 24
    hours when that point has zero time components) and is marked
    invalid. *)
Lemma setup_tasks_diff_gt_10 rnd tasks g i task s e :
  tasks !! i = Some task ->
  parse (Task.start task) = Some s ->
  parse (Task.end_ task) = Some e ->
  gt_10 (diff (Some e) (Some s) Year) = true ->
  exists r, Gantt.tasks (setup_tasks rnd tasks g).1 !! i = Some r /\
    ResolvedTask.end_ r = RawAbsent /\
    ResolvedTask.startResolved r = Some s /\
    ResolvedTask.endResolved r
      = Some (s + 2 * ms_per_day + bump (s + 2 * ms_per_day)) /\
    ResolvedTask.invalid r = true.
Proof.
  intros Hi Ps Pe Hl.
  destruct (setup_tasks_bounds rnd tasks g i task Hi) as [r [Hr Hb]].
  unfold bounds in Hb. rewrite (repaired_too_long task s e Ps Pe Hl) in Hb.
  injection Hb as H1 H2 H3 H4. exists r. auto.
Qed.

Context {Y : DiffInYears U}.

(** [diff] reports more than ten years exactly from eleven years of 360
    days on. *)
Lemma diff_year_gt_10 s e :
  gt_10 (diff (Some e) (Some s) Year) = true <-> 11 * ms_per_year <= e - s.
Proof.
  assert (Hy : 0 < ms_per_year) by reflexivity.
  rewrite diff_year. unfold gt_10.
  destruct (Qlt_le_dec 10 (inject_Z ((e - s) / ms_per_year))) as [Hlt|Hle].
  - split; [intros _|reflexivity].
    change 10%Q with (inject_Z 10) in Hlt. rewrite <- Zlt_Qlt in Hlt.
    assert (H11 : 11 <= (e - s) / ms_per_year) by lia.
    pose proof (Z.mul_div_le (e - s) ms_per_year Hy). nia.
  - split; [discriminate|]. intros H. exfalso.
    change 10%Q with (inject_Z 10) in Hle. rewrite <- Zle_Qle in Hle.
    pose proof (Z.div_le_lower_bound (e - s) ms_per_year 11 Hy H). lia.
Qed.


End ResolvedBounds.

Lemma UTC_diff_in_years : DiffInYears UTC.dateUtils.
Proof. split. intros a b. reflexivity. Qed.


(** C2 (as stated, fails): a task whose end is four days before its start is
    resolved with its end still before its start. *)
Lemma setup_tasks_inverted_stays_inverted :
  exists r,
    Gantt.tasks (setup_tasks (U := UTC.dateUtils) Examples.no_random
                   [Examples.inverted] Examples.gantt0).1 !! 0%nat = Some r /\
    date_gt (ResolvedTask.endResolved r) (ResolvedTask.startResolved r) = false.
Proof. eexists. split; vm_compute; reflexivity. Qed.

Lemma setup_tasks_end_after_start_witness :
  exists r,
    Gantt.tasks (setup_tasks (U := UTC.dateUtils) Examples.no_random
                   [Examples.T1; Examples.one_day] Examples.gantt0).1 !! 1%nat
    = Some r /\
    date_gt (ResolvedTask.endResolved r) (ResolvedTask.startResolved r) = true.
Proof.
  apply (setup_tasks_end_after_start (L := UTC_laws) Examples.no_random
           [Examples.T1; Examples.one_day] Examples.gantt0 1 Examples.one_day).
  - reflexivity.
  - intros _. vm_compute. eauto.
  - intros _. vm_compute. eauto.
  - intros s e Hs He. vm_compute in Hs, He.
    injection Hs as <-. injection He as <-. reflexivity.
Defined.

(** C3 (as stated, fails): a task that starts on 2024-01-01 at midnight and
    has no end is resolved to a span of three days, not two. *)
Lemma setup_tasks_start_only_three_days :
  exists r s,
    @parse UTC.dateUtils (Task.start Examples.start_only) = Some s /\
    Task.end_ Examples.start_only = RawAbsent /\
    Gantt.tasks (setup_tasks (U := UTC.dateUtils) Examples.no_random
                   [Examples.start_only] Examples.gantt0).1 !! 0%nat = Some r /\
    ResolvedTask.startResolved r = Some s /\
    ResolvedTask.endResolved r = Some (s + 3 * ms_per_day) /\
    s + 3 * ms_per_day - s <> 2 * ms_per_day.
Proof.
  do 2 eexists. repeat split; try (vm_compute; reflexivity).
  vm_compute. discriminate.
Qed.

(** So is a task that ends on 2024-01-03 at midnight and has no start. *)
Example setup_tasks_end_only_three_days :
  exists r,
    Gantt.tasks (setup_tasks (U := UTC.dateUtils) Examples.no_random
                   [Examples.end_only] Examples.gantt0).1 !! 0%nat = Some r /\
    ResolvedTask.startResolved r = UTC.parse_string "2024-01-01" /\
    ResolvedTask.endResolved r = UTC.parse_string "2024-01-04".
Proof. eexists. repeat split; vm_compute; reflexivity. Qed.

Lemma setup_tasks_one_bound_witness :
  exists r a b,
    Gantt.tasks (setup_tasks (U := UTC.dateUtils) Examples.no_random
                   [Examples.start_only_at_10] Examples.gantt0).1 !! 0%nat = Some r /\
    ResolvedTask.startResolved r = Some a /\
    ResolvedTask.endResolved r = Some b /\
    a = (if truthy_date (Task.start Examples.start_only_at_10)
         then 1704103200000 else 1704103200000 - 2 * ms_per_day) /\
    b - a = 2 * ms_per_day + bump (U := UTC.dateUtils) (a + 2 * ms_per_day).
Proof.
  apply (setup_tasks_one_bound (L := UTC_laws) Examples.no_random
           [Examples.start_only_at_10] Examples.gantt0 0
           Examples.start_only_at_10 1704103200000).
  - reflexivity.
  - left. split; vm_compute; reflexivity.
Defined.


(** ** C6: snapping *)

(** C6 (fails on the code): in Day view (columns of 38 pixels) a pointer
    delta of -30 is snapped to 0, although the multiple -38 is nearer: the
    remainder of a negative delta is negative, so the test against half a
    column never adds a column. *)
Theorem get_snap_position_negative_delta :
  (Options.column_width Examples.day_options == 38)%Q /\
  view_is Examples.day_options VIEW_MODE.DAY = true /\
  (get_snap_position Examples.day_options (-30) == 0)%Q /\
  (Qabs (-30 - -38) < Qabs (-30 - 0))%Q.
Proof. repeat split; vm_compute; reflexivity. Qed.

(** For a delta that is not negative the same view snaps to the nearest
    column, a tie going to the larger one. *)
Lemma get_snap_position_day_examples :
  (get_snap_position Examples.day_options 18 == 0)%Q /\
  (get_snap_position Examples.day_options 19 == 38)%Q /\
  (get_snap_position Examples.day_options 30 == 38)%Q /\
  (get_snap_position Examples.day_options (-19) == 0)%Q /\
  (get_snap_position Examples.day_options (-37) == 0)%Q /\
  (get_snap_position Examples.day_options (-38) == -38)%Q.
Proof. repeat split; vm_compute; reflexivity. Qed.

(** ** C6: what the snap function computes *)

Lemma trunc_nonneg q : (0 <= q)%Q ->
  (inject_Z (trunc q) <= q)%Q /\ (q < inject_Z (trunc q) + 1)%Q /\ 0 <= trunc q.
Proof.
  destruct q as [n d]. unfold Qle, Qlt, trunc. cbn. intros H.
  assert (Hn : 0 <= n) by lia.
  pose proof (Z.quot_rem' n (Zpos d)) as E.
  pose proof (Z.rem_bound_pos n (Zpos d) Hn ltac:(lia)) as B.
  pose proof (Z.quot_pos n (Zpos d) Hn ltac:(lia)) as P.
  set (t := n ÷ Zpos d) in *. set (r := Z.rem n (Zpos d)) in *.
  repeat split; lia.
Qed.

Lemma trunc_nonpos q : (q <= 0)%Q ->
  (q <= inject_Z (trunc q))%Q /\ (inject_Z (trunc q) - 1 < q)%Q /\ trunc q <= 0.
Proof.
  destruct q as [n d]. unfold Qle, Qlt, trunc. cbn. intros H.
  assert (Hn : n <= 0) by lia.
  pose proof (Z.quot_rem' n (Zpos d)) as E.
  pose proof (Z.rem_bound_pos_neg n (Zpos d) ltac:(lia) Hn) as B.
  set (t := n ÷ Zpos d) in *. set (r := Z.rem n (Zpos d)) in *.
  assert (t <= 0) by nia.
  repeat split; lia.
Qed.

Lemma js_rem_trunc a b : js_rem a b = (a - b * inject_Z (trunc (a / b)))%Q.
Proof. reflexivity. Qed.

(** The remainder of a delta that is not negative lies in [[0, g)]. *)
Lemma js_rem_nonneg a g : (0 < g)%Q -> (0 <= a)%Q ->
  (0 <= js_rem a g < g)%Q /\ 0 <= trunc (a / g).
Proof.
  intros Hg Ha. rewrite js_rem_trunc.
  assert (Hq : (0 <= a / g)%Q) by (apply Qle_shift_div_l; lra).
  destruct (trunc_nonneg _ Hq) as (H1 & H2 & H3).
  set (t := inject_Z (trunc (a / g))) in *.
  assert (E : (a == a / g * g)%Q) by (field; lra).
  assert (H4 : (t * g <= a / g * g)%Q) by (apply Qmult_le_compat_r; lra).
  assert (H5 : (a / g * g < (t + 1) * g)%Q) by (apply Qmult_lt_compat_r; lra).
  repeat split; try lra. exact H3.
Qed.

(** The remainder of a delta that is not positive lies in [(-g, 0]]. *)
Lemma js_rem_nonpos a g : (0 < g)%Q -> (a <= 0)%Q ->
  (- g < js_rem a g <= 0)%Q /\ trunc (a / g) <= 0.
Proof.
  intros Hg Ha. rewrite js_rem_trunc.
  assert (Hq : (a / g <= 0)%Q) by (apply Qle_shift_div_r; lra).
  destruct (trunc_nonpos _ Hq) as (H1 & H2 & H3).
  set (t := inject_Z (trunc (a / g))) in *.
  assert (E : (a == a / g * g)%Q) by (field; lra).
  assert (H4 : (a / g * g <= t * g)%Q) by (apply Qmult_le_compat_r; lra).
  assert (H5 : ((t - 1) * g < a / g * g)%Q) by (apply Qmult_lt_compat_r; lra).
  repeat split; try lra. exact H3.
Qed.

Lemma js_lt_proper a b b' : (b == b')%Q -> js_lt a b = js_lt a b'.
Proof.
  intros E. unfold js_lt.
  destruct (Qlt_le_dec a b), (Qlt_le_dec a b'); try reflexivity; lra.
Qed.

(** [get_snap_position] in terms of the granularity [g] of the view mode:
    the delta less its remainder, plus [g] unless the remainder is below
    half of [g]. *)
Lemma get_snap_position_granularity options dx :
  let g := snap_granularity options in
  get_snap_position options dx
  = (dx - js_rem dx g + (if js_lt (js_rem dx g) (g / 2) then 0 else g))%Q.
Proof.
  unfold get_snap_position, snap_granularity.
  destruct (view_is options VIEW_MODE.WEEK); [|destruct (view_is options VIEW_MODE.MONTH)];
    cbv zeta; [| |reflexivity].
  - rewrite (js_lt_proper _ (Options.column_width options / 14)
               (Options.column_width options / 7 / 2)) by (field; lra).
    reflexivity.
  - rewrite (js_lt_proper _ (Options.column_width options / 60)
               (Options.column_width options / 30 / 2)) by (field; lra).
    reflexivity.
Qed.

Lemma snap_granularity_pos options :
  (0 < Options.column_width options)%Q -> (0 < snap_granularity options)%Q.
Proof.
  intros H. unfold snap_granularity.
  destruct (view_is options VIEW_MODE.WEEK); [|destruct (view_is options VIEW_MODE.MONTH)];
    try assumption; apply Qlt_shift_div_l; lra.
Qed.

(** A delta that is not negative is snapped to the nearest multiple of the
    granularity, a tie going to the larger multiple. *)
Lemma get_snap_position_nonneg_Q options dx :
  (0 < Options.column_width options)%Q -> (0 <= dx)%Q ->
  let g := snap_granularity options in
  let position := get_snap_position options dx in
  (exists k : Z, 0 <= k /\ (position == g * inject_Z k)%Q) /\
  (dx - g / 2 < position <= dx + g / 2)%Q.
Proof.
  intros Hc Hdx g position. subst position.
  rewrite get_snap_position_granularity. fold g.
  pose proof (snap_granularity_pos options Hc) as Hg. fold g in Hg.
  destruct (js_rem_nonneg dx g Hg Hdx) as [[H1 H2] H3].
  assert (E : (js_rem dx g == dx - g * inject_Z (trunc (dx / g)))%Q)
    by (rewrite js_rem_trunc; reflexivity).
  set (r := js_rem dx g) in *. set (t := trunc (dx / g)) in *.
  clearbody r t g.
  assert (Hhalf : (g / 2 == g * (1 # 2))%Q) by field.
  unfold js_lt. destruct (Qlt_le_dec r (g / 2)) as [Hlt|Hge].
  - split; [exists t; split; [exact H3|rewrite E; ring]|lra].
  - split; [exists (t + 1)|lra].
    split; [lia|]. rewrite inject_Z_plus, E. change (inject_Z 1) with 1%Q. ring.
Qed.

(** A negative delta is truncated toward zero: it is snapped to the first
    multiple of the granularity at or above it, however near the multiple
    below is. *)
Lemma get_snap_position_nonpos_Q options dx :
  (0 < Options.column_width options)%Q -> (dx <= 0)%Q ->
  let g := snap_granularity options in
  let position := get_snap_position options dx in
  (exists k : Z, k <= 0 /\ (position == g * inject_Z k)%Q) /\
  (dx <= position < dx + g)%Q.
Proof.
  intros Hc Hdx g position. subst position.
  rewrite get_snap_position_granularity. fold g.
  pose proof (snap_granularity_pos options Hc) as Hg. fold g in Hg.
  destruct (js_rem_nonpos dx g Hg Hdx) as [[H1 H2] H3].
  assert (E : (js_rem dx g == dx - g * inject_Z (trunc (dx / g)))%Q)
    by (rewrite js_rem_trunc; reflexivity).
  set (r := js_rem dx g) in *. set (t := trunc (dx / g)) in *.
  clearbody r t g.
  assert (Hhalf : (g / 2 == g * (1 # 2))%Q) by field.
  unfold js_lt. destruct (Qlt_le_dec r (g / 2)) as [Hlt|Hge]; [|lra].
  split; [exists t; split; [exact H3|rewrite E; ring]|lra].
Qed.

(** ** The store of bars under [forEach] *)

Lemma forEach_bar_Some f (ixs : list nat) : forall store,
  forEach_bar f (Some <$> ixs) store
  = (foldl (fun st i => alter f i st) store ixs, Normal).
Proof. induction ixs as [|i ixs IH]; intros store; cbn; [reflexivity|apply IH]. Qed.

Lemma forEach_bar_Normal f refs : forall store store',
  forEach_bar f refs store = (store', Normal) ->
  exists ixs : list nat, refs = Some <$> ixs.
Proof.
  induction refs as [|[i|] refs IH]; intros store store' H; cbn in H.
  - by exists [].
  - destruct (IH _ _ H) as [ixs ->]. by exists (i :: ixs).
  - discriminate.
Qed.

(** An idempotent update applied along a list of references changes the
    referenced bars once and leaves the others alone. *)
Lemma foldl_alter_lookup (f : Bar.t -> Bar.t) (ixs : list nat) (i : nat) :
  (forall b, f (f b) = f b) ->
  forall store : list Bar.t,
    foldl (fun st j => alter f j st) store ixs !! i
    = if bool_decide (i ∈ ixs) then f <$> store !! i else store !! i.
Proof.
  intros Hf. induction ixs as [|j ixs IH]; intros store; cbn; [reflexivity|].
  rewrite IH. destruct (decide (i = j)) as [->|Hne].
  - rewrite list_lookup_alter_eq, (bool_decide_eq_true_2 (j ∈ j :: ixs)) by left.
    destruct (store !! j) as [b|]; cbn; [|by case_bool_decide].
    rewrite Hf. by case_bool_decide.
  - rewrite list_lookup_alter_ne by done.
    case_bool_decide as H1; case_bool_decide as H2; try reflexivity;
      rewrite elem_of_cons in H2; tauto.
Qed.

Lemma snapshot_bar_idempotent b : snapshot_bar (snapshot_bar b) = snapshot_bar b.
Proof. destruct b as [id [] p]. reflexivity. Qed.

Lemma move_bar_idempotent options c dx b :
  move_bar options c dx (move_bar options c dx b) = move_bar options c dx b.
Proof.
  destruct b as [id [] p]. unfold move_bar, Bar.update_bar_position.
  destruct (BarEvents.is_resizing_left c), (BarEvents.is_resizing_right c),
    (BarEvents.is_dragging c);
    cbn -[get_snap_position bool_decide js_lt]; try reflexivity;
    destruct (bool_decide (BarEvents.parent_bar_id c = id)) eqn:E;
    cbn -[get_snap_position bool_decide js_lt]; rewrite ?E; try reflexivity;
    destruct (js_lt _ 0) eqn:E2;
    do 3 (cbn -[get_snap_position bool_decide js_lt]; rewrite ?E, ?E2);
    reflexivity.
Qed.

Lemma get_bar_Some g id i :
  get_bar g id = Some i ->
  exists b, Gantt.bars g !! i = Some b /\ Bar.task_id b = Some id.
Proof.
  unfold get_bar. intros H.
  destruct (list_find _ _) as [[j b]|] eqn:E; [|discriminate].
  injection H as ->. apply list_find_Some in E as (H1 & H2 & _). eauto.
Qed.

(** ** The pointer-down handler of [bind_bar_events] *)

Lemma bar_mousedown_Normal fuel e element g c g1 c1 :
  bar_mousedown fuel e element g c = Some (g1, c1, Normal) ->
  exists (dependents : list string) (ixs : list nat),
    get_all_dependent_tasks fuel (Gantt.dependencyMap g) (data_id element)
      = Some dependents /\
    map (get_bar g) (data_id element :: dependents) = Some <$> ixs /\
    BarEvents.bars c1 = Some <$> ixs /\
    BarEvents.x_on_start c1 = offsetX e /\
    BarEvents.parent_bar_id c1 = Some (data_id element) /\
    Gantt.options g1 = Gantt.options g /\
    (forall i, Gantt.bars g1 !! i
               = if bool_decide (i ∈ ixs) then snapshot_bar <$> Gantt.bars g !! i
                 else Gantt.bars g !! i) /\
    (BarEvents.is_resizing_left c1, BarEvents.is_resizing_right c1,
     BarEvents.is_dragging c1)
    = if contains element "left" then
        (true, BarEvents.is_resizing_right c, BarEvents.is_dragging c)
      else if contains element "right" then
        (BarEvents.is_resizing_left c, true, BarEvents.is_dragging c)
      else if contains element "bar-wrapper" then
        (BarEvents.is_resizing_left c, BarEvents.is_resizing_right c, true)
      else
        (BarEvents.is_resizing_left c, BarEvents.is_resizing_right c,
         BarEvents.is_dragging c).
Proof.
  unfold bar_mousedown. intros H.
  destruct (get_all_dependent_tasks _ _ _) as [dependents|] eqn:Hd; [|discriminate].
  cbn -[forEach_bar map] in H.
  destruct (forEach_bar _ _ _) as [store r] eqn:Hf.
  injection H as <- <- ->.
  destruct (forEach_bar_Normal _ _ _ _ Hf) as [ixs Hixs].
  rewrite Hixs, forEach_bar_Some in Hf. injection Hf as <-.
  exists dependents, ixs. repeat split; try done.
  - intros i. cbn. apply foldl_alter_lookup, snapshot_bar_idempotent.
  - cbn. by destruct (contains element "left"), (contains element "right"),
      (contains element "bar-wrapper").
Qed.

(** ** The pointer-move handler of [bind_bar_events] *)

Lemma bar_mousemove_lookup e c g (ixs : list nat) (i : nat) :
  BarEvents.action_in_progress c = true ->
  BarEvents.bars c = Some <$> ixs ->
  Gantt.options (bar_mousemove e c g).1 = Gantt.options g /\
  Gantt.bars (bar_mousemove e c g).1 !! i
  = if bool_decide (i ∈ ixs)
    then move_bar (Gantt.options g) c (offsetX e - BarEvents.x_on_start c)%Q
           <$> Gantt.bars g !! i
    else Gantt.bars g !! i.
Proof.
  intros Ha Hb. unfold bar_mousemove. rewrite Ha, Hb, forEach_bar_Some. cbn.
  split; [reflexivity|]. apply foldl_alter_lookup. intros b. apply move_bar_idempotent.
Qed.

Lemma bar_mousemoves_snoc es e c g :
  bar_mousemoves (es ++ [e]) c g = (bar_mousemove e c (bar_mousemoves es c g)).1.
Proof. unfold bar_mousemoves. by rewrite foldl_app. Qed.

(** A relation between the bar at pointer-down and the bar now that every
    move keeps, is kept by a run of moves, for every affected bar. *)
Lemma bar_mousemoves_invariant (R : Bar.t -> Bar.t -> Prop) c (ixs : list nat)
    (orig : list Bar.t) options :
  BarEvents.action_in_progress c = true ->
  BarEvents.bars c = Some <$> ixs ->
  (forall dx b0 b, R b0 b -> R b0 (move_bar options c dx b)) ->
  forall es g,
    Gantt.options g = options ->
    (forall i b0, i ∈ ixs -> orig !! i = Some b0 ->
                  exists b, Gantt.bars g !! i = Some b /\ R b0 b) ->
    Gantt.options (bar_mousemoves es c g) = options /\
    (forall i b0, i ∈ ixs -> orig !! i = Some b0 ->
                  exists b, Gantt.bars (bar_mousemoves es c g) !! i = Some b /\ R b0 b).
Proof.
  intros Ha Hb HR es. induction es as [|e es IH]; intros g Ho Hg; [by split|].
  cbn. apply IH.
  - destruct (bar_mousemove_lookup e c g ixs 0%nat Ha Hb) as [-> _]. exact Ho.
  - intros i b0 Hi H0. destruct (Hg i b0 Hi H0) as [b [Hl Hr]].
    destruct (bar_mousemove_lookup e c g ixs i Ha Hb) as [_ ->].
    rewrite (bool_decide_eq_true_2 _ Hi), Hl, Ho. cbn. eauto.
Qed.

(** The snapshot relation: the attached properties hold the x and the width
    of the bar at pointer-down. *)
Lemma snapshot_bar_spec b0 :
  let b := snapshot_bar b0 in
  Rect.ox (Bar.bar b) = Rect.x (Bar.bar b0) /\
  Rect.owidth (Bar.bar b) = Rect.width (Bar.bar b0) /\
  Rect.x (Bar.bar b) = Rect.x (Bar.bar b0) /\
  Rect.width (Bar.bar b) = Rect.width (Bar.bar b0) /\
  Bar.task_id b = Bar.task_id b0.
Proof. destruct b0 as [id [] p]. cbn. auto. Qed.

(** One move while dragging. *)
Lemma move_bar_dragging options c dx b :
  BarEvents.is_resizing_left c = false ->
  BarEvents.is_resizing_right c = false ->
  BarEvents.is_dragging c = true ->
  let b' := move_bar options c dx b in
  Rect.x (Bar.bar b') = (Rect.ox (Bar.bar b) + get_snap_position options dx)%Q /\
  Rect.width (Bar.bar b') = Rect.width (Bar.bar b) /\
  Rect.ox (Bar.bar b') = Rect.ox (Bar.bar b) /\
  Rect.owidth (Bar.bar b') = Rect.owidth (Bar.bar b) /\
  Bar.task_id b' = Bar.task_id b.
Proof.
  intros Hl Hr Hd. unfold move_bar. rewrite Hl, Hr, Hd.
  destruct b as [id [] p]. cbn -[get_snap_position]. auto.
Qed.

(** One move while resizing at the right handle. *)
Lemma move_bar_resizing_right options c dx b :
  BarEvents.is_resizing_left c = false ->
  BarEvents.is_resizing_right c = true ->
  let b' := move_bar options c dx b in
  Rect.x (Bar.bar b') = Rect.x (Bar.bar b) /\
  Rect.width (Bar.bar b')
  = (if bool_decide (BarEvents.parent_bar_id c = Bar.task_id b)
     then (let width := Rect.owidth (Bar.bar b) + get_snap_position options dx in
           if js_lt width 0 then 0 else width)%Q
     else Rect.width (Bar.bar b)) /\
  Rect.ox (Bar.bar b') = Rect.ox (Bar.bar b) /\
  Rect.owidth (Bar.bar b') = Rect.owidth (Bar.bar b) /\
  Bar.task_id b' = Bar.task_id b.
Proof.
  intros Hl Hr. unfold move_bar, Bar.update_bar_position. rewrite Hl, Hr.
  destruct b as [id [] p]. cbn -[get_snap_position bool_decide js_lt].
  destruct (bool_decide _); cbn -[get_snap_position js_lt]; [|auto].
  destruct (js_lt _ 0); cbn -[get_snap_position js_lt]; auto.
Qed.

(** ** C7: dragging *)

(** C7: after a pointer-down on a bar wrapper with no gesture in progress,
    and after any run of moves, every bar of the affected set (the grabbed
    task and its transitive dependents: every task reached from it along
    the edges of the dependency map) is at its x of pointer-down plus the
    snapped delta of the last move, whatever the moves before, and has the
    width it had. *)
Theorem dragging_shifts_affected_bars :
  forall fuel e0 element g c g1 c1 es e id i b0,
    BarEvents.action_in_progress c = false ->
    contains element "left" = false ->
    contains element "right" = false ->
    contains element "bar-wrapper" = true ->
    bar_mousedown fuel e0 element g c = Some (g1, c1, Normal) ->
    id = data_id element \/
      (id <> "" /\
       reachable (Gantt.dependencyMap g) (data_id element) (Some id)) ->
    get_bar g id = Some i ->
    Gantt.bars g !! i = Some b0 ->
    exists b,
      Gantt.bars (bar_mousemoves (es ++ [e]) c1 g1) !! i = Some b /\
      Rect.x (Bar.bar b)
      = (Rect.x (Bar.bar b0)
         + get_snap_position (Gantt.options g) (offsetX e - offsetX e0))%Q /\
      Rect.width (Bar.bar b) = Rect.width (Bar.bar b0).
Proof.
  intros fuel e0 element g c g1 c1 es e id i b0
    Hidle Hleft Hright Hwrap Hdown Hreach Hbar Hb0.
  destruct (bar_mousedown_Normal _ _ _ _ _ _ _ Hdown)
    as (dependents & ixs & Hdeps & Hrefs & Hbars & Hx & Hparent & Hopts & Hstore
        & Hflags).
  pose proof (reachable_affected _ _ _ _ _ Hdeps Hreach) as Hid.
  rewrite Hleft, Hright, Hwrap in Hflags.
  unfold BarEvents.action_in_progress in Hidle.
  apply orb_false_elim in Hidle as [Hidle Hr]. apply orb_false_elim in Hidle as [Hd Hl].
  rewrite Hl, Hr in Hflags. injection Hflags as Hl1 Hr1 Hd1.
  assert (Hact : BarEvents.action_in_progress c1 = true)
    by (unfold BarEvents.action_in_progress; rewrite Hd1; reflexivity).
  assert (Hi : i ∈ ixs).
  { apply (list_elem_of_fmap_2 (get_bar g)) in Hid.
    change (get_bar g <$> data_id element :: dependents)
      with (map (get_bar g) (data_id element :: dependents)) in Hid.
    rewrite Hrefs, Hbar in Hid.
    apply list_elem_of_fmap in Hid as (j & Hj & Hin). by injection Hj as ->. }
  set (R := fun b0 b : Bar.t =>
              Rect.ox (Bar.bar b) = Rect.x (Bar.bar b0) /\
              Rect.width (Bar.bar b) = Rect.width (Bar.bar b0)).
  destruct (bar_mousemoves_invariant R c1 ixs (Gantt.bars g) (Gantt.options g)
              Hact Hbars) with (es := es) (g := g1) as [Ho Hinv].
  - intros dx a0 a [H1 H2].
    destruct (move_bar_dragging (Gantt.options g) c1 dx a Hl1 Hr1 Hd1)
      as (_ & H3 & H4 & _). split; congruence.
  - exact Hopts.
  - intros j a0 Hj Ha0. rewrite Hstore, (bool_decide_eq_true_2 _ Hj), Ha0. cbn.
    eexists; split; [reflexivity|].
    destruct (snapshot_bar_spec a0) as (H1 & _ & _ & H2 & _). by split.
  - destruct (Hinv i b0 Hi Hb0) as (b & Hb & H1 & H2).
    rewrite bar_mousemoves_snoc.
    destruct (bar_mousemove_lookup e c1 (bar_mousemoves es c1 g1) ixs i Hact Hbars)
      as [_ ->].
    rewrite (bool_decide_eq_true_2 _ Hi), Hb, Ho, Hx. cbn -[get_snap_position].
    eexists; split; [reflexivity|].
    destruct (move_bar_dragging (Gantt.options g) c1 (offsetX e - offsetX e0) b
                Hl1 Hr1 Hd1) as (H3 & H4 & _).
    split; congruence.
Qed.

(** ** C8: resizing at the right handle *)


(** ** C9: resizing the progress *)

Lemma clamp_dx_bounds dx min_dx max_dx :
  (min_dx <= max_dx)%Q ->
  (min_dx <= clamp_dx dx min_dx max_dx <= max_dx)%Q.
Proof.
  intros H. unfold clamp_dx, js_lt.
  destruct (Qlt_le_dec max_dx dx); destruct (Qlt_le_dec _ min_dx); split; lra.
Qed.

(** Whatever the width of the bar, the progress rectangle never gets a
    negative width. *)
Lemma clamp_dx_width_nonneg dx progressWidth barWidth :
  (0 <= progressWidth
        + clamp_dx dx (- progressWidth) (barWidth - progressWidth))%Q.
Proof.
  unfold clamp_dx, js_lt.
  destruct (Qlt_le_dec (barWidth - progressWidth) dx);
    destruct (Qlt_le_dec _ (- progressWidth)); lra.
Qed.

Lemma progress_mousemoves_snoc es e c g :
  progress_mousemoves (es ++ [e]) c g
  = (progress_mousemove e c (progress_mousemoves es c g)).1.
Proof. unfold progress_mousemoves. by rewrite foldl_app. Qed.

(** A move of the progress gesture touches the progress rectangle of the
    grabbed bar only, and keeps what the pointer-down attached to it. *)
Lemma progress_mousemove_lookup e c g (i : nat) :
  BarProgress.is_resizing c = true ->
  BarProgress.bar c = Some i ->
  BarProgress.bar_progress_of c = Some i ->
  forall j,
    Gantt.bars (progress_mousemove e c g).1 !! j
    = if decide (i = j) then
        (fun b =>
           let p := Bar.bar_progress b in
           let dx := clamp_dx (offsetX e - BarProgress.x_on_start c)
                       (Rect.min_dx p) (Rect.max_dx p) in
           Bar.set_bar_progress
             (Rect.set_finaldx dx (Rect.set_width (Rect.owidth p + dx) p)) b)
          <$> Gantt.bars g !! i
      else Gantt.bars g !! j.
Proof.
  intros Hr Hb Hp j. unfold progress_mousemove. rewrite Hr, Hb, Hp. cbn.
  apply list_lookup_alter.
Qed.


(** ** The handlers on three bars *)

Lemma T3_reached_from_T1 :
  "T3" = "T1" \/
  ("T3" <> "" /\ reachable (Gantt.dependencyMap Examples.chain) "T1" (Some "T3")).
Proof.
  right. split; [discriminate|].
  apply (reachable_step _ "T1" [Some "T2"] (Some "T2"));
    [reflexivity|left|].
  apply (reachable_edge _ "T2" [Some "T3"]); [reflexivity|left].
Defined.

Lemma dragging_shifts_affected_bars_witness :
  exists b,
    Gantt.bars (bar_mousemoves ([Examples.at_x 60] ++ [Examples.at_x 95])
                  (Examples.chain_down_on (Examples.wrapper_of "T1")).2
                  (Examples.chain_down_on (Examples.wrapper_of "T1")).1) !! 2%nat
    = Some b /\
    Rect.x (Bar.bar b)
    = (Rect.x (Bar.bar Examples.T3_bar)
       + get_snap_position (Gantt.options Examples.chain)
           (offsetX (Examples.at_x 95) - offsetX (Examples.at_x 50)))%Q /\
    Rect.width (Bar.bar b) = Rect.width (Bar.bar Examples.T3_bar).
Proof.
  apply (dragging_shifts_affected_bars 10 (Examples.at_x 50)
           (Examples.wrapper_of "T1") Examples.chain BarEvents.initial
           (Examples.chain_down_on (Examples.wrapper_of "T1")).1
           (Examples.chain_down_on (Examples.wrapper_of "T1")).2
           [Examples.at_x 60] (Examples.at_x 95) "T3" 2 Examples.T3_bar);
    [reflexivity|reflexivity|reflexivity|reflexivity|
     vm_compute; reflexivity|exact T3_reached_from_T1|
     vm_compute; reflexivity|reflexivity].
Defined.




(** The three bars, dragged and resized: T1 is grabbed at x = 50 and the
    pointer is at x = 95 in the end, a delta of 45 that snaps to one column
    of 38. *)
Example drag_T1_by_one_column :
  let g := bar_mousemoves [Examples.at_x 60; Examples.at_x 95]
             (Examples.down_on (Examples.wrapper_of "T1")).2
             (Examples.down_on (Examples.wrapper_of "T1")).1 in
  map (fun b => (Qred (Rect.x (Bar.bar b)), Qred (Rect.width (Bar.bar b))))
      (Gantt.bars g)
  = [(76, 76); (152, 38); (190, 76)]%Q.
Proof. vm_compute. reflexivity. Qed.

Example resize_T1_by_one_column :
  let g := bar_mousemoves [Examples.at_x 60; Examples.at_x 95]
             (Examples.down_on (Examples.right_handle_of "T1")).2
             (Examples.down_on (Examples.right_handle_of "T1")).1 in
  map (fun b => (Qred (Rect.x (Bar.bar b)), Qred (Rect.width (Bar.bar b))))
      (Gantt.bars g)
  = [(38, 114); (114, 38); (152, 76)]%Q.
Proof. vm_compute. reflexivity. Qed.

Example progress_T1_past_the_bar :
  let g := progress_mousemoves [Examples.at_x 60; Examples.at_x 500]
             Examples.progress_down.2 Examples.progress_down.1 in
  map (fun b => Qred (Rect.width (Bar.bar_progress b))) (Gantt.bars g)
  = [76; 0; 76]%Q.
Proof. vm_compute. reflexivity. Qed.

(** * Further properties *)


(** ** The dependent-closure traversal on maps without cycles *)

Lemma dependents_loop_nil fuel (dependencyMap : DependencyMap) out :
  dependents_loop fuel dependencyMap out [] = Some out.
Proof. by destruct fuel. Qed.

(** The entries of the next work list come from the dependents of the
    entries of this one. *)
Lemma dependents_step_next (dependencyMap : DependencyMap) out to_process v :
  v ∈ (dependents_step dependencyMap (out, to_process)).2 ->
  (v ∉ to_process) /\
  exists curr, curr ∈ to_process /\
    match dependencyMap !! JS.to_property_key curr with
    | Some ds => v ∈ ds
    | None => v = None
    end.
Proof.
  cbn. intros H. apply list_elem_of_In, filter_In in H as [H1 H2].
  apply list_elem_of_In, elem_of_foldl_concat_dependents in H1 as [H1|H1];
    [by apply elem_of_nil in H1|].
  split; [|exact H1].
  apply negb_true_iff, not_true_iff_false in H2. by rewrite includes_true in H2.
Qed.

Lemma dependents_loop_ranked (rank : string -> nat) (dependencyMap : DependencyMap) :
  dependencyMap !! "undefined" = None ->
  (forall k ds v, dependencyMap !! k = Some ds -> Some v ∈ ds ->
                  (rank v < rank k)%nat) ->
  forall n fuel out to_process,
    (forall v, Some v ∈ to_process -> (rank v < n)%nat) ->
    (n + 1 <= fuel)%nat ->
    is_Some (dependents_loop fuel dependencyMap out to_process).
Proof.
  intros Hundef Hrank n.
  induction n as [|n IH]; intros fuel out to_process Htp Hfuel;
    (destruct fuel as [|fuel]; [lia|]);
    (destruct to_process as [|c0 tp0]; [by eexists|]);
    cbn [dependents_loop];
    destruct (dependents_step dependencyMap (out, c0 :: tp0)) as [out' tp'] eqn:E;
    pose proof (fun v => dependents_step_next dependencyMap out (c0 :: tp0) v) as Hnext;
    rewrite E in Hnext; cbn [snd] in Hnext.
  - assert (Hnone : forall curr, curr ∈ c0 :: tp0 -> curr = None).
    { intros [k|] Hc; [|reflexivity]. specialize (Htp k Hc). lia. }
    destruct tp' as [|v tp'']; [rewrite dependents_loop_nil; by eexists|].
    exfalso. destruct (Hnext v) as [Hnin (curr & Hc & Hv)]; [by left|].
    rewrite (Hnone curr Hc) in Hv. cbn in Hv. rewrite Hundef in Hv. subst v.
    pose proof (Hnone c0 ltac:(by left)) as Hc0. subst c0. apply Hnin. by left.
  - apply IH; [|lia]. intros w Hw.
    destruct (Hnext (Some w) Hw) as [_ (curr & Hc & Hv)].
    destruct curr as [k|]; cbn in Hv.
    + destruct (dependencyMap !! k) as [ds|] eqn:Hm; [|discriminate].
      specialize (Hrank k ds w Hm Hv). specialize (Htp k Hc). lia.
    + rewrite Hundef in Hv. discriminate.
Qed.



(** ** [setupDependencies]: the dependency map is the inverse index *)

Lemma pushed_app entry l1 l2 : pushed (pushed entry l1) l2 = pushed entry (l1 ++ l2).
Proof.
  destruct l1 as [|a l1]; [reflexivity|]. destruct l2 as [|b l2]; cbn.
  - by rewrite app_nil_r.
  - by rewrite <- app_assoc.
Qed.

Lemma push_dependent_own t_id (dependencyMap : DependencyMap) d :
  inherited d = false ->
  push_dependent t_id dependencyMap d
  = (<[d := default [] (dependencyMap !! d) ++ [t_id]]> dependencyMap, Normal).
Proof.
  intros H. unfold push_dependent.
  destruct (dependencyMap !! d); [reflexivity|]. by rewrite H.
Qed.

Lemma forEach_dependency_lookup t_id ds :
  Forall (fun d => inherited d = false) ds ->
  forall dependencyMap : DependencyMap,
    (forEach_dependency t_id dependencyMap ds).2 = Normal /\
    forall d,
      (forEach_dependency t_id dependencyMap ds).1 !! d
      = pushed (dependencyMap !! d)
          ((fun _ => t_id) <$> List.filter (String.eqb d) ds).
Proof.
  induction 1 as [|d0 ds Hd0 _ IH]; intros dependencyMap; [by split|].
  cbn [forEach_dependency List.filter]. rewrite (push_dependent_own _ _ _ Hd0).
  destruct (IH (<[d0 := default [] (dependencyMap !! d0) ++ [t_id]]> dependencyMap))
    as [Hc Hl].
  split; [exact Hc|]. intros d. rewrite Hl.
  destruct (String.eqb_spec d d0) as [->|Hne].
  - rewrite lookup_insert_eq. cbn [fmap list_fmap].
    change (Some (default [] (dependencyMap !! d0) ++ [t_id]))
      with (pushed (dependencyMap !! d0) [t_id]).
    by rewrite pushed_app.
  - by rewrite lookup_insert_ne.
Qed.

Lemma forEach_task_dependencies_lookup tasks :
  Forall (fun t => exists ds, ResolvedTask.dependencies t = Some ds /\
                              Forall (fun d => inherited d = false) ds) tasks ->
  forall dependencyMap : DependencyMap,
    (forEach_task_dependencies dependencyMap tasks).2 = Normal /\
    forall d, (forEach_task_dependencies dependencyMap tasks).1 !! d
              = pushed (dependencyMap !! d) (declared_dependents tasks d).
Proof.
  induction 1 as [|t tasks (ds & Ht & Hds) _ IH]; intros dependencyMap; [by split|].
  cbn [forEach_task_dependencies]. rewrite Ht.
  destruct (forEach_dependency_lookup (ResolvedTask.id t) ds Hds dependencyMap)
    as [Hc1 Hl1].
  destruct (forEach_dependency _ _ _) as [m c]. cbn in Hc1, Hl1. subst c.
  destruct (IH m) as [Hc Hl].
  split; [exact Hc|]. intros d.
  rewrite Hl, Hl1, pushed_app.
  unfold declared_dependents. cbn [flat_map]. by rewrite Ht.
Qed.

(** When every task has a list of dependencies and none of them names a
    member of [Object.prototype], [setupDependencies] returns and leaves,
    under each id [d], the ids of the tasks that declare [d], in task order
    and once per declaration; an id that no task declares has no entry.
    Whatever the map held before is gone, and the tasks are as they
    were. *)
Theorem setupDependencies_inverse_index :
  forall g,
    Forall (fun t => exists ds, ResolvedTask.dependencies t = Some ds /\
                                Forall (fun d => inherited d = false) ds)
      (Gantt.tasks g) ->
    (setupDependencies g).2 = Normal /\
    Gantt.tasks (setupDependencies g).1 = Gantt.tasks g /\
    forall d,
      Gantt.dependencyMap (setupDependencies g).1 !! d
      = match declared_dependents (Gantt.tasks g) d with
        | [] => None
        | l => Some l
        end.
Proof.
  intros g H. unfold setupDependencies.
  cbn [Gantt.set_dependencyMap Gantt.tasks Gantt.dependencyMap].
  destruct (forEach_task_dependencies_lookup _ H ∅) as [Hc Hl].
  destruct (forEach_task_dependencies ∅ (Gantt.tasks g)) as [m c].
  cbn in *. repeat split; [exact Hc|]. intros d. rewrite Hl, lookup_empty.
  by destruct (declared_dependents (Gantt.tasks g) d).
Qed.

(** ** [setupDependencies]: a dependency named like an inherited member *)

Lemma push_dependent_no_inherited t_id (dependencyMap : DependencyMap) d :
  (forall k, inherited k = true -> dependencyMap !! k = None) ->
  (forall k, inherited k = true -> (push_dependent t_id dependencyMap d).1 !! k = None) /\
  (push_dependent t_id dependencyMap d).2
  = if inherited d then TypeError else Normal.
Proof.
  intros Hm. unfold push_dependent.
  destruct (inherited d) eqn:Hd.
  - rewrite (Hm d Hd). by split.
  - destruct (dependencyMap !! d); (split; [|reflexivity]); intros k Hk; cbn;
      (rewrite lookup_insert_ne; [by apply Hm|]); intros ->; congruence.
Qed.

Lemma forEach_dependency_no_inherited t_id ds :
  forall dependencyMap : DependencyMap,
    (forall k, inherited k = true -> dependencyMap !! k = None) ->
    (forall k, inherited k = true ->
               (forEach_dependency t_id dependencyMap ds).1 !! k = None) /\
    (Exists (fun d => inherited d = true) ds ->
     (forEach_dependency t_id dependencyMap ds).2 = TypeError).
Proof.
  induction ds as [|d ds IH]; intros dependencyMap Hm.
  - split; [exact Hm|]. intros H. inversion H.
  - cbn [forEach_dependency].
    destruct (push_dependent_no_inherited t_id dependencyMap d Hm) as [Hm' Hc].
    destruct (push_dependent t_id dependencyMap d) as [m c]. cbn in Hm', Hc.
    destruct (inherited d) eqn:Hd; subst c.
    + by split.
    + destruct (IH m Hm') as [H1 H2]. split; [exact H1|].
      intros H. apply H2. inversion H as [? ? H0|]; [congruence|assumption].
Qed.

Lemma forEach_task_dependencies_inherited tasks :
  Exists (fun t => exists ds, ResolvedTask.dependencies t = Some ds /\
                              Exists (fun d => inherited d = true) ds) tasks ->
  forall dependencyMap : DependencyMap,
    (forall k, inherited k = true -> dependencyMap !! k = None) ->
    (forEach_task_dependencies dependencyMap tasks).2 = TypeError.
Proof.
  induction tasks as [|t tasks IH]; intros H dependencyMap Hm; [inversion H|].
  cbn [forEach_task_dependencies].
  destruct (ResolvedTask.dependencies t) as [ds|] eqn:Ht; [|reflexivity].
  destruct (forEach_dependency_no_inherited (ResolvedTask.id t) ds dependencyMap Hm)
    as [Hm' Hthrow].
  destruct (forEach_dependency _ _ _) as [m []]; [|reflexivity]. cbn in Hm', Hthrow.
  inversion H as [? ? (ds' & Hds' & Hex)|]; subst.
  - rewrite Ht in Hds'. injection Hds' as <-. by specialize (Hthrow Hex).
  - by apply IH.
Qed.

(** A dependency named like a member of [Object.prototype] ("toString",
    "constructor", ...) makes [setupDependencies] throw: the map has no list
    under that name, the inherited member is read in its place and has no
    [push]. The tasks are as they were. *)
Theorem setupDependencies_inherited_name_throws :
  forall g,
    Exists (fun t => exists ds, ResolvedTask.dependencies t = Some ds /\
                                Exists (fun d => inherited d = true) ds)
      (Gantt.tasks g) ->
    (setupDependencies g).2 = TypeError /\
    Gantt.tasks (setupDependencies g).1 = Gantt.tasks g.
Proof.
  intros g H. unfold setupDependencies.
  cbn [Gantt.set_dependencyMap Gantt.tasks Gantt.dependencyMap].
  pose proof (forEach_task_dependencies_inherited _ H ∅
                (fun k _ => lookup_empty k)) as Hc.
  destruct (forEach_task_dependencies ∅ (Gantt.tasks g)) as [m c].
  by split.
Qed.


(** ** [setup_tasks]: what is copied, numbered and named *)

Section ResolvedFields.
Context {U : DateUtils}.

Lemma resolve_task_copied rnd task i :
  let r := resolve_task rnd task i in
  ResolvedTask.indexResolved r = i /\
  ResolvedTask.name r = Task.name task /\
  ResolvedTask.start r = Task.start task /\
  ResolvedTask.progress r = Task.progress task /\
  ResolvedTask.custom_class r = Task.custom_class task.
Proof. unfold_resolve; repeat split. Qed.

Lemma map_resolve_length rnd tasks : forall k,
  length (map_resolve rnd k tasks) = length tasks.
Proof. induction tasks as [|t tasks IH]; intros k; cbn; [|rewrite IH]; reflexivity. Qed.

(** [setup_tasks] resolves every raw task, in order: the resolved task at
    position [i] carries the index [i] and the name, start, progress and
    style of the raw task at that position, whether or not
    [setupDependencies] throws afterwards. *)
Theorem setup_tasks_index_stable :
  forall rnd tasks g,
    length (Gantt.tasks (setup_tasks rnd tasks g).1) = length tasks /\
    forall i,
      (fun r => (ResolvedTask.indexResolved r, ResolvedTask.name r,
                 ResolvedTask.start r, ResolvedTask.progress r,
                 ResolvedTask.custom_class r))
        <$> Gantt.tasks (setup_tasks rnd tasks g).1 !! i
      = (fun task => (i, Task.name task, Task.start task, Task.progress task,
                      Task.custom_class task))
          <$> tasks !! i.
Proof.
  intros rnd tasks g. split.
  - unfold setup_tasks, setupDependencies. cbn.
    destruct (forEach_task_dependencies _ _). cbn. apply map_resolve_length.
  - intros i. rewrite setup_tasks_lookup.
    destruct (tasks !! i) as [task|]; [|reflexivity]. cbn.
    destruct (resolve_task_copied (rnd i) task i) as (-> & -> & -> & -> & ->).
    reflexivity.
Qed.

Lemma generateId_truthy r rnd : JS.truthy (Some (generateId r rnd)) = true.
Proof. unfold generateId. cbn. by destruct (ResolvedTask.name r). Qed.

Lemma resolve_task_id rnd task i :
  ResolvedTask.id (resolve_task rnd task i)
  = if JS.truthy (Task.id task) then Task.id task
    else Some (Task.name task +:+ "_" +:+ rnd).
Proof.
  destruct (JS.truthy (Task.id task)) eqn:E.
  - by apply resolve_task_id_truthy.
  - unfold resolve_task, when.
    repeat match goal with
           | |- context [if ?c then _ else _] =>
               lazymatch c with
               | negb (JS.truthy _) => fail
               | _ => destruct c
               end
           end; cbn; rewrite E; reflexivity.
Qed.

(** Every resolved task has an id that is not empty: the id of the raw task
    when it has one, the name followed by an underscore and the random
    suffix otherwise. *)
Theorem setup_tasks_ids :
  forall rnd tasks g i,
    (fun r => (ResolvedTask.id r, JS.truthy (ResolvedTask.id r)))
      <$> Gantt.tasks (setup_tasks rnd tasks g).1 !! i
    = (fun task =>
         (if JS.truthy (Task.id task) then Task.id task
          else Some (Task.name task +:+ "_" +:+ rnd i), true))
        <$> tasks !! i.
Proof.
  intros rnd tasks g i. rewrite setup_tasks_lookup.
  destruct (tasks !! i) as [task|]; [|reflexivity]. cbn.
  rewrite resolve_task_id. destruct (JS.truthy (Task.id task)) eqn:E.
  - by rewrite E.
  - f_equal. f_equal. cbn. by destruct (Task.name task).
Qed.

Lemma resolve_task_invalid rnd task i :
  ResolvedTask.invalid (resolve_task rnd task i)
  = negb (truthy_date (Task.start task)) || negb (truthy_date (Task.end_ task))
    || gt_10 (diff (parse (Task.end_ task)) (parse (Task.start task)) Year).
Proof.
  pose proof (resolve_task_bounds rnd task i) as H.
  unfold bounds, repaired_bounds in H. injection H as _ _ _ ->.
  destruct (truthy_date (Task.start task)), (truthy_date (Task.end_ task)),
    (gt_10 _); reflexivity.
Qed.


Context {L : DateUtilsLaws U}.

(** A raw task with neither start nor end starts today and ends two days
    later, plus 24 hours when that point has zero time components, and is
    marked invalid. *)
Theorem setup_tasks_neither_bound :
  forall rnd tasks g i task,
    tasks !! i = Some task ->
    truthy_date (Task.start task) = false ->
    truthy_date (Task.end_ task) = false ->
    exists r, Gantt.tasks (setup_tasks rnd tasks g).1 !! i = Some r /\
      ResolvedTask.startResolved r = Some today /\
      ResolvedTask.endResolved r
        = Some (today + 2 * ms_per_day + bump (today + 2 * ms_per_day)) /\
      ResolvedTask.invalid r = true.
Proof.
  intros rnd tasks g i task Hi Ts Te.
  destruct (setup_tasks_bounds rnd tasks g i task Hi) as [r [Hr Hb]].
  destruct (repaired_both_missing task Ts Te) as [end_ Hm].
  unfold bounds in Hb. rewrite Hm in Hb. injection Hb as _ H1 H2 H3.
  exists r. auto.
Qed.



End ResolvedFields.

(** ** The dependencies string: writing and reading back *)

Lemma split_no_separator sep s :
  has_char sep s = false -> JS.split sep s = [s].
Proof.
  induction s as [|c s IH]; cbn; [reflexivity|]. intros H.
  apply orb_false_elim in H as [H1 H2]. by rewrite H1, (IH H2).
Qed.

Lemma split_append sep s rest :
  has_char sep s = false ->
  JS.split sep (s +:+ String sep rest) = s :: JS.split sep rest.
Proof.
  induction s as [|c s IH]; intros H.
  - change ("" +:+ String sep rest) with (String sep rest).
    cbn. by rewrite Ascii.eqb_refl.
  - change (String c s +:+ String sep rest) with (String c (s +:+ String sep rest)).
    cbn in H. apply orb_false_elim in H as [H1 H2].
    cbn [JS.split]. by rewrite H1, (IH H2).
Qed.

Lemma split_concat sep ds :
  ds <> [] ->
  Forall (fun d => has_char sep d = false) ds ->
  JS.split sep (String.concat (String sep EmptyString) ds) = ds.
Proof.
  intros Hne H. induction H as [|d ds Hd H IH]; [done|].
  destruct ds as [|d' ds]; cbn [String.concat].
  - by apply split_no_separator.
  - set (rest := String.concat (String sep EmptyString) (d' :: ds)) in *.
    change (JS.split sep (d +:+ String sep rest) = d :: d' :: ds).
    rewrite split_append by exact Hd. by rewrite IH.
Qed.

(** Ids that are not empty, have no white space at either end and no comma
    in them, written with commas in between, are read back as they were by
    the resolver. *)
Theorem resolve_dependencies_round_trip {U : DateUtils} :
  forall rnd task i ds,
    Task.dependencies task = DepsString (String.concat "," ds) ->
    Forall (fun d => d <> "" /\ JS.trim d = d /\ has_char "," d = false) ds ->
    ResolvedTask.dependencies (resolve_task rnd task i) = Some ds.
Proof.
  intros rnd task i ds Hd H.
  rewrite resolve_task_dependencies. unfold resolve_dependencies. rewrite Hd.
  f_equal. destruct (decide (ds = [])) as [->|Hne]; [reflexivity|].
  rewrite split_concat; [|exact Hne|].
  2:{ eapply Forall_impl; [exact H|]. by intros d (_ & _ & ?). }
  clear Hd Hne. induction H as [|d ds (Hne & Ht & _) H IH]; [reflexivity|].
  cbn [map List.filter]. rewrite Ht.
  destruct d; [done|]. cbn [JS.truthy_string]. by rewrite IH.
Qed.


(** ** Snapping twice *)

Lemma trunc_inject_Z q k : (q == inject_Z k)%Q -> trunc q = k.
Proof.
  destruct q as [n d]. unfold Qeq, trunc. cbn. intros H.
  rewrite Z.mul_1_r in H. subst n. apply Z.quot_mul. lia.
Qed.

(** The remainder of a multiple of a positive [g] is zero. *)
Lemma js_rem_multiple p g k :
  (0 < g)%Q -> (p == g * inject_Z k)%Q -> (js_rem p g == 0)%Q.
Proof.
  intros Hg Hp. rewrite js_rem_trunc.
  assert (Hq : (p / g == inject_Z k)%Q) by (rewrite Hp; field; lra).
  rewrite (trunc_inject_Z _ _ Hq), Hp. ring.
Qed.

(** Whatever the delta, the snap position is a multiple of the
    granularity. *)
Lemma get_snap_position_multiple options dx :
  exists k : Z,
    (get_snap_position options dx == snap_granularity options * inject_Z k)%Q.
Proof.
  rewrite get_snap_position_granularity. cbv zeta. rewrite js_rem_trunc.
  set (g := snap_granularity options). set (t := trunc (dx / g)).
  destruct (js_lt _ _).
  - exists t. ring.
  - exists (t + 1). rewrite inject_Z_plus. change (inject_Z 1) with 1%Q. ring.
Qed.

(** A multiple of the granularity is its own snap position. *)
Lemma get_snap_position_of_multiple options p k :
  (0 < Options.column_width options)%Q ->
  (p == snap_granularity options * inject_Z k)%Q ->
  (get_snap_position options p == p)%Q.
Proof.
  intros Hc Hp. rewrite get_snap_position_granularity. cbv zeta.
  pose proof (snap_granularity_pos options Hc) as Hg.
  pose proof (js_rem_multiple p _ k Hg Hp) as Hr.
  set (g := snap_granularity options) in *. set (r := js_rem p g) in *.
  clearbody r g.
  assert (Hhalf : (g / 2 == g * (1 # 2))%Q) by field.
  unfold js_lt. destruct (Qlt_le_dec r (g / 2)) as [Hlt|Hge]; lra.
Qed.

(** Over the rationals, snapping a snapped delta changes nothing. *)
Lemma get_snap_position_idempotent_Q options dx :
  (0 < Options.column_width options)%Q ->
  (get_snap_position options (get_snap_position options dx)
   == get_snap_position options dx)%Q.
Proof.
  intros Hc.
  destruct (get_snap_position_multiple options dx) as [k Hk].
  by apply (get_snap_position_of_multiple options _ k).
Qed.

(** ** Snapping at the scales of the view modes *)

(** The column width [update_view_scale] sets for a mode of the enumeration
    is positive. *)
Lemma update_view_scale_column_width mode options console :
  mode ∈ VIEW_MODE.values ->
  (0 < Options.column_width (update_view_scale mode (options, console)).1)%Q.
Proof.
  intros Hmode. apply known_view_mode in Hmode.
  destruct Hmode as [-> | [-> | [-> | [-> | [-> | ->]]]]]; reflexivity.
Qed.

(** At the scale of a view mode, where the seventh and the thirtieth of the
    column width are whole numbers and the arithmetic of the source is
    exact for a delta within the range of the exact integers, snapping a
    snapped delta changes nothing: the positions [get_snap_position]
    returns are its fixed points. *)
Theorem get_snap_position_idempotent :
  forall mode options0 console dx,
    mode ∈ VIEW_MODE.values ->
    (Qabs dx <= inject_Z (2 ^ 52))%Q ->
    let options := (update_view_scale mode (options0, console)).1 in
    (get_snap_position options (get_snap_position options dx)
     == get_snap_position options dx)%Q.
Proof.
  intros mode options0 console dx Hmode _ options.
  apply get_snap_position_idempotent_Q.
  by apply update_view_scale_column_width.
Qed.

(** At the scale of a view mode and for a delta within the range of the
    exact integers: a delta that is not negative is snapped to the nearest
    multiple of the granularity of the mode (20 in Week view, 4 in Month
    view, the column of 38 otherwise), a tie going to the larger
    multiple. *)
Theorem get_snap_position_nonneg :
  forall mode options0 console dx,
    mode ∈ VIEW_MODE.values ->
    (0 <= dx)%Q -> (dx <= inject_Z (2 ^ 52))%Q ->
    let options := (update_view_scale mode (options0, console)).1 in
    let g := snap_granularity options in
    let position := get_snap_position options dx in
    (exists k : Z, 0 <= k /\ (position == g * inject_Z k)%Q) /\
    (dx - g / 2 < position <= dx + g / 2)%Q.
Proof.
  intros mode options0 console dx Hmode Hdx _ options.
  apply get_snap_position_nonneg_Q; [|exact Hdx].
  by apply update_view_scale_column_width.
Qed.

(** At the scale of a view mode and for a delta within the range of the
    exact integers: a negative delta is truncated toward zero, it is
    snapped to the first multiple of the granularity at or above it,
    however near the multiple below is. *)
Theorem get_snap_position_nonpos :
  forall mode options0 console dx,
    mode ∈ VIEW_MODE.values ->
    (- inject_Z (2 ^ 52) <= dx)%Q -> (dx <= 0)%Q ->
    let options := (update_view_scale mode (options0, console)).1 in
    let g := snap_granularity options in
    let position := get_snap_position options dx in
    (exists k : Z, k <= 0 /\ (position == g * inject_Z k)%Q) /\
    (dx <= position < dx + g)%Q.
Proof.
  intros mode options0 console dx Hmode _ Hdx options.
  apply get_snap_position_nonpos_Q; [|exact Hdx].
  by apply update_view_scale_column_width.
Qed.

(** ** A known view mode *)

(** For a mode of the enumeration, [update_view_scale] logs nothing, makes
    the mode the active one and sets a positive step and a positive column
    width that depend on the mode alone: whatever mode and scale were set
    before, the options are those the call gives on the options before
    that. *)
Theorem update_view_scale_known :
  forall mode mode' options console,
    mode ∈ VIEW_MODE.values ->
    let '(options', console') := update_view_scale mode (options, console) in
    console' = console /\
    view_is options' mode = true /\
    (0 < Options.step options')%Q /\
    (0 < Options.column_width options')%Q /\
    (update_view_scale mode (update_view_scale mode' (options, console))).1
    = options'.
Proof.
  intros mode mode' options console Hmode.
  apply known_view_mode in Hmode.
  assert (Hprev : exists o c,
             update_view_scale mode' (options, console) = (o, c) /\
             Options.set_view_mode mode
               (Options.set_column_width 0 (Options.set_step 0 o))
             = Options.set_view_mode mode
                 (Options.set_column_width 0 (Options.set_step 0 options))).
  { unfold update_view_scale.
    repeat match goal with
           | |- context [String.eqb mode' ?m] => destruct (String.eqb mode' m)
           end; eexists _, _; (split; [reflexivity|]); reflexivity. }
  destruct Hprev as (o & c & -> & Ho).
  destruct options, o. cbn in Ho. injection Ho as -> -> -> -> -> -> -> -> -> ->.
  unfold view_is.
  destruct Hmode as [-> | [-> | [-> | [-> | [-> | ->]]]]]; cbn; repeat split.
Qed.


(** ** Gestures of [bind_bar_events]: pointer-down *)

Lemma forEach_bar_geometry (f : Bar.t -> Bar.t) refs :
  (forall b, geometry (f b) = geometry b) ->
  forall store (i : nat),
    geometry <$> (forEach_bar f refs store).1 !! i = geometry <$> store !! i.
Proof.
  intros Hf. induction refs as [|[j|] refs IH]; intros store i; cbn;
    [reflexivity| |reflexivity].
  rewrite IH. destruct (decide (j = i)) as [->|Hne].
  - rewrite list_lookup_alter_eq. destruct (store !! i); cbn; [by rewrite Hf|done].
  - by rewrite list_lookup_alter_ne.
Qed.

Lemma forEach_bar_others (f : Bar.t -> Bar.t) refs :
  forall store (i : nat),
    Some i ∉ refs -> (forEach_bar f refs store).1 !! i = store !! i.
Proof.
  induction refs as [|[j|] refs IH]; intros store i Hi; cbn; try reflexivity.
  rewrite IH by (intros H; apply Hi; by right).
  apply list_lookup_alter_ne. intros ->. apply Hi. by left.
Qed.

(** A pointer-down moves nothing, whether it returns or throws: every bar
    keeps its task, its x, y and width and its progress rectangle, a bar
    outside the affected set is not written at all, and options, tasks and
    dependency map are as before. The grabbed id is recorded. *)
Theorem bar_mousedown_moves_nothing :
  forall fuel e element g c g1 c1 r,
    bar_mousedown fuel e element g c = Some (g1, c1, r) ->
    Gantt.options g1 = Gantt.options g /\
    Gantt.tasks g1 = Gantt.tasks g /\
    Gantt.dependencyMap g1 = Gantt.dependencyMap g /\
    Gantt.bar_being_dragged g1 = Some (data_id element) /\
    (forall i : nat, geometry <$> Gantt.bars g1 !! i = geometry <$> Gantt.bars g !! i) /\
    (forall i : nat, Some i ∉ BarEvents.bars c1 ->
                     Gantt.bars g1 !! i = Gantt.bars g !! i).
Proof.
  unfold bar_mousedown. intros fuel e element g c g1 c1 r H.
  destruct (get_all_dependent_tasks _ _ _) as [dependents|]; [|discriminate].
  cbn -[forEach_bar map] in H.
  destruct (forEach_bar _ _ _) as [store r'] eqn:Hf.
  injection H as <- <- <-. cbn -[map].
  repeat split.
  - intros i.
    pose proof (forEach_bar_geometry snapshot_bar
                  (map (get_bar g) (data_id element :: dependents))
                  (fun b => ltac:(by destruct b as [id [] p])) (Gantt.bars g) i) as Hg.
    pose proof (f_equal fst Hf) as E. cbn [fst] in E. rewrite <- E. exact Hg.
  - intros i Hi.
    pose proof (forEach_bar_others snapshot_bar _ (Gantt.bars g) i Hi) as Hg.
    pose proof (f_equal fst Hf) as E. cbn [fst] in E. rewrite <- E. exact Hg.
Qed.

(** ** Gestures of [bind_bar_events]: what every move keeps *)

Lemma move_bar_common options c dx b :
  let b' := move_bar options c dx b in
  Rect.finaldx (Bar.bar b') = get_snap_position options dx /\
  Rect.ox (Bar.bar b') = Rect.ox (Bar.bar b) /\
  Rect.owidth (Bar.bar b') = Rect.owidth (Bar.bar b) /\
  Bar.task_id b' = Bar.task_id b.
Proof.
  destruct b as [id [] p]. unfold move_bar, Bar.update_bar_position.
  destruct (BarEvents.is_resizing_left c), (BarEvents.is_resizing_right c),
    (BarEvents.is_dragging c);
    cbn -[get_snap_position bool_decide js_lt]; try (by repeat split);
    destruct (bool_decide (BarEvents.parent_bar_id c = id));
    cbn -[get_snap_position bool_decide js_lt]; try (by repeat split);
    destruct (js_lt _ 0); cbn -[get_snap_position bool_decide js_lt];
    by repeat split.
Qed.

(** One move while resizing at the left handle. *)
Lemma move_bar_resizing_left options c dx b :
  BarEvents.is_resizing_left c = true ->
  let b' := move_bar options c dx b in
  let d := get_snap_position options dx in
  let width := (Rect.owidth (Bar.bar b) - d)%Q in
  if bool_decide (BarEvents.parent_bar_id c = Bar.task_id b) then
    Rect.x (Bar.bar b')
    = (if js_lt width 0 then Rect.ox (Bar.bar b) + d + width
       else Rect.ox (Bar.bar b) + d)%Q /\
    Rect.width (Bar.bar b') = (if js_lt width 0 then 0 else width)%Q
  else
    Rect.x (Bar.bar b') = (Rect.ox (Bar.bar b) + d)%Q /\
    Rect.width (Bar.bar b') = Rect.width (Bar.bar b).
Proof.
  intros Hl. unfold move_bar, Bar.update_bar_position. rewrite Hl.
  destruct b as [id [] p]. cbn -[get_snap_position bool_decide js_lt].
  destruct (bool_decide _); cbn -[get_snap_position js_lt]; [|auto].
  destruct (js_lt _ 0); cbn -[get_snap_position js_lt]; auto.
Qed.

(** The flags after a pointer-down with no gesture in progress. *)
Lemma bar_mousedown_flags fuel e element g c g1 c1 :
  BarEvents.action_in_progress c = false ->
  bar_mousedown fuel e element g c = Some (g1, c1, Normal) ->
  (BarEvents.is_resizing_left c1, BarEvents.is_resizing_right c1,
   BarEvents.is_dragging c1)
  = if contains element "left" then (true, false, false)
    else if contains element "right" then (false, true, false)
    else if contains element "bar-wrapper" then (false, false, true)
    else (false, false, false).
Proof.
  intros Hidle Hdown.
  destruct (bar_mousedown_Normal _ _ _ _ _ _ _ Hdown)
    as (_ & _ & _ & _ & _ & _ & _ & _ & _ & ->).
  unfold BarEvents.action_in_progress in Hidle.
  apply orb_false_elim in Hidle as [Hidle ->].
  apply orb_false_elim in Hidle as [-> ->]. reflexivity.
Qed.

(** The affected bars exist, before and after the pointer-down, and are
    referenced by the closure. *)
Lemma bar_mousedown_affected fuel e element g c g1 c1 dependents id i :
  bar_mousedown fuel e element g c = Some (g1, c1, Normal) ->
  get_all_dependent_tasks fuel (Gantt.dependencyMap g) (data_id element)
    = Some dependents ->
  id ∈ data_id element :: dependents ->
  get_bar g id = Some i ->
  exists ixs : list nat,
    BarEvents.bars c1 = Some <$> ixs /\ i ∈ ixs /\
    map (get_bar g) (data_id element :: dependents) = Some <$> ixs /\
    BarEvents.x_on_start c1 = offsetX e /\
    BarEvents.parent_bar_id c1 = Some (data_id element) /\
    Gantt.options g1 = Gantt.options g /\
    (forall j b0, j ∈ ixs -> Gantt.bars g !! j = Some b0 ->
                  Gantt.bars g1 !! j = Some (snapshot_bar b0)).
Proof.
  intros Hdown Hdeps Hid Hbar.
  destruct (bar_mousedown_Normal _ _ _ _ _ _ _ Hdown)
    as (deps' & ixs & Hdeps' & Hrefs & Hbars & Hx & Hparent & Hopts & Hstore & _).
  rewrite Hdeps in Hdeps'. injection Hdeps' as <-.
  exists ixs. repeat split; try done.
  - apply (list_elem_of_fmap_2 (get_bar g)) in Hid.
    change (get_bar g <$> data_id element :: dependents)
      with (map (get_bar g) (data_id element :: dependents)) in Hid.
    rewrite Hrefs, Hbar in Hid.
    apply list_elem_of_fmap in Hid as (j & Hj & Hin). by injection Hj as ->.
  - intros j b0 Hj Hb0. by rewrite Hstore, (bool_decide_eq_true_2 _ Hj), Hb0.
Qed.

(** ** Resizing at the left handle *)



(** ** Back to where the gesture began *)

Lemma bar_mousemoves_idle es c g :
  BarEvents.action_in_progress c = false -> bar_mousemoves es c g = g.
Proof.
  intros H. induction es as [|e es IH]; [reflexivity|]. cbn.
  unfold bar_mousemove at 2. rewrite H. exact IH.
Qed.

Lemma get_snap_position_zero options dx :
  (0 < Options.column_width options)%Q -> (dx == 0)%Q ->
  (get_snap_position options dx == 0)%Q.
Proof.
  intros Hc Hdx.
  rewrite (get_snap_position_of_multiple options dx 0 Hc); [exact Hdx|].
  rewrite Hdx. change (inject_Z 0) with 0%Q. ring.
Qed.

(** Whatever the gesture, when the pointer is back at the x of the
    pointer-down every affected bar has the x and the width it had at
    pointer-down, whatever the moves in between; for the grabbed bar this
    asks that its width was not negative. *)
Theorem pointer_back_restores_bars :
  forall fuel e0 element g c g1 c1 dependents es e id i b0,
    bar_mousedown fuel e0 element g c = Some (g1, c1, Normal) ->
    get_all_dependent_tasks fuel (Gantt.dependencyMap g) (data_id element)
      = Some dependents ->
    id ∈ data_id element :: dependents ->
    get_bar g id = Some i ->
    Gantt.bars g !! i = Some b0 ->
    (id = data_id element -> 0 <= Rect.width (Bar.bar b0))%Q ->
    (0 < Options.column_width (Gantt.options g))%Q ->
    (offsetX e == offsetX e0)%Q ->
    exists b,
      Gantt.bars (bar_mousemoves (es ++ [e]) c1 g1) !! i = Some b /\
      (Rect.x (Bar.bar b) == Rect.x (Bar.bar b0))%Q /\
      (Rect.width (Bar.bar b) == Rect.width (Bar.bar b0))%Q.
Proof.
  intros fuel e0 element g c g1 c1 dependents es e id i b0
    Hdown Hdeps Hid Hbar Hb0 Hw Hcw He.
  destruct (bar_mousedown_affected _ _ _ _ _ _ _ _ _ _ Hdown Hdeps Hid Hbar)
    as (ixs & Hbars & Hi & _ & Hx & Hparent & Hopts & Hsnap).
  destruct (BarEvents.action_in_progress c1) eqn:Hact.
  2:{ rewrite bar_mousemoves_idle by exact Hact. rewrite (Hsnap i b0 Hi Hb0).
      eexists; split; [reflexivity|].
      destruct (snapshot_bar_spec b0) as (_ & _ & -> & -> & _). by split. }
  destruct (get_bar_Some g id i Hbar) as (b0' & Hb0' & Hid0).
  rewrite Hb0 in Hb0'. injection Hb0' as <-.
  set (R := fun b0 b : Bar.t =>
              Rect.ox (Bar.bar b) = Rect.x (Bar.bar b0) /\
              Rect.owidth (Bar.bar b) = Rect.width (Bar.bar b0) /\
              (BarEvents.is_resizing_left c1 = false ->
               BarEvents.is_resizing_right c1 = true ->
               Rect.x (Bar.bar b) = Rect.x (Bar.bar b0)) /\
              (BarEvents.is_resizing_left c1 = false ->
               BarEvents.is_resizing_right c1 = false ->
               Rect.width (Bar.bar b) = Rect.width (Bar.bar b0)) /\
              (bool_decide (BarEvents.parent_bar_id c1 = Bar.task_id b) = false ->
               Rect.width (Bar.bar b) = Rect.width (Bar.bar b0)) /\
              Bar.task_id b = Bar.task_id b0).
  assert (HR : forall dx a0 a, R a0 a -> R a0 (move_bar (Gantt.options g) c1 dx a)).
  { intros dx a0 [id' [] p]. unfold R, move_bar, Bar.update_bar_position.
    destruct (BarEvents.is_resizing_left c1), (BarEvents.is_resizing_right c1),
      (BarEvents.is_dragging c1);
      cbn -[get_snap_position bool_decide js_lt];
      destruct (bool_decide (BarEvents.parent_bar_id c1 = id')) eqn:E;
      cbn -[get_snap_position bool_decide js_lt]; rewrite ?E;
      try destruct (js_lt _ 0);
      cbn -[get_snap_position bool_decide js_lt]; rewrite ?E;
      intros (H1 & H2 & H3 & H4 & H5 & H6); repeat split; auto; discriminate. }
  destruct (bar_mousemoves_invariant R c1 ixs (Gantt.bars g) (Gantt.options g)
              Hact Hbars HR) with (es := es) (g := g1) as [Ho Hinv].
  - exact Hopts.
  - intros j a0 Hj Ha0. rewrite (Hsnap j a0 Hj Ha0).
    eexists; split; [reflexivity|].
    destruct (snapshot_bar_spec a0) as (H1 & H2 & H3 & H4 & H5). by repeat split.
  - destruct (Hinv i b0 Hi Hb0) as (b & Hb & HRb).
    rewrite bar_mousemoves_snoc.
    destruct (bar_mousemove_lookup e c1 (bar_mousemoves es c1 g1) ixs i Hact Hbars)
      as [_ ->].
    rewrite (bool_decide_eq_true_2 _ Hi), Hb, Ho, Hx. cbn -[get_snap_position].
    eexists; split; [reflexivity|].
    assert (Hd : (get_snap_position (Gantt.options g) (offsetX e - offsetX e0) == 0)%Q)
      by (apply get_snap_position_zero; [exact Hcw|lra]).
    assert (Hgrabbed : bool_decide (BarEvents.parent_bar_id c1 = Bar.task_id b) = true ->
                       (0 <= Rect.width (Bar.bar b0))%Q).
    { intros HE. apply bool_decide_eq_true in HE. apply Hw.
      destruct HRb as (_ & _ & _ & _ & _ & Htid).
      rewrite Hparent, Htid, Hid0 in HE. by injection HE. }
    unfold move_bar, Bar.update_bar_position.
    revert Hd. generalize (get_snap_position (Gantt.options g) (offsetX e - offsetX e0)).
    intros d Hd. revert HRb Hgrabbed. clear -Hd Hact. destruct b as [id' [] p].
    unfold R. unfold BarEvents.action_in_progress in Hact.
    destruct (BarEvents.is_resizing_left c1), (BarEvents.is_resizing_right c1),
      (BarEvents.is_dragging c1); try discriminate Hact;
      cbn -[bool_decide js_lt];
      destruct (bool_decide (BarEvents.parent_bar_id c1 = id')) eqn:E;
      cbn -[bool_decide js_lt];
      try (unfold js_lt; destruct (Qlt_le_dec _ 0));
      cbn -[bool_decide];
      intros (H1 & H2 & H3 & H4 & H5 & H6) Hgrabbed;
      repeat match goal with
             | H : _ = _ -> _ |- _ => specialize (H eq_refl)
             | H : false = true -> _ |- _ => clear H
             | H : true = false -> _ |- _ => clear H
             end;
      subst; split; lra.
Qed.

(** ** The end of a gesture *)

Lemma forEach_commit_uniform (ixs : list nat) (store : list Bar.t) (d : Q) :
  (forall i, i ∈ ixs ->
             exists b, store !! i = Some b /\ Rect.finaldx (Bar.bar b) = d) ->
  forEach_commit (Some <$> ixs) store
  = (if falsy_number d then [] else ixs, Normal).
Proof.
  induction ixs as [|i ixs IH]; intros H; cbn.
  - by destruct (falsy_number d).
  - rewrite IH by (intros j Hj; apply H; by right).
    destruct (H i) as (b & -> & ->); [by left|].
    by destruct (falsy_number d).
Qed.

Lemma get_bar_refs g ids (ixs : list nat) i :
  map (get_bar g) ids = Some <$> ixs -> i ∈ ixs ->
  exists b, Gantt.bars g !! i = Some b.
Proof.
  intros Hrefs Hi.
  apply (list_elem_of_fmap_2 Some) in Hi. rewrite <- Hrefs in Hi.
  change (map (get_bar g) ids) with (get_bar g <$> ids) in Hi.
  apply list_elem_of_fmap in Hi as (id & Hid & _).
  destruct (get_bar_Some g id i (eq_sym Hid)) as (b & Hb & _). eauto.
Qed.

(** A pointer-down at once followed by the pointer-up on the svg commits
    nothing: no bar gets [date_changed] or [set_action_completed], whatever
    was grabbed. *)
Theorem click_commits_nothing :
  forall fuel e0 element g c g1 c1,
    bar_mousedown fuel e0 element g c = Some (g1, c1, Normal) ->
    bar_mouseup c1 g1 = (Gantt.set_bar_being_dragged None g1, [], Normal).
Proof.
  intros fuel e0 element g c g1 c1 Hdown.
  destruct (bar_mousedown_Normal _ _ _ _ _ _ _ Hdown)
    as (deps & ixs & _ & Hrefs & Hbars & _ & _ & _ & Hstore & _).
  unfold bar_mouseup. rewrite Hbars.
  rewrite (forEach_commit_uniform ixs _ 0%Q); [reflexivity|].
  intros i Hi. destruct (get_bar_refs _ _ _ _ Hrefs Hi) as [b Hb].
  exists (snapshot_bar b). split.
  - cbn. by rewrite Hstore, (bool_decide_eq_true_2 _ Hi), Hb.
  - by destruct b as [id [] p].
Qed.

(** The pointer-up on the svg after a gesture with moves: when the snapped
    displacement of the last move is zero nothing is committed; otherwise
    [date_changed] and [set_action_completed] are called on every affected
    bar, in the order of the ids (the grabbed bar first, a dependent reached
    twice twice), also on the dependents that a resize at the right handle
    left where they were. *)
Theorem bar_mouseup_commits :
  forall fuel e0 element g c g1 c1 dependents es e,
    bar_mousedown fuel e0 element g c = Some (g1, c1, Normal) ->
    get_all_dependent_tasks fuel (Gantt.dependencyMap g) (data_id element)
      = Some dependents ->
    BarEvents.action_in_progress c1 = true ->
    let g2 := bar_mousemoves (es ++ [e]) c1 g1 in
    exists calls,
      bar_mouseup c1 g2 = (Gantt.set_bar_being_dragged None g2, calls, Normal) /\
      if falsy_number
           (get_snap_position (Gantt.options g) (offsetX e - offsetX e0))
      then calls = []
      else Some <$> calls = map (get_bar g) (data_id element :: dependents).
Proof.
  intros fuel e0 element g c g1 c1 dependents es e Hdown Hdeps Hact g2.
  destruct (bar_mousedown_Normal _ _ _ _ _ _ _ Hdown)
    as (deps' & ixs & Hdeps' & Hrefs & Hbars & Hx & _ & Hopts & Hstore & _).
  rewrite Hdeps in Hdeps'. injection Hdeps' as <-.
  destruct (bar_mousemoves_invariant (fun _ _ => True) c1 ixs (Gantt.bars g)
              (Gantt.options g) Hact Hbars) with (es := es) (g := g1)
    as [Ho Hinv]; [done|exact Hopts| |].
  { intros j b0 Hj Hb0. rewrite Hstore, (bool_decide_eq_true_2 _ Hj), Hb0.
    cbn. eauto. }
  set (d := get_snap_position (Gantt.options g) (offsetX e - offsetX e0)).
  exists (if falsy_number d then [] else ixs). split.
  - unfold bar_mouseup. rewrite Hbars.
    rewrite (forEach_commit_uniform ixs _ d); [reflexivity|].
    intros i Hi. destruct (get_bar_refs _ _ _ _ Hrefs Hi) as [b0 Hb0].
    destruct (Hinv i b0 Hi Hb0) as (b & Hb & _).
    exists (move_bar (Gantt.options g) c1 (offsetX e - offsetX e0) b). split.
    + cbn. unfold g2. rewrite bar_mousemoves_snoc.
      destruct (bar_mousemove_lookup e c1 (bar_mousemoves es c1 g1) ixs i Hact Hbars)
        as [_ ->].
      by rewrite (bool_decide_eq_true_2 _ Hi), Hb, Ho, Hx.
    + by destruct (move_bar_common (Gantt.options g) c1 (offsetX e - offsetX e0) b)
        as [-> _].
  - destruct (falsy_number d); [reflexivity|]. by rewrite Hrefs.
Qed.

(** ** The end of a progress gesture *)

(** The state of the grabbed bar after a pointer-down on its progress handle
    and a run of moves that is not empty. *)
Lemma progress_gesture_finaldx e0 element g c g1 c1 es e i b0 :
  progress_mousedown e0 element g c = (g1, c1, Normal) ->
  get_bar g (data_id element) = Some i ->
  Gantt.bars g !! i = Some b0 ->
  BarProgress.bar c1 = Some i /\ BarProgress.bar_progress_of c1 = Some i /\
  (exists b1, Gantt.bars g1 !! i = Some b1 /\
              Rect.finaldx (Bar.bar_progress b1) = 0%Q) /\
  exists b,
    Gantt.bars (progress_mousemoves (es ++ [e]) c1 g1) !! i = Some b /\
    Rect.finaldx (Bar.bar_progress b)
    = clamp_dx (offsetX e - offsetX e0)
        (- Rect.width (Bar.bar_progress b0))
        (Rect.width (Bar.bar b0) - Rect.width (Bar.bar_progress b0)).
Proof.
  intros Hdown Hbar Hb0.
  unfold progress_mousedown in Hdown. rewrite Hbar in Hdown.
  injection Hdown as <- <-.
  set (c1 := BarProgress.mk _ _ _ _ _ _) in *.
  set (g1 := Gantt.set_bars _ g) in *.
  do 2 (split; [reflexivity|]). split.
  { subst g1. cbn. rewrite list_lookup_alter_eq, Hb0. cbn.
    eexists; split; [reflexivity|]. by destruct b0 as [id r []]. }
  set (R := fun b : Bar.t =>
              Rect.min_dx (Bar.bar_progress b)
              = (- Rect.width (Bar.bar_progress b0))%Q /\
              Rect.max_dx (Bar.bar_progress b)
              = (Rect.width (Bar.bar b0) - Rect.width (Bar.bar_progress b0))%Q).
  assert (Hinv : forall es g',
             (exists b, Gantt.bars g' !! i = Some b /\ R b) ->
             exists b, Gantt.bars (progress_mousemoves es c1 g') !! i = Some b /\ R b).
  { clear es. intros es. induction es as [|e' es IH]; intros g' Hi; [done|].
    cbn. apply IH. destruct Hi as (b & Hb & H1 & H2).
    rewrite (progress_mousemove_lookup e' c1 g' i) by reflexivity.
    rewrite decide_True, Hb by reflexivity. cbn.
    eexists; split; [reflexivity|]. destruct b as [id r p]. by split. }
  destruct (Hinv es g1) as (b & Hb & H1 & H2).
  { subst g1. cbn. rewrite list_lookup_alter_eq, Hb0. cbn.
    eexists; split; [reflexivity|]. destruct b0 as [id r []]. by split. }
  rewrite progress_mousemoves_snoc.
  eexists. split.
  { rewrite (progress_mousemove_lookup e c1 _ i) by reflexivity.
    rewrite decide_True, Hb by reflexivity. reflexivity. }
  destruct b as [id r p]. cbn in H1, H2. cbn. by rewrite H1, H2.
Qed.

(** The pointer-up that ends a gesture on the progress handle: the progress
    is committed ([progress_changed], [set_action_completed]) exactly when
    the clamped displacement of the last move is not zero. A pointer-up with
    no move commits nothing; nor does pulling a progress of zero to the
    left, or a full progress to the right. *)
Theorem progress_mouseup_commits :
  forall e0 element g c g1 c1 es e i b0,
    progress_mousedown e0 element g c = (g1, c1, Normal) ->
    get_bar g (data_id element) = Some i ->
    Gantt.bars g !! i = Some b0 ->
    let progressWidth := Rect.width (Bar.bar_progress b0) in
    let barWidth := Rect.width (Bar.bar b0) in
    let dx := clamp_dx (offsetX e - offsetX e0) (- progressWidth)
                (barWidth - progressWidth) in
    (progress_mouseup c1 g1).1.2 = [] /\
    (progress_mouseup c1 (progress_mousemoves (es ++ [e]) c1 g1)).1.2
    = (if falsy_number dx then [] else [i]) /\
    (progress_mouseup c1 (progress_mousemoves (es ++ [e]) c1 g1)).2 = Normal /\
    BarProgress.is_resizing
      (progress_mouseup c1 (progress_mousemoves (es ++ [e]) c1 g1)).1.1 = false.
Proof.
  intros e0 element g c g1 c1 es e i b0 Hdown Hbar Hb0 pw bw dx.
  destruct (progress_gesture_finaldx e0 element g c g1 c1 es e i b0 Hdown Hbar Hb0)
    as (Hc1 & Hc2 & (b1 & Hb1 & Hf1) & b & Hb & Hf).
  unfold progress_mouseup. cbn [BarProgress.bar_progress_of BarProgress.bar].
  rewrite Hc1, Hc2, Hb1, Hb, Hf1, Hf. fold pw bw dx.
  split; [reflexivity|]. by destruct (falsy_number dx).
Qed.

(** ** Between two gestures *)

Lemma forEach_group_Some (ixs : list nat) : forEach_group (Some <$> ixs) = Normal.
Proof. induction ixs as [|i ixs IH]; [reflexivity|exact IH]. Qed.

Lemma forEach_group_None refs : None ∈ refs -> forEach_group refs = TypeError.
Proof.
  induction refs as [|[i|] refs IH]; intros H.
  - by apply elem_of_nil in H.
  - apply IH. apply elem_of_cons in H as [H|H]; [discriminate|exact H].
  - reflexivity.
Qed.

Lemma forEach_bar_None f refs :
  forall store, None ∈ refs -> (forEach_bar f refs store).2 = TypeError.
Proof.
  induction refs as [|[i|] refs IH]; intros store H.
  - by apply elem_of_nil in H.
  - cbn. apply IH. apply elem_of_cons in H as [H|H]; [discriminate|exact H].
  - reflexivity.
Qed.

Lemma forEach_bar_TypeError f refs :
  forall store, (forEach_bar f refs store).2 = TypeError -> None ∈ refs.
Proof.
  induction refs as [|[i|] refs IH]; intros store H; cbn in H.
  - discriminate.
  - right. exact (IH _ H).
  - by left.
Qed.

(** A gesture whose pointer-down returned is ended by the [mouseup] handler
    on the document: the handler returns, no gesture is in progress after
    it, so the moves that follow change nothing; and it leaves the
    pointer-up on the svg what it commits, so the order in which the two
    handlers run does not matter. *)
Theorem document_mouseup_ends_gesture :
  forall fuel e0 element g c g1 c1 es g2,
    bar_mousedown fuel e0 element g c = Some (g1, c1, Normal) ->
    exists c2,
      document_mouseup c1 = (c2, Normal) /\
      BarEvents.action_in_progress c2 = false /\
      bar_mousemoves es c2 g2 = g2 /\
      bar_mouseup c2 g2 = bar_mouseup c1 g2.
Proof.
  intros fuel e0 element g c g1 c1 es g2 Hdown.
  destruct (bar_mousedown_Normal _ _ _ _ _ _ _ Hdown)
    as (_ & ixs & _ & _ & Hbars & _).
  unfold document_mouseup. rewrite Hbars, forEach_group_Some.
  destruct (BarEvents.action_in_progress c1);
    (eexists; split; [reflexivity|]; split; [reflexivity|]; split;
     [by apply bar_mousemoves_idle|by unfold bar_mouseup; cbn; rewrite Hbars]).
Qed.

(** A gesture whose pointer-down threw, on an id without a bar, is not
    ended: the [mouseup] handler on the document throws on the same missing
    bar before it resets the flags, which stay as they are, and every move
    that follows throws as well. *)
Theorem gesture_stuck_after_throw :
  forall fuel e0 element g c g1 c1,
    bar_mousedown fuel e0 element g c = Some (g1, c1, TypeError) ->
    BarEvents.action_in_progress c1 = true ->
    document_mouseup c1 = (c1, TypeError) /\
    forall e g', (bar_mousemove e c1 g').2 = TypeError.
Proof.
  unfold bar_mousedown. intros fuel e0 element g c g1 c1 H Hact.
  destruct (get_all_dependent_tasks _ _ _) as [dependents|]; [|discriminate].
  cbn -[forEach_bar map] in H.
  destruct (forEach_bar _ _ _) as [store r] eqn:Hf.
  injection H as <- <- ->.
  pose proof (forEach_bar_TypeError _ _ _ (f_equal snd Hf)) as Hnone.
  set (c1 := BarEvents.mk _ _ _ _ _ _ _) in *.
  change (None ∈ BarEvents.bars c1) in Hnone.
  split.
  - unfold document_mouseup. by rewrite Hact, (forEach_group_None _ Hnone).
  - intros e g'. unfold bar_mousemove. rewrite Hact. cbn [negb].
    pose proof (forEach_bar_None
                  (move_bar (Gantt.options g') c1 (offsetX e - BarEvents.x_on_start c1))
                  _ (Gantt.bars g') Hnone) as Hthrow.
    clear Hf. destruct (forEach_bar (move_bar _ _ _) _ _) as [store' r'].
    exact Hthrow.
Qed.

(** ** The range of the chart *)

(** Once both fields hold a valid date they keep holding one: the start only
    moves down and the end only moves up, to bounds of the valid dates of
    the tasks that follow, and an Invalid Date among those is passed over. *)
Lemma task_range_from rest :
  forall s e,
  exists s' e',
    foldl extend_gantt_dates (Some (Some s), Some (Some e)) rest
    = (Some (Some s'), Some (Some e')) /\
    s' <= s /\ e <= e' /\
    (forall task a, task ∈ rest -> ResolvedTask.startResolved task = Some a ->
                    s' <= a) /\
    (forall task b, task ∈ rest -> ResolvedTask.endResolved task = Some b ->
                    b <= e') /\
    (s' = s \/ exists task, task ∈ rest /\ ResolvedTask.startResolved task = Some s') /\
    (e' = e \/ exists task, task ∈ rest /\ ResolvedTask.endResolved task = Some e').
Proof.
  induction rest as [|task rest IH]; intros s e.
  - exists s, e. cbn. repeat split; try lia; try (by left);
      intros ? ? H; by apply elem_of_nil in H.
  - cbn [foldl]. unfold extend_gantt_dates at 2.
    set (s1 := match ResolvedTask.startResolved task with
               | Some a => if a <? s then a else s
               | None => s
               end).
    set (e1 := match ResolvedTask.endResolved task with
               | Some b => if e <? b then b else e
               | None => e
               end).
    assert (Hs : (if date_lt (ResolvedTask.startResolved task) (Some s)
                  then Some (ResolvedTask.startResolved task) else Some (Some s))
                 = Some (Some s1)).
    { subst s1. unfold date_lt, date_gt.
      destruct (ResolvedTask.startResolved task) as [a|]; [|reflexivity].
      by destruct (a <? s). }
    assert (He : (if date_gt (ResolvedTask.endResolved task) (Some e)
                  then Some (ResolvedTask.endResolved task) else Some (Some e))
                 = Some (Some e1)).
    { subst e1. unfold date_gt.
      destruct (ResolvedTask.endResolved task) as [b|]; [|reflexivity].
      by destruct (e <? b). }
    rewrite Hs, He.
    destruct (IH s1 e1) as (s' & e' & Hf & Hs' & He' & Hlo & Hhi & Has & Hae).
    exists s', e'. split; [exact Hf|].
    assert (Hs1 : s1 <= s /\
                  (forall a, ResolvedTask.startResolved task = Some a -> s1 <= a) /\
                  (s1 = s \/ ResolvedTask.startResolved task = Some s1)).
    { subst s1. destruct (ResolvedTask.startResolved task) as [a|].
      - destruct (Z.ltb_spec a s); repeat split; try lia; auto;
          intros ? [= <-]; lia.
      - repeat split; try lia; auto. discriminate. }
    assert (He1 : e <= e1 /\
                  (forall b, ResolvedTask.endResolved task = Some b -> b <= e1) /\
                  (e1 = e \/ ResolvedTask.endResolved task = Some e1)).
    { subst e1. destruct (ResolvedTask.endResolved task) as [b|].
      - destruct (Z.ltb_spec e b); repeat split; try lia; auto;
          intros ? [= <-]; lia.
      - repeat split; try lia; auto. discriminate. }
    clearbody s1 e1.
    destruct Hs1 as (Hs1 & Hs2 & Hs3), He1 as (He1 & He2 & He3).
    split; [lia|]. split; [lia|]. split; [|split; [|split]].
    + intros t a Ht Ha. apply elem_of_cons in Ht as [->|Ht].
      * specialize (Hs2 a Ha). lia.
      * by apply (Hlo t).
    + intros t b Ht Hb. apply elem_of_cons in Ht as [->|Ht].
      * specialize (He2 b Hb). lia.
      * by apply (Hhi t).
    + destruct Has as [->|(t & Ht & Hts)].
      * destruct Hs3 as [->|H]; [by left|]. right. exists task. split; [by left|done].
      * right. exists t. split; [by right|done].
    + destruct Hae as [->|(t & Ht & Hte)].
      * destruct He3 as [->|H]; [by left|]. right. exists task. split; [by left|done].
      * right. exists t. split; [by right|done].
Qed.

(** When the first task has a valid start and a valid end, the loop of
    [setup_gantt_dates] leaves in [ganttStart] the least valid start and in
    [ganttEnd] the greatest valid end of the tasks: each is the date of
    some task, and an Invalid Date in a later task is passed over. *)
Theorem task_range_covers :
  forall t0 rest s0 e0,
    ResolvedTask.startResolved t0 = Some s0 ->
    ResolvedTask.endResolved t0 = Some e0 ->
    exists s e,
      task_range (t0 :: rest) = (Some (Some s), Some (Some e)) /\
      (forall task a, task ∈ t0 :: rest ->
                      ResolvedTask.startResolved task = Some a -> s <= a) /\
      (forall task b, task ∈ t0 :: rest ->
                      ResolvedTask.endResolved task = Some b -> b <= e) /\
      (exists task, task ∈ t0 :: rest /\ ResolvedTask.startResolved task = Some s) /\
      (exists task, task ∈ t0 :: rest /\ ResolvedTask.endResolved task = Some e).
Proof.
  intros t0 rest s0 e0 Hs0 He0. unfold task_range. cbn [foldl].
  unfold extend_gantt_dates at 2. rewrite Hs0, He0.
  destruct (task_range_from rest s0 e0)
    as (s & e & Hf & Hs & He & Hlo & Hhi & Has & Hae).
  exists s, e. split; [exact Hf|]. split; [|split; [|split]].
  - intros t a Ht Ha. apply elem_of_cons in Ht as [->|Ht].
    + rewrite Hs0 in Ha. injection Ha as <-. exact Hs.
    + by apply (Hlo t).
  - intros t b Ht Hb. apply elem_of_cons in Ht as [->|Ht].
    + rewrite He0 in Hb. injection Hb as <-. exact He.
    + by apply (Hhi t).
  - destruct Has as [->|(t & Ht & Hts)].
    + exists t0. split; [by left|done].
    + exists t. split; [by right|done].
  - destruct Hae as [->|(t & Ht & Hte)].
    + exists t0. split; [by left|done].
    + exists t. split; [by right|done].
Qed.

Lemma task_range_invalid_start rest :
  forall ganttEnd,
    (foldl extend_gantt_dates (Some None, ganttEnd) rest).1 = Some None.
Proof.
  induction rest as [|task rest IH]; intros ganttEnd; [reflexivity|].
  cbn [foldl]. unfold extend_gantt_dates at 2.
  replace (date_lt (ResolvedTask.startResolved task) None) with false
    by (unfold date_lt, date_gt; by destruct (ResolvedTask.startResolved task)).
  apply IH.
Qed.

(** An Invalid Date as the resolved start of the first task stays in
    [ganttStart] to the end of the loop of [setup_gantt_dates], whatever the
    starts of the other tasks: a [Date] is truthy and no date is less than
    an Invalid Date. *)
Theorem task_range_first_start_invalid :
  forall t0 rest,
    ResolvedTask.startResolved t0 = None ->
    (task_range (t0 :: rest)).1 = Some None.
Proof.
  intros t0 rest H. unfold task_range. cbn [foldl].
  unfold extend_gantt_dates at 2. rewrite H. apply task_range_invalid_start.
Qed.

Section GanttDatesLaws.
Context {U : DateUtils} {L : DateUtilsLaws U}.
Variable start_of : option Date -> Scale -> Date.

(** What is asked of [start_of]: the start of the day of a valid date is a
    valid date, not after it and less than a day before it. *)
Hypothesis start_of_day :
  forall ms, exists ms', start_of (Some (Some ms)) Day = Some ms' /\
                         ms' <= ms < ms' + ms_per_day.

(** In Quarter Day and Half Day view, when the first task has a valid start
    and a valid end, the range of the chart is valid and leaves at least
    seven days before the start and more than six days after the end of
    every task with valid dates. *)
Theorem setup_gantt_dates_padding :
  forall g t0 rest s0 e0,
    Gantt.tasks g = t0 :: rest ->
    ResolvedTask.startResolved t0 = Some s0 ->
    ResolvedTask.endResolved t0 = Some e0 ->
    view_is_array (Gantt.options g) [VIEW_MODE.QUARTER_DAY; VIEW_MODE.HALF_DAY]
      = true ->
    exists s e,
      setup_gantt_dates start_of g = (Some s, Some e) /\
      forall task a b,
        task ∈ Gantt.tasks g ->
        ResolvedTask.startResolved task = Some a ->
        ResolvedTask.endResolved task = Some b ->
        s + 7 * ms_per_day <= a /\ b + 6 * ms_per_day < e.
Proof.
  intros g t0 rest s0 e0 Ht Hs0 He0 Hview.
  assert (Hr0 : task_range (t0 :: rest)
                = foldl extend_gantt_dates (Some (Some s0), Some (Some e0)) rest).
  { unfold task_range. cbn [foldl]. unfold extend_gantt_dates at 2.
    by rewrite Hs0, He0. }
  destruct (task_range_from rest s0 e0)
    as (s & e & Hr & Hs & He & Hlo & Hhi & _ & _).
  unfold setup_gantt_dates. rewrite Ht, Hr0, Hr, Hview.
  destruct (start_of_day s) as (s' & -> & Hs'), (start_of_day e) as (e' & -> & He').
  rewrite !add_day. eexists _, _. split; [reflexivity|].
  intros task a b Hin Ha Hb. apply elem_of_cons in Hin as [->|Hin].
  - rewrite Hs0 in Ha. rewrite He0 in Hb. injection Ha as <-. injection Hb as <-. lia.
  - specialize (Hlo task a Hin Ha). specialize (Hhi task b Hin Hb). lia.
Qed.

End GanttDatesLaws.

(** ** The grid *)

Lemma length_of_cons {A : Type} (a : A) (l : list A) :
  (length_of (a :: l) == length_of l + 1)%Q.
Proof.
  unfold length_of. cbn [length]. rewrite Nat2Z.inj_succ. unfold Z.succ.
  by rewrite inject_Z_plus.
Qed.

Lemma inject_Z_S (k : nat) :
  (inject_Z (Z.of_nat (S k)) == inject_Z (Z.of_nat k) + 1)%Q.
Proof. rewrite Nat2Z.inj_succ. unfold Z.succ. by rewrite inject_Z_plus. Qed.

Lemma grid_rows_loop_lookup options row_width row_height tasks :
  forall row_y (k : nat) r l,
    grid_rows_loop options row_width row_height row_y tasks !! k = Some (r, l) ->
    Svg.x r = 0%Q /\
    (Svg.y r == row_y + inject_Z (Z.of_nat k)
                        * (Options.bar_height options + Options.padding options))%Q /\
    Svg.width r = row_width /\ Svg.height r = row_height /\
    Svg.x1 l = 0%Q /\ Svg.x2 l = row_width /\
    Svg.y1 l = (Svg.y r + row_height)%Q /\ Svg.y2 l = Svg.y1 l.
Proof.
  induction tasks as [|task tasks IH]; intros row_y k r l H; [discriminate|].
  destruct k as [|k].
  - injection H as <- <-. cbn. repeat split; try reflexivity.
    change (inject_Z 0) with 0%Q. ring.
  - cbn in H. destruct (IH _ _ _ _ H) as (H1 & H2 & H3).
    split; [exact H1|]. split; [|exact H3].
    rewrite H2, inject_Z_S. ring.
Qed.

Lemma grid_rows_loop_length options row_width row_height tasks :
  forall row_y,
    length (grid_rows_loop options row_width row_height row_y tasks) = length tasks.
Proof. induction tasks as [|task tasks IH]; intros row_y; cbn; [done|by rewrite IH]. Qed.


Section GridTicksFacts.
Variable get_days_in_month : Date -> Q.

Lemma grid_ticks_loop_lookup options tick_y tick_height dates :
  view_is options VIEW_MODE.MONTH = false ->
  forall tick_x (k : nat) t,
    grid_ticks_loop get_days_in_month options tick_y tick_height tick_x dates !! k
    = Some t ->
    (Svg.tick_x t == tick_x + inject_Z (Z.of_nat k) * Options.column_width options)%Q.
Proof.
  intros Hview.
  induction dates as [|date dates IH]; intros tick_x k t H; [discriminate|].
  destruct k as [|k].
  - injection H as <-. cbn. change (inject_Z 0) with 0%Q. ring.
  - cbn in H. rewrite Hview in H. rewrite (IH _ _ _ H), inject_Z_S. ring.
Qed.

Lemma grid_ticks_loop_extent options tick_y tick_height dates :
  forall tick_x t,
    t ∈ grid_ticks_loop get_days_in_month options tick_y tick_height tick_x dates ->
    Svg.tick_y t = tick_y /\ Svg.tick_height t = tick_height.
Proof.
  induction dates as [|date dates IH]; intros tick_x t H; cbn in H.
  - by apply elem_of_nil in H.
  - apply elem_of_cons in H as [->|H]; [by split|]. exact (IH _ _ H).
Qed.

Lemma grid_ticks_loop_length options tick_y tick_height dates :
  forall tick_x,
    length (grid_ticks_loop get_days_in_month options tick_y tick_height tick_x dates)
    = length dates.
Proof. induction dates as [|date dates IH]; intros tick_x; cbn; [done|by rewrite IH]. Qed.

(** In every view but Month, [make_grid_ticks] draws one tick for each
    date, tick [k] at [k] column widths from the left: the ticks are the
    left edges of the columns. *)
Theorem make_grid_ticks_columns :
  forall options dates tasks (k : nat) t,
    view_is options VIEW_MODE.MONTH = false ->
    make_grid_ticks get_days_in_month options dates tasks !! k = Some t ->
    length (make_grid_ticks get_days_in_month options dates tasks) = length dates /\
    (Svg.tick_x t == inject_Z (Z.of_nat k) * Options.column_width options)%Q.
Proof.
  intros options dates tasks k t Hview H. unfold make_grid_ticks in *.
  split; [apply grid_ticks_loop_length|].
  rewrite (grid_ticks_loop_lookup _ _ _ _ Hview _ _ _ H). ring.
Qed.


End GridTicksFacts.

(** ** The properties on the examples *)

Lemma get_all_dependent_tasks_complete_witness :
  "D" ∈ ["B"; "C"; "D"; "D"].
Proof.
  apply (get_all_dependent_tasks_complete 10 Examples.diamond_dependencyMap "A"
           ["B"; "C"; "D"; "D"] "D").
  - vm_compute. reflexivity.
  - apply (reachable_step _ "A" [Some "B"; Some "C"] (Some "B")).
    + vm_compute. reflexivity.
    + left.
    + apply (reachable_edge _ "B" [Some "D"]); [vm_compute; reflexivity|left].
  - discriminate.
Defined.



Lemma setupDependencies_inverse_index_witness :
  let g := Gantt.set_tasks
             (map_resolve (U := UTC.dateUtils) Examples.no_random 0
                Examples.diamond_tasks) Examples.gantt0 in
  (setupDependencies g).2 = Normal /\
  Gantt.tasks (setupDependencies g).1 = Gantt.tasks g /\
  forall d,
    Gantt.dependencyMap (setupDependencies g).1 !! d
    = match declared_dependents (Gantt.tasks g) d with
      | [] => None
      | l => Some l
      end.
Proof.
  intros g. apply (setupDependencies_inverse_index g).
  vm_compute.
  repeat (constructor;
          [eexists; split; [reflexivity|];
           repeat (constructor; [reflexivity|]); constructor|]).
  constructor.
Defined.

Lemma setupDependencies_inherited_name_throws_witness :
  let g := Gantt.set_tasks
             (map_resolve (U := UTC.dateUtils) Examples.no_random 0
                [Examples.task "A" RawAbsent RawAbsent (DepsString "toString")])
             Examples.gantt0 in
  (setupDependencies g).2 = TypeError /\
  Gantt.tasks (setupDependencies g).1 = Gantt.tasks g.
Proof.
  intros g. apply (setupDependencies_inherited_name_throws g).
  vm_compute. left. eexists. split; [reflexivity|]. left. reflexivity.
Defined.

Lemma setup_tasks_neither_bound_witness :
  exists r,
    Gantt.tasks (setup_tasks (U := UTC.dateUtils) Examples.no_random
                   [Examples.task "T" RawAbsent RawAbsent (DepsList [])]
                   Examples.gantt0).1 !! 0%nat = Some r /\
    ResolvedTask.startResolved r = Some UTC.today /\
    ResolvedTask.endResolved r
      = Some (UTC.today + 2 * ms_per_day
              + bump (U := UTC.dateUtils) (UTC.today + 2 * ms_per_day)) /\
    ResolvedTask.invalid r = true.
Proof.
  apply (setup_tasks_neither_bound (L := UTC_laws) Examples.no_random
           [Examples.task "T" RawAbsent RawAbsent (DepsList [])]
           Examples.gantt0 0
           (Examples.task "T" RawAbsent RawAbsent (DepsList [])));
    reflexivity.
Defined.



Lemma resolve_dependencies_round_trip_witness :
  ResolvedTask.dependencies
    (resolve_task (U := UTC.dateUtils) "0123456789"
       (Examples.task "T3" RawAbsent RawAbsent (DepsString "T1,T2")) 2)
  = Some ["T1"; "T2"].
Proof.
  apply (resolve_dependencies_round_trip (U := UTC.dateUtils) "0123456789"
           (Examples.task "T3" RawAbsent RawAbsent (DepsString "T1,T2")) 2
           ["T1"; "T2"]).
  - reflexivity.
  - repeat (constructor; [split; [discriminate|split; vm_compute; reflexivity]|]).
    constructor.
Defined.

Lemma Week_is_a_view_mode : "Week" ∈ VIEW_MODE.values.
Proof. rewrite known_view_mode. tauto. Defined.

Lemma get_snap_position_idempotent_witness :
  let options := (update_view_scale "Week" (defaultOptions, [])).1 in
  (get_snap_position options (get_snap_position options (-166))
   == get_snap_position options (-166))%Q.
Proof.
  apply (get_snap_position_idempotent "Week" defaultOptions [] (-166)).
  - exact Week_is_a_view_mode.
  - vm_compute. discriminate.
Defined.

Lemma get_snap_position_nonneg_witness :
  let options := (update_view_scale "Week" (defaultOptions, [])).1 in
  let g := snap_granularity options in
  let position := get_snap_position options 50 in
  (exists k : Z, 0 <= k /\ (position == g * inject_Z k)%Q) /\
  (50 - g / 2 < position <= 50 + g / 2)%Q.
Proof.
  apply (get_snap_position_nonneg "Week" defaultOptions [] 50).
  - exact Week_is_a_view_mode.
  - vm_compute. discriminate.
  - vm_compute. discriminate.
Defined.

Lemma get_snap_position_nonpos_witness :
  let options := (update_view_scale "Week" (defaultOptions, [])).1 in
  let g := snap_granularity options in
  let position := get_snap_position options (-30) in
  (exists k : Z, k <= 0 /\ (position == g * inject_Z k)%Q) /\
  (-30 <= position < -30 + g)%Q.
Proof.
  apply (get_snap_position_nonpos "Week" defaultOptions [] (-30)).
  - exact Week_is_a_view_mode.
  - vm_compute. discriminate.
  - vm_compute. discriminate.
Defined.

Lemma update_view_scale_known_witness :
  let '(options', console') :=
    update_view_scale "Week" (Examples.day_options, []) in
  console' = [] /\
  view_is options' "Week" = true /\
  (0 < Options.step options')%Q /\
  (0 < Options.column_width options')%Q /\
  (update_view_scale "Week"
     (update_view_scale "Month" (Examples.day_options, []))).1
  = options'.
Proof.
  apply (update_view_scale_known "Week" "Month" Examples.day_options []).
  rewrite known_view_mode. tauto.
Defined.

Lemma bar_mousedown_moves_nothing_witness :
  let g1 := (Examples.down_on (Examples.wrapper_of "T1")).1 in
  let c1 := (Examples.down_on (Examples.wrapper_of "T1")).2 in
  Gantt.options g1 = Gantt.options Examples.three_bars /\
  Gantt.tasks g1 = Gantt.tasks Examples.three_bars /\
  Gantt.dependencyMap g1 = Gantt.dependencyMap Examples.three_bars /\
  Gantt.bar_being_dragged g1 = Some (data_id (Examples.wrapper_of "T1")) /\
  (forall i : nat,
     geometry <$> Gantt.bars g1 !! i
     = geometry <$> Gantt.bars Examples.three_bars !! i) /\
  (forall i : nat, Some i ∉ BarEvents.bars c1 ->
                   Gantt.bars g1 !! i = Gantt.bars Examples.three_bars !! i).
Proof.
  apply (bar_mousedown_moves_nothing 10 (Examples.at_x 50)
           (Examples.wrapper_of "T1") Examples.three_bars BarEvents.initial
           (Examples.down_on (Examples.wrapper_of "T1")).1
           (Examples.down_on (Examples.wrapper_of "T1")).2 Normal).
  vm_compute. reflexivity.
Defined.


Lemma pointer_back_restores_bars_witness :
  exists b,
    Gantt.bars (bar_mousemoves ([Examples.at_x 95] ++ [Examples.at_x 50])
                  (Examples.down_on (Examples.wrapper_of "T1")).2
                  (Examples.down_on (Examples.wrapper_of "T1")).1) !! 1%nat
    = Some b /\
    (Rect.x (Bar.bar b) == Rect.x (Bar.bar Examples.T2_bar))%Q /\
    (Rect.width (Bar.bar b) == Rect.width (Bar.bar Examples.T2_bar))%Q.
Proof.
  apply (pointer_back_restores_bars 10 (Examples.at_x 50)
           (Examples.wrapper_of "T1") Examples.three_bars BarEvents.initial
           (Examples.down_on (Examples.wrapper_of "T1")).1
           (Examples.down_on (Examples.wrapper_of "T1")).2
           ["T2"; "T3"] [Examples.at_x 95] (Examples.at_x 50) "T2" 1
           Examples.T2_bar);
    [vm_compute; reflexivity|vm_compute; reflexivity|right; left|
     vm_compute; reflexivity|reflexivity|discriminate|
     vm_compute; reflexivity|reflexivity].
Defined.

Lemma document_mouseup_ends_gesture_witness :
  exists c2,
    document_mouseup (Examples.down_on (Examples.wrapper_of "T1")).2 = (c2, Normal) /\
    BarEvents.action_in_progress c2 = false /\
    bar_mousemoves [Examples.at_x 95] c2
      (Examples.down_on (Examples.wrapper_of "T1")).1
    = (Examples.down_on (Examples.wrapper_of "T1")).1 /\
    bar_mouseup c2 (Examples.down_on (Examples.wrapper_of "T1")).1
    = bar_mouseup (Examples.down_on (Examples.wrapper_of "T1")).2
        (Examples.down_on (Examples.wrapper_of "T1")).1.
Proof.
  apply (document_mouseup_ends_gesture 10 (Examples.at_x 50)
           (Examples.wrapper_of "T1") Examples.three_bars BarEvents.initial
           (Examples.down_on (Examples.wrapper_of "T1")).1
           (Examples.down_on (Examples.wrapper_of "T1")).2
           [Examples.at_x 95] (Examples.down_on (Examples.wrapper_of "T1")).1).
  vm_compute. reflexivity.
Defined.

Lemma gesture_stuck_after_throw_witness :
  let down :=
    default (Examples.dangling, BarEvents.initial, Normal)
      (bar_mousedown 10 (Examples.at_x 50) (Examples.wrapper_of "T1")
         Examples.dangling BarEvents.initial) in
  document_mouseup down.1.2 = (down.1.2, TypeError) /\
  forall e g', (bar_mousemove e down.1.2 g').2 = TypeError.
Proof.
  intros down.
  apply (gesture_stuck_after_throw 10 (Examples.at_x 50) (Examples.wrapper_of "T1")
           Examples.dangling BarEvents.initial down.1.1 down.1.2);
    vm_compute; reflexivity.
Defined.

Lemma click_commits_nothing_witness :
  bar_mouseup (Examples.down_on (Examples.wrapper_of "T1")).2
    (Examples.down_on (Examples.wrapper_of "T1")).1
  = (Gantt.set_bar_being_dragged None
       (Examples.down_on (Examples.wrapper_of "T1")).1, [], Normal).
Proof.
  apply (click_commits_nothing 10 (Examples.at_x 50)
           (Examples.wrapper_of "T1") Examples.three_bars BarEvents.initial).
  vm_compute. reflexivity.
Defined.

Lemma bar_mouseup_commits_witness :
  let g2 := bar_mousemoves ([Examples.at_x 60] ++ [Examples.at_x 95])
              (Examples.down_on (Examples.right_handle_of "T1")).2
              (Examples.down_on (Examples.right_handle_of "T1")).1 in
  exists calls,
    bar_mouseup (Examples.down_on (Examples.right_handle_of "T1")).2 g2
    = (Gantt.set_bar_being_dragged None g2, calls, Normal) /\
    if falsy_number
         (get_snap_position (Gantt.options Examples.three_bars)
            (offsetX (Examples.at_x 95) - offsetX (Examples.at_x 50)))
    then calls = []
    else Some <$> calls
         = map (get_bar Examples.three_bars)
             (data_id (Examples.right_handle_of "T1") :: ["T2"; "T3"]).
Proof.
  apply (bar_mouseup_commits 10 (Examples.at_x 50)
           (Examples.right_handle_of "T1") Examples.three_bars BarEvents.initial
           (Examples.down_on (Examples.right_handle_of "T1")).1
           (Examples.down_on (Examples.right_handle_of "T1")).2
           ["T2"; "T3"] [Examples.at_x 60] (Examples.at_x 95));
    vm_compute; reflexivity.
Defined.

Lemma progress_mouseup_commits_witness :
  let g2 := progress_mousemoves ([Examples.at_x 60] ++ [Examples.at_x 500])
              Examples.progress_down.2 Examples.progress_down.1 in
  let progressWidth := Rect.width (Bar.bar_progress Examples.T1_bar) in
  let barWidth := Rect.width (Bar.bar Examples.T1_bar) in
  let dx := clamp_dx (offsetX (Examples.at_x 500) - offsetX (Examples.at_x 50))
              (- progressWidth) (barWidth - progressWidth) in
  (progress_mouseup Examples.progress_down.2 Examples.progress_down.1).1.2 = [] /\
  (progress_mouseup Examples.progress_down.2 g2).1.2
  = (if falsy_number dx then [] else [0%nat]) /\
  (progress_mouseup Examples.progress_down.2 g2).2 = Normal /\
  BarProgress.is_resizing (progress_mouseup Examples.progress_down.2 g2).1.1 = false.
Proof.
  apply (progress_mouseup_commits (Examples.at_x 50)
           (Examples.progress_handle_of "T1") Examples.three_bars
           BarProgress.initial Examples.progress_down.1 Examples.progress_down.2
           [Examples.at_x 60] (Examples.at_x 500) 0 Examples.T1_bar);
    vm_compute; reflexivity.
Defined.

Lemma task_range_covers_witness :
  let t0 := resolve_task (U := UTC.dateUtils) "0123456789" Examples.T1 0 in
  let rest := [resolve_task (U := UTC.dateUtils) "0123456789" Examples.T2 1] in
  exists s e,
    task_range (t0 :: rest) = (Some (Some s), Some (Some e)) /\
    (forall task a, task ∈ t0 :: rest ->
                    ResolvedTask.startResolved task = Some a -> s <= a) /\
    (forall task b, task ∈ t0 :: rest ->
                    ResolvedTask.endResolved task = Some b -> b <= e) /\
    (exists task, task ∈ t0 :: rest /\ ResolvedTask.startResolved task = Some s) /\
    (exists task, task ∈ t0 :: rest /\ ResolvedTask.endResolved task = Some e).
Proof.
  intros t0 rest.
  apply (task_range_covers t0 rest 1704067200000 1704326400000);
    vm_compute; reflexivity.
Defined.

Lemma task_range_first_start_invalid_witness :
  (task_range
     (resolve_task (U := UTC.dateUtils) "0123456789"
        (Examples.task "T" (RawString "soon") RawAbsent (DepsList [])) 0
      :: [resolve_task (U := UTC.dateUtils) "0123456789" Examples.T2 1])).1
  = Some None.
Proof.
  apply (task_range_first_start_invalid
           (resolve_task (U := UTC.dateUtils) "0123456789"
              (Examples.task "T" (RawString "soon") RawAbsent (DepsList [])) 0)
           [resolve_task (U := UTC.dateUtils) "0123456789" Examples.T2 1]).
  vm_compute. reflexivity.
Defined.

Lemma setup_gantt_dates_padding_witness :
  let start_of : option Date -> Scale -> Date :=
    fun d _ => match d with
               | Some (Some ms) => Some (ms - ms mod ms_per_day)
               | _ => None
               end in
  let g := Gantt.mk (update_view_scale "Half Day" (defaultOptions, [])).1
             (map_resolve (U := UTC.dateUtils) Examples.no_random 0
                [Examples.T1; Examples.T2])
             ∅ [] None [] in
  exists s e,
    setup_gantt_dates (U := UTC.dateUtils) start_of g = (Some s, Some e) /\
    forall task a b,
      task ∈ Gantt.tasks g ->
      ResolvedTask.startResolved task = Some a ->
      ResolvedTask.endResolved task = Some b ->
      s + 7 * ms_per_day <= a /\ b + 6 * ms_per_day < e.
Proof.
  intros start_of g.
  assert (start_of_day :
            forall ms, exists ms', start_of (Some (Some ms)) Day = Some ms' /\
                                   ms' <= ms < ms' + ms_per_day).
  { intros ms. exists (ms - ms mod ms_per_day). split; [reflexivity|].
    pose proof (Z.mod_pos_bound ms ms_per_day eq_refl). lia. }
  apply (setup_gantt_dates_padding (L := UTC_laws) start_of start_of_day g
           (resolve_task (U := UTC.dateUtils) "0123456789" Examples.T1 0)
           [resolve_task (U := UTC.dateUtils) "0123456789" Examples.T2 1]
           1704067200000 1704326400000).
  - reflexivity.
  - vm_compute. reflexivity.
  - vm_compute. reflexivity.
  - vm_compute. reflexivity.
Defined.


Lemma make_grid_ticks_columns_witness :
  let options := Examples.day_options in
  let dates : list Date := [Some 0; Some ms_per_day] in
  let ticks := make_grid_ticks (fun _ => 30%Q) options dates [] in
  let t := default (Svg.mk_tick 0 0 0) (ticks !! 1%nat) in
  length ticks = length dates /\
  (Svg.tick_x t == inject_Z (Z.of_nat 1) * Options.column_width options)%Q.
Proof.
  intros options dates ticks t.
  apply (make_grid_ticks_columns (fun _ => 30%Q) options dates [] 1 t);
    reflexivity.
Defined.
